(** * The sudoku board model of [js/sudoku.js]

    A shallow embedding of [Cell] and [Board] (the closure returned by the
    [Board] constructor) together with the properties of construction,
    traversal, mutation, win detection and conflict detection.

    Cells are JavaScript objects: the board keeps references to them, and
    some of its methods hand those references out.  The embedding therefore
    has an explicit store of cell objects ([heap]) and the board is an array
    of references into it. *)

From Stdlib Require Import ZArith Lia Ascii String List Permutation.
From stdpp Require Import base decidable option list strings sorting.

Open Scope Z_scope.

(** ** Cells and the object store *)

(** [function Cell(row, col, val, fixed)]: the four fields of a cell object.
    Numbers are modelled as integers, so the third argument of
    [setCellValue] ranges over the integers. *)
Record Cell : Type := mkCell {
  row : Z;
  column : Z;
  value : Z;
  isFixed : bool
}.

(** A reference to a cell object is its position in the store; [new]
    appends to the store. *)
Abbreviation loc := nat (only parsing).
Abbreviation heap := (list Cell) (only parsing).

(** A reference is only ever produced by [new Cell], so a lookup never
    misses in the program; outside the store the model reads this cell. *)
Definition Cell_unallocated : Cell := mkCell 0 0 0 false.

Definition deref (h : heap) (l : loc) : Cell := default Cell_unallocated (h !! l).

(** ** Exceptions and the state monad of the store *)

Inductive exn : Type :=
| SudokuBoardError (message : string)
| TypeError.

Inductive outcome (A : Type) : Type :=
| Ret (a : A)
| Throw (e : exn).
Arguments Ret {A} a.
Arguments Throw {A} e.

Definition M (A : Type) : Type := heap -> outcome A * heap.

Definition ret {A} (a : A) : M A := fun h => (Ret a, h).
Definition throw {A} (e : exn) : M A := fun h => (Throw e, h).
Definition bind {A B} (m : M A) (k : A -> M B) : M B :=
  fun h => match m h with
           | (Ret a, h') => k a h'
           | (Throw e, h') => (Throw e, h')
           end.

Notation "'let!' x ':=' m 'in' k" := (bind m (fun x => k))
  (at level 10, x name, m at level 100, k at level 200).
Notation "'let!' ' pat ':=' m 'in' k" :=
  (bind m (fun x => match x with pat => k end))
  (at level 10, pat pattern, m at level 100, k at level 200).

(** Field reads and the one field write of the program ([cell.value = v]). *)
Definition get_row (cell : loc) : M Z := fun h => (Ret (row (deref h cell)), h).
Definition get_column (cell : loc) : M Z := fun h => (Ret (column (deref h cell)), h).
Definition get_value (cell : loc) : M Z := fun h => (Ret (value (deref h cell)), h).
Definition get_isFixed (cell : loc) : M bool := fun h => (Ret (isFixed (deref h cell)), h).

Definition with_value (c : Cell) (v : Z) : Cell :=
  mkCell (row c) (column c) v (isFixed c).

Definition store_value (h : heap) (cell : loc) (v : Z) : heap :=
  <[cell := with_value (deref h cell) v]> h.

Definition set_value (cell : loc) (v : Z) : M unit :=
  fun h => (Ret tt, store_value h cell v).

(** [new Cell(row, col, val, fixed)] *)
Definition new_Cell (row col val : Z) (fixed : bool) : M loc :=
  fun h => (Ret (length h), h ++ [mkCell row col val fixed]).

(** [Cell.fromCell(cell)] *)
Definition Cell_fromCell (cell : loc) : M loc :=
  let! r := get_row cell in
  let! c := get_column cell in
  let! v := get_value cell in
  let! f := get_isFixed cell in
  new_Cell r c v f.

(** [a[i]] on an array.  A missing element is [undefined]; every reader in
    the program dereferences the element before any other effect, which
    raises a [TypeError], so the model raises it at the read. *)
Definition array_get {A} (a : list A) (i : Z) : M A :=
  if i <? 0 then throw TypeError
  else match a !! Z.to_nat i with
       | Some x => ret x
       | None => throw TypeError
       end.

(** ** Index arithmetic *)

(** The numbers of the source are IEEE 754 doubles; the model computes with
    integers.  The two agree while every intermediate value is an integer
    of magnitude below [2 ^ 53] and the quotient [idx / 9] is rounded to
    the right side of the next integer, as is the case for the positions
    of the grid and the indices 0 to 80, and more generally for integer
    arguments of magnitude at most [2 ^ 31] (the range [small] below).
    Properties stated for arguments off the grid hold the arguments in
    that range. *)

Definition calcCellIndexFromBoardPosition (row col : Z) : Z :=
  (row - 1) * 9 + (col - 1).

(** [Math.floor(idx / 9) + 1] and [idx % 9 + 1]; [%] truncates. *)
Definition calcBoardPositionFromIndex (idx : Z) : Z * Z :=
  (idx / 9 + 1, Z.rem idx 9 + 1).

(** ** Loops *)

(** The state of the variables a loop body assigns, and whether the body
    fell through ([Next]) or executed [return] ([Exit]). *)
Inductive flow (S : Type) : Type :=
| Next (s : S)
| Exit (s : S).
Arguments Next {S} s.
Arguments Exit {S} s.

Definition flow_state {S} (r : flow S) : S :=
  match r with Next s => s | Exit s => s end.

(** [for (x = from; ...; x += 1) body], running [count] times unless the
    body returns. *)
Fixpoint for_loop {S} (from : Z) (count : nat)
    (body : Z -> S -> M (flow S)) (s : S) : M (flow S) :=
  match count with
  | O => ret (Next s)
  | Datatypes.S n =>
      let! r := body from s in
      match r with
      | Next s' => for_loop (from + 1) n body s'
      | Exit s' => ret (Exit s')
      end
  end.

(** ** Construction *)

(** The argument of [new Board(boardDef)] is any JavaScript value.  The
    characters of a string are 8-bit characters here. *)
Inductive jsval : Type :=
| JsString (s : string)
| JsNumber (n : Z)
| JsBoolean (b : bool)
| JsNull
| JsUndefined
| JsObject.

Definition typeof (v : jsval) : string :=
  match v with
  | JsString _ => "string"
  | JsNumber _ => "number"
  | JsBoolean _ => "boolean"
  | JsNull => "object"
  | JsUndefined => "undefined"
  | JsObject => "object"
  end%string.

(** [parseInt(boardDef[i], 10)] on the one-character string [boardDef[i]]
    ([None] in the argument is [undefined], in the result [NaN]). *)
Definition parseInt (c : option ascii) : option Z :=
  match c with
  | Some c =>
      let n := Z.of_N (N_of_ascii c) in
      if (48 <=? n) && (n <=? 57) then Some (n - 48) else None
  | None => None
  end.

Definition not_a_string : exn :=
  SudokuBoardError "Invalid board definition (not a string)".
Definition wrong_length : exn :=
  SudokuBoardError "Invalid board definition (wrong length)".
Definition invalid_cell_value : exn :=
  SudokuBoardError "Invalid board definition (invalid cell value)".

(** The body of the loop of [init]; [cells] is the array built so far.
    [i] is [cells.length] throughout, so [cells[i] = ...] extends the array
    by one element. *)
Definition init_body (boardDef : string) (i : Z) (cells : list loc)
    : M (flow (list loc)) :=
  let pos := calcBoardPositionFromIndex i in
  let num := parseInt (String.get (Z.to_nat i) boardDef) in
  match num with
  | None => throw invalid_cell_value                      (* isNaN(num) *)
  | Some num =>
      let fixed := negb (num =? 0) in
      if (num <? 0) || (num >? 9) then throw invalid_cell_value
      else
        let! cell := new_Cell (fst pos) (snd pos) num fixed in
        ret (Next (cells ++ [cell]))
  end.

Definition init (boardDef : jsval) : M (list loc) :=
  match boardDef with
  | JsString s =>
      if negb (String.length s =? 81)%nat then throw wrong_length
      else
        let! r := for_loop 0 (String.length s) (init_body s) [] in
        ret (flow_state r)
  | _ => throw not_a_string               (* typeof boardDef !== "string" *)
  end.

(** A board is its private array [cells]. *)
Record Board : Type := mkBoard { cells : list loc }.

(** [new Board(boardDef)] *)
Definition new_Board (boardDef : jsval) : M Board :=
  let! cells := init boardDef in
  ret (mkBoard cells).

(** ** Objects used as maps *)

(** A plain object whose property names are numbers: its own properties in
    insertion order.  Distinct integers (exactly represented) convert to
    distinct property names, none of them a name inherited from
    [Object.prototype]. *)
Abbreviation obj A := (list (Z * A)) (only parsing).

(** [o[k]], [None] being [undefined]. *)
Fixpoint obj_get {A} (o : obj A) (k : Z) : option A :=
  match o with
  | [] => None
  | (k', a) :: o' => if k' =? k then Some a else obj_get o' k
  end.

(** [o[k] = a]: an existing property keeps its place, a new one goes last. *)
Fixpoint obj_set {A} (o : obj A) (k : Z) (a : A) : obj A :=
  match o with
  | [] => [(k, a)]
  | (k', a') :: o' =>
      if k' =? k then (k', a) :: o' else (k', a') :: obj_set o' k a
  end.

(** The order in which [for (name in o)] visits the properties of [o]:
    array indices (canonical numeric names below 2^32 - 1) in ascending
    order, then the other names in insertion order. *)
Definition is_array_index (k : Z) : bool := (0 <=? k) && (k <? 4294967295).

Fixpoint insert_by_key {A} (p : Z * A) (o : obj A) : obj A :=
  match o with
  | [] => [p]
  | q :: o' => if fst p <=? fst q then p :: o else q :: insert_by_key p o'
  end.

Definition for_in_order {A} (o : obj A) : obj A :=
  foldr insert_by_key [] (filter (fun p => is_array_index (fst p) = true) o)
  ++ filter (fun p => is_array_index (fst p) <> true) o.

(** ** Traversals *)

(** What a callback of a traversal returns: the traversals test the
    result with [=== false]. *)
Inductive cbret : Type :=
| ReturnsFalse
| ReturnsUndefined.

(** A callback [function (cell, x, newX)] that assigns variables of type
    [S] of the enclosing function. *)
Definition callback (S : Type) : Type := loc -> Z -> bool -> S -> M (S * cbret).

(** [if (cb(...) === false) { return; }] *)
Definition after_callback {S} (r : S * cbret) : flow S :=
  match r with
  | (s, ReturnsFalse) => Exit s
  | (s, ReturnsUndefined) => Next s
  end.

Definition getCellAtPosition (b : Board) (row col : Z) (copy : bool) : M loc :=
  let idx := calcCellIndexFromBoardPosition row col in
  let! cell := array_get (cells b) idx in
  if copy then Cell_fromCell cell else ret cell.

Definition walkCellsByRow {S} (b : Board) (cb : callback S) (s : S) : M S :=
  let! r :=
    for_loop 1 9 (fun row s =>
      for_loop 1 9 (fun col s =>
        let! cell := getCellAtPosition b row col false in
        let newRow := col =? 1 in
        let! r := cb cell row newRow s in
        ret (after_callback r)) s) s in
  ret (flow_state r).

Definition walkCellsByColumn {S} (b : Board) (cb : callback S) (s : S) : M S :=
  let! r :=
    for_loop 1 9 (fun col s =>
      for_loop 1 9 (fun row s =>
        let! cell := getCellAtPosition b row col false in
        let newCol := row =? 1 in
        let! r := cb cell col newCol s in
        ret (after_callback r)) s) s in
  ret (flow_state r).

Definition walkCellsByBox {S} (b : Board) (cb : callback S) (s : S) : M S :=
  let! r :=
    for_loop 0 9 (fun boxIdx s =>
      let firstCellIdx := boxIdx / 3 * 27 + Z.rem boxIdx 3 * 3 in
      let cellIndices :=
        [firstCellIdx;      firstCellIdx + 1;  firstCellIdx + 2;
         firstCellIdx + 9;  firstCellIdx + 10; firstCellIdx + 11;
         firstCellIdx + 18; firstCellIdx + 19; firstCellIdx + 20] in
      for_loop 0 9 (fun inBoxIdx s =>
        let! idx := array_get cellIndices inBoxIdx in
        let! cell := array_get (cells b) idx in
        let newBox := inBoxIdx =? 0 in
        let! r := cb cell (boxIdx + 1) newBox s in
        ret (after_callback r)) s) s in
  ret (flow_state r).

(** The three traversals have this type. *)
Definition walker : Type := forall S, Board -> callback S -> S -> M S.

(** ** Accessors and mutation *)

Section Accessors.

(** [$.extend(true, [], cells)] copies the array and clones the elements
    that jQuery takes for plain objects.  Whether an object built by
    [new Cell] counts as one is jQuery's decision, not this program's: it
    is a parameter here, and every result below holds for both answers. *)
Variable isPlainObject_Cell : bool.

Fixpoint extend_deep (src : list loc) : M (list loc) :=
  match src with
  | [] => ret []
  | copy :: src' =>
      let! c := (if isPlainObject_Cell then Cell_fromCell copy else ret copy) in
      let! target := extend_deep src' in
      ret (c :: target)
  end.

Definition getBoard (b : Board) : M (list loc) := extend_deep (cells b).

End Accessors.

Definition getCell (b : Board) (row col : Z) : M loc :=
  getCellAtPosition b row col true.

Definition setCellValue (b : Board) (row col value : Z) : M bool :=
  let! cell := getCellAtPosition b row col false in
  let! fixed := get_isFixed cell in
  let! _ := (if negb fixed then set_value cell value else ret tt) in
  let! fixed := get_isFixed cell in
  ret (negb fixed).

(** ** Win detection *)

(** The callback of [check] in [hasWon]; it assigns [won] of [hasWon] and
    [usedNumbers] of [check] ([None] while still [undefined]). *)
Definition hasWon_callback : callback (bool * option (obj bool)) :=
  fun cell x newX '(won, usedNumbers) =>
    let usedNumbers := if newX then Some [] else usedNumbers in
    let! v := get_value cell in
    let! '(won, usedNumbers) :=
      (if v =? 0 then ret (false, usedNumbers)
       else match usedNumbers with
            | None => throw TypeError
            | Some used =>
                match obj_get used v with
                | Some true => ret (false, usedNumbers)
                | _ => ret (won, Some (obj_set used v true))
                end
            end) in
    ret ((won, usedNumbers),
         if negb won then ReturnsFalse else ReturnsUndefined).

Definition hasWon_check (walkFun : walker) (b : Board) (won : bool) : M bool :=
  let! '(won, _) := walkFun _ b hasWon_callback (won, None) in
  ret won.

Definition hasWon (b : Board) : M bool :=
  let won := true in
  let! won := hasWon_check (@walkCellsByRow) b won in
  let! won := (if negb won then hasWon_check (@walkCellsByColumn) b won
               else ret won) in
  let! won := (if negb won then hasWon_check (@walkCellsByBox) b won
               else ret won) in
  ret won.

(** ** Conflict detection *)

(** [$.each(cellsWithValue, function(value, cells) { if (cells &&
    cells.length > 1) { conflicts = conflicts.concat(cells); } })] *)
Definition add_conflicts (cellsWithValue : obj (list loc))
    (conflicts : list loc) : list loc :=
  fold_left (fun conflicts '(_, cells) =>
               if (1 <? length cells)%nat then conflicts ++ cells
               else conflicts)
            (for_in_order cellsWithValue) conflicts.

(** The callback of [check] in [getConflicts]; it assigns [cellsWithValue]
    of [check] and [conflicts] of [getConflicts]. *)
Definition getConflicts_callback
    : callback (option (obj (list loc)) * list loc) :=
  fun cell x newX '(cellsWithValue, conflicts) =>
    let '(cellsWithValue, conflicts) :=
      if newX then
        (Some [], match cellsWithValue with
                  | Some o => add_conflicts o conflicts
                  | None => conflicts
                  end)
      else (cellsWithValue, conflicts) in
    let! v := get_value cell in
    if negb (v =? 0) then
      match cellsWithValue with
      | None => throw TypeError
      | Some o =>
          let o' := match obj_get o v with
                    | None => obj_set o v [cell]
                    | Some cs => obj_set o v (cs ++ [cell])
                    end in
          ret ((Some o', conflicts), ReturnsUndefined)
      end
    else ret ((cellsWithValue, conflicts), ReturnsUndefined).

(** [check(walkFun)] of [getConflicts].  The final [$.each] runs on an
    object: every traversal calls the callback first with [newX] true. *)
Definition getConflicts_check (walkFun : walker) (b : Board)
    (conflicts : list loc) : M (list loc) :=
  let! '(cellsWithValue, conflicts) :=
    walkFun _ b getConflicts_callback (None, conflicts) in
  match cellsWithValue with
  | Some o => ret (add_conflicts o conflicts)
  | None => throw TypeError
  end.

(** [$.inArray(elem, arr)]: the first index of [elem], or -1. *)
Fixpoint inArray (elem : loc) (arr : list loc) : Z :=
  match arr with
  | [] => -1
  | e :: arr' =>
      if (e =? elem)%nat then 0
      else let i := inArray elem arr' in if i =? -1 then -1 else i + 1
  end.

Definition unique (arr : list loc) : list loc :=
  fold_left (fun result elem =>
               if inArray elem result =? -1 then result ++ [elem] else result)
            arr [].

(** The comparison function given to [sort]. *)
Definition compare_cells (h : heap) (a b : loc) : Z :=
  let a := deref h a in
  let b := deref h b in
  if row a <? row b then -1
  else if row a >? row b then 1
  else if column a <? column b then -1
  else if column a >? column b then 1
  else 0.

(** [arr.sort(cmp)], as a stable insertion sort.  The comparison of
    [getConflicts] is a total preorder, for which every sorting algorithm
    returns an ordered permutation. *)
Fixpoint sort_insert (cmp : loc -> loc -> Z) (x : loc) (l : list loc) : list loc :=
  match l with
  | [] => [x]
  | y :: l' => if cmp x y <=? 0 then x :: l else y :: sort_insert cmp x l'
  end.

Definition Array_sort (cmp : loc -> loc -> Z) (arr : list loc) : list loc :=
  foldr (sort_insert cmp) [] arr.

Definition getConflicts (b : Board) : M (list loc) :=
  let conflicts := [] in
  let! conflicts := getConflicts_check (@walkCellsByRow) b conflicts in
  let! conflicts := getConflicts_check (@walkCellsByColumn) b conflicts in
  let! conflicts := getConflicts_check (@walkCellsByBox) b conflicts in
  let conflicts := unique conflicts in
  fun h => (Ret (Array_sort (compare_cells h) conflicts), h).

(** ** Restart *)

Definition restart_callback : callback unit :=
  fun cell newRow rowIdx _ =>
    let! fixed := get_isFixed cell in
    let! _ := (if negb fixed then set_value cell 0 else ret tt) in
    ret (tt, ReturnsUndefined).

Definition restart (b : Board) : M unit :=
  walkCellsByRow b restart_callback tt.

(** ** The runner *)

(** The variables of [SudokuRunner] that the functions below read and
    assign: [board], [activeCell] ([None] is [null]), [hasWon] and
    [conflicts]. *)
Record Runner : Type := mkRunner {
  board : Board;
  activeCell : option loc;
  Runner_hasWon : bool;
  conflicts : list loc
}.

(** [isCellInConflict(cell)]; the state of the loop is the value the
    function returns. *)
Definition isCellInConflict (conflicts : list loc) (cell : loc) : M bool :=
  let! r :=
    for_loop 0 (length conflicts) (fun i (_ : bool) =>
      let! conflictCell := array_get conflicts i in
      let! row1 := get_row conflictCell in
      let! row2 := get_row cell in
      if row1 =? row2 then
        let! column1 := get_column conflictCell in
        let! column2 := get_column cell in
        if column1 =? column2 then ret (Exit true) else ret (Next false)
      else ret (Next false)) false in
  ret (flow_state r).

(** [getAdjacentCell(cell, direction)]; [None] is [null]. *)
Definition getAdjacentCell (board : Board) (cell : loc) (direction : Z)
    : M (option loc) :=
  if direction =? 0 then                                     (* Left *)
    let! column := get_column cell in
    if column >? 1 then
      let! row := get_row cell in
      let! column := get_column cell in
      let! result := getCell board row (column - 1) in
      ret (Some result)
    else ret None
  else if direction =? 1 then                                (* Up *)
    let! row := get_row cell in
    if row >? 1 then
      let! row := get_row cell in
      let! column := get_column cell in
      let! result := getCell board (row - 1) column in
      ret (Some result)
    else ret None
  else if direction =? 2 then                                (* Right *)
    let! column := get_column cell in
    if column <? 9 then
      let! row := get_row cell in
      let! column := get_column cell in
      let! result := getCell board row (column + 1) in
      ret (Some result)
    else ret None
  else if direction =? 3 then                                (* Down *)
    let! row := get_row cell in
    if row <? 9 then
      let! row := get_row cell in
      let! column := get_column cell in
      let! result := getCell board (row + 1) column in
      ret (Some result)
    else ret None
  else ret None.

(** [handleNumberInput(number)] *)
Definition handleNumberInput (number : Z) (r : Runner) : M Runner :=
  match activeCell r with
  | None => ret r
  | Some cell =>
      let! row := get_row cell in
      let! column := get_column cell in
      let! _ := setCellValue (board r) row column number in
      let! won := hasWon (board r) in
      if won then ret (mkRunner (board r) None true (conflicts r))
      else
        let! cs := getConflicts (board r) in
        ret (mkRunner (board r) (activeCell r) (Runner_hasWon r) cs)
  end.

(** ** The boards of the game *)

(** The table [sudokuBoards] the runner draws its board definition from,
    in the order of the source. *)
Definition sudokuBoards : list string := [
  "000091000000700600001003040002050406090006007078400010080309100406810000030000000";
  "060053700050900000109000003005060004200009007000100080098006500004000016000020800";
  "090057300070100900000009048005030407700001002009000080080605000903000054010020000";
  "010025000060800500002003910001070308000082001004500070000206100500000047040000000";
  "780060000000000900003001060600090100970008006001300000000200700500040009020075004";
  "031084000080300000400002700000020805800007009003900060000700002500000078060030400";
  "025010000000200300000008620008070900360009002009600070046802007102030008090050000";
  "070029400000300200000006057004000103180000004020800060038002000009640001600050000";
  "010034000000200600002000030009020001500076002000300040060008700805000003240090000";
  "010005600020400700007009014001000506200000000004800070070308100609000087040090000";
  "026094000000200000009001300003000506700010004001400020014902805005000009300040000";
  "070020000000900700002104090000010500600089004031500860005400600400800002080050000";
  "040009100000100700000005826005010903900006000001500060018204000002000007600080000";
  "000048900000300700004001538007030609000095003001000070020803400405000000830000000";
  "050082700000600200002000593005020001100068007000300020040003800509000002260010000";
  "068059000070000500009000040000080005750023004003500000000900107800030096030060000";
  "820040073000000000006935200630000095400802001980000027003789600000000000160020084";
  "070020090002090600010408050700602004800000007200701009090804020008010400040030010";
  "080701090907000301040030070800000004400298005200000006020010050508000103030405020";
  "170050068800601002000020000503000804060204010201000906000010000300406009410030057";
  "050060090001000400046291570980000024000805000630000015027154980009000300060020040";
  "010804070400306005003050600830000094200605007150000026004010800300207001020403060";
  "420080071008000300006702500380000054000407000570000092007201800002000400930060017";
  "050000060006000200040163070800407005000090000100602007090825010008000900060000080";
  "070000030005000600010354020160908072900000003540702016030627050004000300050000080";
  "630020095000000000009304200420000061010605020950000073003207600000000000240090038";
  "080000030006010700027306180000703000500891006000405000045109360003040200060000090";
  "807409603401000809000080000004607300603000407005804200000070000709000506508306902";
  "020104080001809300000020000004302600207000103009607200000070000003401500070905040";
  "087000690006070100000695000004908700300040001002107800000762000005010200029000370";
  "009000700078302140000479000801507302060000090205906804000684000026703410007000900";
  "012306940000000000706050108200080003300407001600020004907040306000000000023608750";
  "030090080009328600000604000803000506024000190501000304000405000005263800060070050";
  "005107300800602004000090000208000406100000007406000509000080000300201005001305700";
  "075000980009268500000070000506000709004501300908000105000030000007654200051000490";
  "501702030043000070000001000000300052004000600830007000000600000020000940050408306";
  "003009020012005400009001008900800000508000906000002004300100700005400680070900100";
  "008301290005007040000000000500106030204000708070402006000000000090700300027904500";
  "901400080078001050000003000710500003005000900400006025000600000030100840090004102";
  "001006500090002000060009001800700093000000000910008005600800020000300050005900700";
  "005401070746005010000007002000002060602000403010600000200300000050700926060908100";
  "109803240002006030000009006000000005701000304800000000200300000010600800098201703";
  "005002400047000030000007002600805000008000100000604009500100000080000670001400900";
  "908507000704006010003001000100900003006000100300004002000100500070400301000203704";
  "605203740900007020002000005400500009000000000500006002100000400080400003094805207";
  "009208040583000020002007000000102060007000300030704000000800600070000491060405800";
  "400002650267005900005009000900800006003000400600001007000200300006900145019300008";
  "900700140073002000004006000400000000702000306000000008000900700000300280028007005";
  "001403090009001200003007006000900001607000304800006000700300100005100800030602900";
  "001508070050000090004002000680100700400000005007009064000600800010000030090301600";
  "502406010987002040000000000000200701708000609201009000000000000010500873070903204";
  "009801500052007090000009007800000006907000201400000003600300000080200140004905300";
  "902700050130008270000006000590100000004000500000004087000600000081400063020001705";
  "000005420316008050000001003600500800902000306008009005500100000060800534083900000";
  "503107420004005700000004000640800009005000800800003047000700000006300200081602305";
  "800603070970000160003007000690800000001000600000004092000700800027000036080405009";
  "900704100072000060000002007500900001609000502100008009800500000060000750003601004";
  "407008060390006000002003000730000600206000405009000082000400500000800016020100709";
  "300507020760002090002009000180000700200000005009000014000800100020700089070605003";
  "400001070317005060000004000200300708006000900804009006000900000020800354050400007";
  "000302980842009060000004000700000308004000100903000007000700000070800431096201000";
  "108004650302000090000007000000105200005090700007402000000200000050000409049500106";
  "307009560089004000050007000020600005003000900700005080000900050000700640061400807";
  "705108260046009000000005000200900001007000300800006007000800000000400970062703104";
  "400001230329006000005002000040000902006000500207000060000600700000100385072800004";
  "009007120047000090010005000090100006001040300300002070000300010080000530034200900";
  "000001080073004020006003009060300001701000408500008070100900600050400810020800000";
  "200006390000009420006007000800100000701000905000003002000400600084900000017500009";
  "307002060654007000000005009000300000908000206000001000400500000000600752030200408";
  "806700910197005080000008000000500000409000106000007000000200000070900532023006801";
  "007902130500000070006005000070800006008000700300001090000200900060000001013504200";
  "009706000216003000040005009080300000602000108000008090300600050000800761000502400";
  "307002060654007000000005009000300000908000206000001000400500000000600752030200408";
  "800020905007360200040000760060049000000000000000610050018000040004081500503070001";
  "067010204009000130450300000040006000100080006000400070000007058082000700503040610";
  "004037806003000720010000005000006103000070000809300000200000080041000500908510200";
  "104003806000210400070000500000027000050060010000180000001000080007034000308500902";
  "063000507009850400000000010030025800000080000004960030090000000002096700107000290";
  "900045806000300900080000420000009500050070090004200000049000010003002000501690008";
  "060084720102000400040000010010046200000090000007820050070000060003000109081360040";
  "030007604000600070700800300080069000020000010000280040004005001050006000302700050";
  "007092035003000090058700040070039000000080000000160020080001250090000100210540300";
  "760080100008700200030000080070094000050000040000360050010000030005002800009040025";
  "076089003105200600040000000010042005020000070500970030000000010001005806700160320";
  "023001008000450000000000430080014900040000060001520040098000000000042000600900310";
  "000078205008900300040000080030012900080000050009680030090000010001007500604890000";
  "061074203000030700040000000020061400050080030004950080000000070008040000702610840";
  "704002009001530000000000050080001200020080070005300080070000000000063900600100308";
  "061027003002100000090000400050082000030000050000370020003000080000001600600840970";
  "000041706009000580010500020080002300070030060002700010020009030035000600801320000";
  "608000975007300600050000200040069007000040000700820060005000080004002100276000503";
  "004037806003000720010000005000006103000070000809300000200000080041000500908510200";
  "104003806000210400070000500000027000050060010000180000001000080007034000308500902";
  "063000507009850400000000010030025800000080000004960030090000000002096700107000290";
  "900045806000300900080000420000009500050070090004200000049000010003002000501690008";
  "060084720102000400040000010010046200000090000007820050070000060003000109081360040";
  "030007604000600070700800300080069000020000010000280040004005001050006000302700050";
  "007092035003000090058700040070039000000080000000160020080001250090000100210540300";
  "760080100008700200030000080070094000050000040000360050010000030005002800009040025";
  "076089003105200600040000000010042005020000070500970030000000010001005806700160320";
  "023001008000450000000000430080014900040000060001520040098000000000042000600900310";
  "000078205008900300040000080030012900080000050009680030090000010001007500604890000";
  "061074203000030700040000000020061400050080030004950080000000070008040000702610840";
  "704002009001530000000000050080001200020080070005300080070000000000063900600100308";
  "061027003002100000090000400050082000030000050000370020003000080000001600600840970";
  "000041706009000580010500020080002300070030060002700010020009030035000600801320000";
  "608000975007300600050000200040069007000040000700820060005000080004002100276000503";
  "004037806003000720010000005000006103000070000809300000200000080041000500908510200";
  "104003806000210400070000500000027000050060010000180000001000080007034000308500902";
  "063000507009850400000000010030025800000080000004960030090000000002096700107000290";
  "900045806000300900080000420000009500050070090004200000049000010003002000501690008";
  "060084720102000400040000010010046200000090000007820050070000060003000109081360040";
  "030007604000600070700800300080069000020000010000280040004005001050006000302700050";
  "007092035003000090058700040070039000000080000000160020080001250090000100210540300";
  "760080100008700200030000080070094000050000040000360050010000030005002800009040025";
  "076089003105200600040000000010042005020000070500970030000000010001005806700160320";
  "023001008000450000000000430080014900040000060001520040098000000000042000600900310";
  "000078205008900300040000080030012900080000050009680030090000010001007500604890000";
  "061074203000030700040000000020061400050080030004950080000000070008040000702610840";
  "054000000800030700209040000000050093026900000000007086070000000000203010000105008";
  "000700000050002008004050300700080062002140000010000500008001905000200040070900600";
  "043006000200015000605070000000900030091050000860000051000000604000703020000009700";
  "890004000100020000005009400000000038050090000206008054003000107000603040000401500";
  "098600000740001000200090000300700020009020000080003079000000205000408060000006704";
  "026008000300090400900410000003020067082600000100004000070000306000500040000900200";
  "005001000080040100207060000000290003078400000600000700020008400000000075000500090";
  "023000000800056000409020000000170036075200000080000021000000402000705090000602103";
  "006708000010054000403020000700980003028600000960000078000000302000003010000807409";
  "073004000480020003900060000000000004062090000800005190000008005000003060020900400";
  "089400000520000600400090000100300005002080000000000814090001000000007001000204070";
  "020901000910008000005060000500140086007500000640003095000000908000602040000804200";
  "029001000800520000400070000040000008076030000100000340000004702000009013000100580";
  "000806000000097200009050600500380006097410000820000009016000008000000090000508104";
  "005802000000030000903016200300000076086000000502009004009000307000900010000201409";
  "036001000400600001900050800080000049004020000100009080007000006000107000060500703";
  "010708000370020000002060000200070068056810900900006050000080005000501020000300701";
  "930600000160008000002050040200040018001200000040000003000000409009300080000402701";
  "071005000390800000605023000040050061007400000109006040000000006000509010000300508";
  "050204000800060000007050100100020078073400000600009040001000805000701060000500900";
  "090005000150074300004920000005700030021050000370008009010000002000200050000006901";
  "080000000970048000003020500000050017026780000040000009008000602000800090000305400";
  "009600000000089000400070100600500083017000000050000007003000905000900040000304806";
  "048200000960031000201090000300610070072940000080003001000000908000100020000005607";
  "051607000600080000908000000700090082060250000800000041000000906000309010000804200";
  "009003000060050000204071900000094010035200000907100000006000408000800020000000309";
  "070109000920080000008050900100020060065400000400000028006000007000705080000006301";
  "080400360000060050000080409000000100450601027006000000508040000090050000021007080";
  "000408020000637010800000405000000650340905082085000000108000004050784000090103000";
  "400500020300070040000060703005000390060704080042000100807040000090010006050007009";
  "800105000300060070000070100085000017030209040420000590009030000010080004000604001";
  "300008000000040030100030487030000240070000050016000090495080002080090000000600008";
  "900702080000060020000040705040000590100000008062000030408090000070080000020607004";
  "800401020000000060300050409000000803730904056504000000402010007060000000070602004";
  "900105020000000030000030908040200301010403080803007040706020000090000000020604009";
  "900100060000030020100050308070000000810604079000000040302040001090060000060001002";
  "700904000000010060500070300360400080950000037070003094007020008010080000000706003";
  "800106920000002080000030106000000650080605010026000000601070000050400000072508009";
  "600100350000052100000080607000000863000304000327000000804030000009420000075001006";
  "700900050000067030000020007060100920590040013017009060600050000050310000030008005";
  "900107000100000090000030206010700050490050073050004020604070000080000001000208009";
  "500408020000010060800050907000000610410807059056000000605090001040030000030504006";
  "400503020000090060500060403090300000070040050000002010807020001060080000020601004";
  "500109030000020060900080001000800510020513090059004000200060004090050000040701009";
  "700300680000026070000000104050000200030407060009000040105000000020710000048009006";
  "910400780000020000800090401000000630030589070094000000301060008000010000089005013";
  "700502000000308720000040005000000850280603071079000000900070000024901000000205003";
  "100405090000080000900010702040000930000807000069000050703020004000030000020901003";
  "900708040000040060000060802050000010840607025070000030103080000060050000020401006";
  "500800000000930080400060001050000720000798000097000030600070003030089000000004002";
  "000607030000020000600080417040700200180302095006001040769030004000010000010906000";
  "100000058600080190700050002020600007030201060900005020300060005076030009840000006";
  "320700010000050040000030006940500200000407000008003079100060000090070000060004051";
  "630807000000060050200010600013500080500000007060001540001030005080020000000706019";
  "600000070000508010000040908010000802020401050507000030406020000090103000080000005";
  "000903005900067030000000801000000120030509040014000000305000000040650003800301000";
  "900002080000860090000050704000100030170403065040006000207080000060014000090200006";
  "300902000000000040400030010000600102060451090709003000020060007090000000000805009";
  "500203010000040000000000523000100098980060047130004000625000000000010000010709006";
  "000000705300058100500020060000000490600105008071000000080030002002870009405000000";
  "400503080000000020200090503080000700150782039009000050607030005020000000040207001";
  "800106920000002080000030106000000650080605010026000000601070000050400000072508009";
  "600100350000052100000080607000000863000304000327000000804030000009420000075001006";
  "700900050000067030000020007060100920590040013017009060600050000050310000030008005";
  "900107000100000090000030206010700050490050073050004020604070000080000001000208009";
  "500408020000010060800050907000000610410807059056000000605090001040030000030504006";
  "400503020000090060500060403090300000070040050000002010807020001060080000020601004";
  "500109030000020060900080001000800510020513090059004000200060004090050000040701009";
  "700300680000026070000000104050000200030407060009000040105000000020710000048009006";
  "910400780000020000800090401000000630030589070094000000301060008000010000089005013";
  "700502000000308720000040005000000850280603071079000000900070000024901000000205003";
  "002000090600000005080006700040600900051890000260043000003020004000734200000900070";
  "009100040570000301030000590010700000093650000000981007000020003000064210200000070";
  "007009050040100908060000040080000002014520000700090080000070009000016820600900000";
  "007000000030082100090001470100000760040060090200000000005000004000030820700206000";
  "008605000040070000030008000890001306050020080200000001001000008000037590300802000";
  "000000020000534807030007650580003270024070090300000040002040000000029400900608000";
  "006002080070090002050000900030509008005310040010068000001080009000203850700000000";
  "001800030060070002020001400000009100096420080200080004009030005000040370800500000";
  "001000038020600007030001600080007200014080000700000090002040001040019720000800000";
  "009002000000610700060009150030000906082400010700030080001090003000087600800200000";
  "006000050070960003020008000040009100008600070750020090003070001000206530500100000";
  "002009030000540102010000950830000004029470060000020090000030001050094300700001000";
  "000000090080905706020007480390006240040130000800020030004000000000074960900502000";
  "000007000520100900090000340070004001049500000100070060003010000000089620000700050";
  "028035040000010003050000000080007002000600094003020000006700008030004107400000000";
  "007000030050060001060007800580002400094800060300070000008050002000021380200709000";
  "004001070030002405070000190060007038001260000300080000007020006000008720400600000";
  "003005060010430509020006380030007601091300070000040090007050008000024710000000000";
  "007408090090020007080001000350000206012050080900000003000040008000065170100807000";
  "000302050020980007070000400038000009700400010400050028006009000000005890500810000";
  "007001040090300805040000070560000004030260000800040050006000007000057430700406000";
  "000207000090050040012000870300020005004509700600070002076000390040060080000704000";
  "004506800000981000900000002270060084000000000410070096300000007000713000001605900";
  "093000610004608900000000000200090004076405390900080001000000000007103500062000180";
  "007000500010607090080403010520070083001508200840010057050201070090706020002000300";
  "009701500000602000070809060706000201004000600802000304060208090000304000008905400";
  "001703600070000020400020007302040806000601000907050103600010008090000010003508400";
  "000705000050148020040020090025000940000269000063000270090080030010976050000401000";
  "030000050004572300007090600480060037000000000710050086006030100005917800070000020";
  "007000800000306000940070062750000021031804790420000038190080053000902000003000900";
  "006000300000692000020010050408030201002000700903080405080050010000326000009000500";
  "003000900010702050090103080940080026008209400370050098020406070030805040007000300";
  "001000300000982000090103050018020760005306200064070910040208030000591000009000500";
  "000708000070102060060040070740000036098000540650000087010090020080507090000306000";
  "005000800010000070800607009600090008087000460200080003400301005030000090006000100";
  "000000000004968200065000490600030007043000860100050009058000170007312600000000000";
  "000409000040567030060000020605040802004108600107090403010000070020914080000806000";
  "000102000010090050640703019750000046000000000160000073480901035020040090000508000";
  "008705400000010000320000051090080040004203800050090070560000084000040000001908500";
  "008000500020070030040208010701000305005847100204000809070604050090010080006000700";
  "003000200090502070010080060100020005028305490700090003040030050080204030001000900";
  "006103200090000060013000540020080010001206700050090020039000670040000030002708400";
  "004000300020040050560903048710000034000406000640000089830209071050070090001000500";
  "007605800000184000010000050603000408090000020802000703080000070000761000005908100";
  "000705000050148020040020090025000940000269000063000270090080030010976050000401000";
  "030000050004572300007090600480060037000000000710050086006030100005917800070000020";
  "007000800000306000940070062750000021031804790420000038190080053000902000003000900";
  "006000300000692000020010050408030201002000700903080405080050010000326000009000500";
  "003000900010702050090103080940080026008209400370050098020406070030805040007000300";
  "001000300000982000090103050018020760005306200064070910040208030000591000009000500";
  "000708000070102060060040070740000036098000540650000087010090020080507090000306000";
  "005000800010000070800607009600090008087000460200080003400301005030000090006000100";
  "000000000004968200065000490600030007043000860100050009058000170007312600000000000";
  "000409000040567030060000020605040802004108600107090403010000070020914080000806000";
  "000102000010090050640703019750000046000000000160000073480901035020040090000508000";
  "008705400000010000320000051090080040004203800050090070560000084000040000001908500";
  "018000520020070030040030010001906300900807002004103800070090050090010080056000790";
  "005416300030000090040000080002761500071803640003294700020000060010000050004629800";
  "004806900082000540000543000006205800030000020008607300000419000071000460009708200";
  "002108400070000050040257080003406900020000010009501800080915060010000090005703100";
  "008209100090000060000476000009601400030000050004705800000197000080000090005804300";
  "081070940020000050000841000008703100006050700007408200000697000040000070072080690";
  "040706050010000070070090030003502700085601240001904500090050010030000020050403060";
  "008326100061000980000108000000563000190000036000912000000401000075000410009235700";
  "005070100740000098000106000003401900070859060009307400000205000950000014008090500";
  "020538070030000080090601040009802700310000094005403200050107020040000010070246030";
  "700834009800000005040502060000105000007020400000608000020309010100000008300481006";
  "001203400003000100020090030002409300080602010004501800060010040005000200009704600";
  "608090405047000920000254000000975000230000097000362000000716000063000170901080602";
  "082537160000000000060108040006000700093602510004000300040701030000000000059324670";
  "036807420012000750000231000005608100080703060003405200000349000058000640097506310";
  "006080900001090400400703001014000260300000009068000710800206007007050300002010500";
  "094000760107000302000060000002108600300206004006704800000080000608000207015000430";
  "081752930000000000020934080003000600590603012007000300070598060000000000049217850";
  "001203400003000100020090030002409300080602010004501800060010040005000200009704600";
  "608090405047000920000254000000975000230000097000362000000716000063000170901080602";
  "082537160000000000060108040006000700093602510004000300040701030000000000059324670";
  "036807420012000750000231000005608100080703060003405200000349000058000640097506310";
  "006080900001090400400703001014000260300000009068000710800206007007050300002010500";
  "094000760107000302000060000002108600300206004006704800000080000608000207015000430";
  "081752930000000000020934080003000600590603012007000300070598060000000000049217850";
  "001203400003000100020090030002409300080602010004501800060010040005000200009704600";
  "608090405047000920000254000000975000230000097000362000000716000063000170901080602";
  "082537160000000000060108040006000700093602510004000300040701030000000000059324670";
  "036807420012000750000231000005608100080703060003405200000349000058000640097506310";
  "006080900001090400400703001014000260300000009068000710800206007007050300002010500";
  "094000760107000302000060000002108600300206004006704800000080000608000207015000430";
  "081752930000000000020934080003000600590603012007000300070598060000000000049217850";
  "001203400003000100020090030002409300080602010004501800060010040005000200009704600";
  "608090405047000920000254000000975000230000097000362000000716000063000170901080602";
  "082537160000000000060108040006000700093602510004000300040701030000000000059324670";
  "036807420012000750000231000005608100080703060003405200000349000058000640097506310";
  "006080900001090400400703001014000260300000009068000710800206007007050300002010500";
  "094000760107000302000060000002108600300206004006704800000080000608000207015000430";
  "081752930000000000020934080003000600590603012007000300070598060000000000049217850";
  "001203400003000100020090030002409300080602010004501800060010040005000200009704600";
  "608090405047000920000254000000975000230000097000362000000716000063000170901080602";
  "082537160000000000060108040006000700093602510004000300040701030000000000059324670";
  "036807420012000750000231000005608100080703060003405200000349000058000640097506310";
  "006080900001090400400703001014000260300000009068000710800206007007050300002010500";
  "094000760107000302000060000002108600300206004006704800000080000608000207015000430";
  "081752930000000000020934080003000600590603012007000300070598060000000000049217850";
  "001203400003000100020090030002409300080602010004501800060010040005000200009704600";
  "608090405047000920000254000000975000230000097000362000000716000063000170901080602";
  "082537160000000000060108040006000700093602510004000300040701030000000000059324670";
  "036807420012000750000231000005608100080703060003405200000349000058000640097506310";
  "006080900001090400400703001014000260300000009068000710800206007007050300002010500";
  "094000760107000302000060000002108600300206004006704800000080000608000207015000430";
  "081752930000000000020934080003000600590603012007000300070598060000000000049217850";
  "001203400003000100020090030002409300080602010004501800060010040005000200009704600";
  "608090405047000920000254000000975000230000097000362000000716000063000170901080602";
  "082537160000000000060108040006000700093602510004000300040701030000000000059324670";
  "036807420012000750000231000005608100080703060003405200000349000058000640097506310";
  "006080900001090400400703001014000260300000009068000710800206007007050300002010500";
  "094000760107000302000060000002108600300206004006704800000080000608000207015000430";
  "081752930000000000020934080003000600590603012007000300070598060000000000049217850";
  "001203400003000100020090030002409300080602010004501800060010040005000200009704600";
  "608090405047000920000254000000975000230000097000362000000716000063000170901080602";
  "082537160000000000060108040006000700093602510004000300040701030000000000059324670";
  "036807420012000750000231000005608100080703060003405200000349000058000640097506310";
  "006080900001090400400703001014000260300000009068000710800206007007050300002010500";
  "094000760107000302000060000002108600300206004006704800000080000608000207015000430";
  "081752930000000000020934080003000600590603012007000300070598060000000000049217850";
  "001203400003000100020090030002409300080602010004501800060010040005000200009704600";
  "608090405047000920000254000000975000230000097000362000000716000063000170901080602";
  "082537160000000000060108040006000700093602510004000300040701030000000000059324670";
  "036807420012000750000231000005608100080703060003405200000349000058000640097506310";
  "006080900001090400400703001014000260300000009068000710800206007007050300002010500";
  "004000065000000382000007140400000600081200000050030000730080006008510000205009000";
  "005000084000000103000006750000900300061730000903541000610850002009010000807300000";
  "003000072000000509010003080060900300251800000000051000108060003000078400006090000";
  "005008092000000007000005100003000406420150000508070000860507009001080000304290000";
  "003000094000000803000004250001600300860300000402071000310402008708090000024580000";
  "009000082000000164000006530007800400610000000980001000090007003208930000070560000";
  "005000070000008506000007490900500260001000000507302000400720008600000000083601000";
  "604000010000000824000007090005600300048730000700082000507024001000070000006800002";
  "002004038000000504000006290009100306080070000001409000620507009008030000507000000";
  "508000060000000801000005090001000300285010000300700000170032009002070000003650004";
  "709000032000000894000009070000000400392600000400790000931020005005080000207150006";
  "004000081000007902000002540000300290650740000000025000410000003009030000308010000";
  "006000072000001608000006090004000380070540000200030000350004007107090000462300000";
  "005000039000000607000006040001900400390500000604132000710403002406020000038650000";
  "006000080300000407020007010031700200940200000200059000600002005000091800009570060";
  "084000019000000506090005720020900100040060000100004000860000005009037602002600000";
  "006000074000002301000006050001000790000340000270910000980003005105200000042800000";
  "098000016000000705000003940070200100801300000000014000160040003005009007409060000";
  "801005062000000089076001000000000804040650000200490000520000901008070500009500008";
  "003000070000007401000006050806000240030600000970320000490003007208760000067905000";
  "005006082000000601000004390000800403160400000400079000080000006507080000030150000";
  "405000063000005071000004000800000920030600000000710000718000005306020000052007006";
  "002000096500000203030004870000900700023000000800401000250060007001040600309700080";
  "000050010000000502010002090009100400042700006800065000490073000001080300507200000";
  "009000070000000105060009020008600900920400000700058000085006003001040700400820000";
  "406000080000000943000003050003100500041050000500708000870036004004010000309400006";
  "006000020000000406007002090004000300731950000000820000460039708003060000905070000";
  "507000090000000387000007420000200100304000000270006000450090002609800000023560009";
  "003000082500000301010003070000400200905200000700986000350070004001000900008140050";
  "006000080300000407020007010031700200940200000200059000600002005000091800009570060";
  "084000019000000506090005720020900100040060000100004000860000005009037602002600000";
  "006000074000002301000006050001000790000340000270910000980003005105200000042800000";
  "098000016000000705000003940070200100801300000000014000160040003005009007409060000";
  "801005062000000089076001000000000804040650000200490000520000901008070500009500008";
  "003000070000007401000006050806000240030600000970320000490003007208760000067905000";
  "005006082000000601000004390000800403160400000400079000080000006507080000030150000";
  "005000060009005001170860000800403020000000000090702008000096045300500700050000300";
  "070000050005807040380500000860200700400000006001006084000009061020305400030000020";
  "000000015009007006130020000300409060200000001010206007000090084400700200890000000";
  "080000030106500004050420006900704050000000000040903008800076010500002703070000060";
  "008000050203940008050800006610703000000000000000108039500009070900051802080000500";
  "020070040006500002010800003950300000600050009000004067200005010700003900080090020";
  "000000090002000006390850007900608040000030000060907001400091075200000400030000000";
  "070000090409503007100070000890402030700000009040907026000020008500608103010000050";
  "200000560003500009090200004180607200000030000002104096600005080900006400038000001";
  "040000020801600095790500000030700000400000002000008010000009076580002903070000080";
  "010000650400706002020800000070601900600000005004205010000009060700408001095000080";
  "080000090004307005070060000120006030800000004090100068000050020300608900040000080";
  "000000500008200004023960000050000900700104002009000080000048270900007800005000000";
  "030000050205103006090850000670508000900000002000902017000075040500201308060000020";
  "040020090103900005900140000360200500800000004001004062000069001600007409010030080";
  "001080000903720001820900070687000000000000000000000142030009016100056907000040200";
  "006000070108029004004050000900076010000804000080910005000040200800290506070000900";
  "002000030406810009300090004670900040000000000010006072900030006100085403020000500";
  "006000490108050003470190000500008240000000000032600005000034068600080907081000500";
  "070000823005100006820670000300005200000000000006400005000096051900008600563000080";
  "040000000709604000630750000520409000800000009000108074000096045000503901000000020";
  "009000000500201006260950000630809010100000004090602078000026087800703002000000100";
  "090000028402908003850020000730600000900000006000001087000070051600105702570000060";
  "010000978200400013070100000160200000000050000000008029000004050380001004421000080";
  "030000020801600004070900000590002080300000001040300062000001040400003208020000010";
  "080000016003006000560820000130705020400000003070302085000014037000900800790000060";
  "040000280900005000700900000410700930200000004069004052000003005000200001021000090";
  "026010070003500002810040000200308050300000006080209004000020043100005600040030520";
  "040000200109705003030820000370000600900000005006000089000098070500401908004000010";
  "090000020403060007000380000810700090700000002060005083000078000100040506040000030";
  "008000020406801009210700000080307090500000001020406030000003064300904207040000900";
  "004000070906204005070580000200105090000000000090308002000039080300702904040000500";
  "090000060005804001041070000010080000700301002000090080000030270500209600060000050";
  "000040090608100002019800000040210000000504000000037060000001340100008207020060000";
  "008000040501602009070490000200005070000000000060700005000063090700104806010000400";
  "070001020004780006090600701100008070000070000050200004703005010500027400080100030";
  "090056200600000003003001700000400600400010307501000000309280001000000000080040900";
  "800249000000000802005006000400600000200035914301070005040050009000060000060024700";
  "000401800090008006008090200200000000001089500580040009402030007000000005030005620";
  "400096000000204090000015800070900600509000083264000005007400008030020000000068700";
  "900080700070400100000007400080000000500040360006000002842050003000030008000001640";
  "600007000000201040000060902070000800004038000950020004002400005010000000007002100";
  "700092800020000007006000109000400000900017500500039008607020005000000004091005670";
  "300200000000700906006019207530900000008027040002060001089000003000070000073002100";
  "100530000000100693004000000640700800700050916000000004020390001050070000030015700";
  "200340000000009408000056300300900000509010203067000005034070006000000000070034100";
  "800024000000900456005003000060700900700000041309000002020100008070090000080047600";
  "020080400600000092005090800000100300201038500000050009803270000010000003090004050";
  "700460000000805204000079300360900000408002060071040000047000001000080000090000800";
  "300048100000906020009020400070000200501000007960000003205800004030000001000013760";
  "500078100000400608000030200030900000108020030200001005713000000000090004090006010";
  "300091000000005031005060700000600500402000309670000004006130007010000000090082600";
  "000902000000300028003054700730400100001070056504000007006800000090040000070021000";
  "790002100500304072004000900050900000000003007140060000401000008020000009070020640";
  "900620000000000042002009600800000500400051308003080007005190003030000000010036700";
  "000649100000501009005000300790000000300028090840010005503000004000070008080006920";
  "000417000000900321000000000540000800300079006800040007070100004080000000050063200";
  "700069000000800007002003506020400700400050360905000008009230001000090000043007800";
  "300091000000005031005060700000600500402000309670000004006130007010000000090082600";
  "000902000000300028003054700730400100001070056504000007006800000090040000070021000";
  "790002100500304072004000900050900000000003007140060000401000008020000009070020640";
  "900620000000000042002009600800000500400051308003080007005190003030000000010036700";
  "000649100000501009005000300790000000300028090840010005503000004000070008080006920";
  "000417000000900321000000000540000800300079006800040007070100004080000000050063200";
  "700069000000800007002003506020400700400050360905000008009230001000090000043007800";
  "300091000000005031005060700000600500402000309670000004006130007010000000090082600";
  "000902000000300028003054700730400100001070056504000007006800000090040000070021000";
  "790002100500304072004000900050900000000003007140060000401000008020000009070020640";
  "000620030061803040080000005820360000400701000050080000000000083730000150008000700";
  "700480090003209050040000001370054000500308000080760030000000016410006870007000500";
  "800620090004000030070100400109085000700306000000940070001000085490007200000000300";
  "009000060007816040560000300070201000050008000030640070005000004680002030000000108";
  "400080020000100030000000608080567000100920000000800090008000053620005400004000206";
  "000090030002304060050800009034925000100400000080700020000000052570003190001000700";
  "400090060086001070070000004000018000300500600060300080000050092590002400004000500";
  "200000090014309060050000304080136000000800001030500040005000008340005020002060400";
  "800200030005009060010000407700032000000500009050600080004000073580003600007040500";
  "000650040004008030070000002100264000400805000080790010000000091390001850008000400";
  "100200000048009070050000106800395000000102000030480010003000090070003280009000007";
  "700090050040002710000700003006280000800306000090074030080000076250008300003000200";
  "100090070009005200070000601000107000500006000080450020047000012900002850008000400";
  "200000010079006020060200007002039080000107000030420090000000001750308000006000503";
  "700900020060805030000000004210059000000600001050100040000000083140007600003040200";
  "800000030007009010030800702002158000000407000050230080005000067960005800008000400";
  "800030090002906030010000605040002000300059000080340010004000021290001500001000400";
  "900020070052801060010000802060235000800700000040908000004000019190000600008000405";
  "000000020005001370030900001008097010000306000020450000080000062150600730006000400";
  "000060030005007080030000506000459000500130000020800090008000063150008720004000809";
  "800620090004000030070100400109085000700306000000940070001000085490007200000000300";
  "009000060007816040560000300070201000050008000030640070005000004680002030000000108";
  "400080020000100030000000608080567000100920000000800090008000053620005400004000206";
  "000090030002304060050800009034925000100400000080700020000000052570003190001000700";
  "400090060086001070070000004000018000300500600060300080000050092590002400004000500";
  "200000090014309060050000304080136000000800001030500040005000008340005020002060400";
  "800200030005009060010000407700032000000500009050600080004000073580003600007040500";
  "000650040004008030070000002100264000400805000080790010000000091390001850008000400";
  "100200000048009070050000106800395000000102000030480010003000090070003280009000007";
  "700090050040002710000700003006280000800306000090074030080000076250008300003000200";
  "130094070009000000470003600004120080000030000080059100007500012000000800050970063";
  "100037020000000000308006400004560001006000800800041200005600703000000000030780006";
  "460093000007000000539007000005700083003020600780006100000300764000000800000870059";
  "820010000000004000015003400009760820002000100051082300008500710000400000000020038";
  "360007020000000000005900810006730098003000700790086400048009100000000000010500047";
  "950860000300000000008009500000028001003070800100640000009500100000000006000094023";
  "200040010900800000015003800051700040000050000060008230007600480000009007080030001";
  "702306000000000020863005700000000094004080300970000000007500932050000000000604807";
  "940030060006001000580004100000000207004070500302000000005300048000200600090050023";
  "000490050009000030100053900000030019003080500810040000002570008060000100090068000";
  "410030020005000000039001000004070061007040800920080300000700510000000900040090078";
  "920501060000000000671003200000130006009060800100079000004300927000000000030902048";
  "390047060000000000547009000004130009005020100600095700000500374000000000080910025";
  "958310020006000000470009600000400063001030500380005000005600072000000400040057316";
  "302470090009000050001005000000580024006040900420016000000100500060000200090028307";
  "150069000000100000064003020009350078000000000830046200040900350000005000000410092";
  "810300020900024000004006000000005690003000500058100000000600300000270001060009072";
  "070348000000000000062005800007800052004030100210007300008700490000000000000682010";
  "120097050000000000493001600007950030009000500030028700005600218000000000040370065";
  "732100080006000000400006000000670098009050400810024000000200009000000500050003124";
  "478205030001000080020000000000490027005000300840037000000000010080000700050701892";
  "030794000000000060720008100009160020002000500060045900008400095010000000000987010";
  "580007060000500000031002700010680079004000300760023050007200890000001000040300021";
  "290003000300070000478000900000036490004000500057280000009000376000010009000300041";
  "720040080300007000896000000000720605002000100609051000000000561000300008080010079";
  "200860040900007000300002900000401650000050000042608000006900004000100003070086001";
  "720500010000020000918003400003052001009010600100360500005700283000030000080005064";
  "390527000000000090471009000008170000003000100000034500000800415080000000000416038";
  "840056070100000000320000900004200508000040000508001200007000029000000007090870036";
  "290073050001000000374005000000720036007040900620018000000800594000000100010950063";
  "600050020009000000470001300000720004005040900800039000008600031000000700020080005";
  "900401030000000000714002800008609050001000400050804100009500316000000000060108004";
  "070235060000000040680004300008450000002010600000063100004500013050000000010327050";
  "900027060001000000200005800009450080005010300020069400008500003000000600010670005";
  "530906020000000090029007000001080002006050900300060500000200670080000000010405083";
  "840197000000000080210038900000780053000060000730024000008250079050000000000879065";
  "620810070005000080000009600000190065009030800170086000001200000050000400080043017";
  "000834000100560030000000640037000002006020700200000390065000000080042009000657000";
  "000861700000040030000000180063020908009030600107090520075000000080010000001257000";
  "000842090300600000000000020067080005008070900500030270070000000000009004050167000";
  "700093024000482000000000000075000903008607200203000480000000000000529000940370008";
  "000709650000520080000000300018050406007080200906010530003000000070031000069804000";
  "000206013000340000000000960078050300002000600009030840087000000000061000240809000";
  "500607040000021000000000370018090400002000600009030250061000000000960000090204003";
  "000561008200908010000000300047050103001000200603010940009000000060103004400296000";
  "900072180000000030000030420041020908008000300209040610094010000060000000083950004";
  "300071906500380070000000000012000607003010400609000530000000000090064003807230009";
  "000700086000329050000000130005040603000507000908010200029000000050234000670005000";
  "000274085000300000000080120071000409004000500902000610069030000000005000850916000";
  "000907006100640030000000270093080000000701000000090480048000000020068001900405000";
  "070194000000380000100000300087020003001050600500010490008000009000035000000841060";
  "000097140000530060470000500010020306003000900906080010008000079040072000057810000";
  "000518630000300020000020700080000109004060200106000050001070000050001000027635000";
  "000023400000740000000000290010000706008206300304000010047000000000059000002180000";
  "000160403700320010000000500029070100006000700007050360002000000030019004801043000";
  "000069080000804020800000100064020003001000500900070240005000007090106000040980000";
  "000246050000070000000005890086000302009802600107000940063400000000050000070681000";
  "030801074000970000800000900019000703000507000702000840007000008000056000620708090";
  "000412036000095000000000490056000302002104600107000850013000000000920000680531000";
  "000005034000067000000040950041000607009000500502000190027080000000150000390700000";
  "000468003500100000000030420020080509005000800806090070071040000000001002400359000";
  "900152380000060090000000210006090502000000000705080600057000000020010000019538007";
  "000546800000810000010000540047050602009000100106090780024000050000024000001685000";
  "000763004000842090000000070029050407008090300401070250080000000030581000200437000";
  "000048060000500020000000890089060304005010200704020950091000000030001000040250000";
  "000709650000520080000000300018050406007080200906010530003000000070031000069804000";
  "000206013000340000000000960078050300002000600009030840087000000000061000240809000";
  "500607040000021000000000370018090400002000600009030250061000000000960000090204003";
  "000561008200908010000000300047050103001000200603010940009000000060103004400296000";
  "900072180000000030000030420041020908008000300209040610094010000060000000083950004";
  "300071906500380070000000000012000607003010400609000530000000000090064003807230009";
  "400700086006320007500008100000002600200000010040600075000000040850200000070080301";
  "950800230002370009070005104000001800700080040000000073008000010200000306510020008";
  "450900031007100009003005200000007800200000000000400015002000950760000003540060002";
  "130600480008450006000000502000001000900040050010500093001000060500200008490060001";
  "900500246001970005000000001002000000400030010080000079004006080300100000560080003";
  "950480300003050000800009201000002600200060018010500003000000070780600002520070406";
  "050070201006510000070004906000005400800000029030400060001000030700600105480050000";
  "350800490000071008080009001070006950500000070000000004004000000730004105610090003";
  "050700008900008040400020600600050010000901300009370002000400000500000001010003960";
  "010200004500004090064070000000020070205036800300700005000050200420000907050690080";
  "040950000050006010200740500000000070007800902000320601000010000430000069090000800";
  "060000000700008090293700000000050020308102000000840900000020500950000706030070480";
  "080600009040000000016070500000097000900508400300420006000000700600000182070830000";
  "020040009900002000054900100000056020005701004040230600100080500000100203006000070";
  "030100002000007000648000300000054010403609000000280004000060100700000205020010600";
  "080000006000004070021730800000072040009001500000500200000050100360000702040000000";
  "040600700100005000096000801000049030502036000000000002000010500900000406070060010";
  "000200700200005040008600005000034020501006000020700901000070300100400000090060010";
  "000060500500002000012080007000078020104005609080000000000030400400600700050090010";
  "030000000100002080094850100000020030900045800000900600000000500370000908060070010";
  "080940000250001000710260900000029010802006709000300502000070000070000185000010690";
  "040890005000005010080000400000040050009521003500960002600010000400000309098300000";
  "000700000010903060803040000900800000570020098000005004000030501090506020000002000";
  "050200000000007049609000003400038000030000020000610007200000801960100000000004060";
  "030100020800502079902040001300004000040000080000900004200010506580206003090007010";
  "020000000090108023601070000200801000850907042000504008000080405460205030000000090";
  "050000000080102050203000004309008005020904070700200108100000407040503060000000080";
  "020000000850904000304080000600001042039000860540800009000040208000205097000000050";
  "000400000060002019903000002207901005050000090100508703800000106470600050000003000";
  "020000000070259018508010007300600000080000070000003004700090405950361080000000090";
  "600504003500020001002080700800040007030701020100030005005070900700010002200309004";
  "508000609140060057900705001009050100700000008001080900200901006690040013407000802";
  "305204807900000004007108900400080002080000060500070003004905600600000001802706309";
  "300704001000000000104503806690070035000000000470050068201405907000000000900106002";
  "809000607300040002004756900000080000040107060000060000006598300500020006103000809";
  "003702400200030009007401800350000087000000000810000062008509100400010006009604700";
  "000604000400000001205070408310080069090000050850090012503040107100000006000208000";
  "007305100300000009002498700700020005020504090600080004005643900900000006006907500";
  "904010705000090000008742900600000003010206080700000004006539800000020000501060402";
  "009000060030090207800000900000068500050170000000300010085900041600002300070000605";
  "004000070071000628250000301000051200000800000000204800035407080140000900086000002";
  "001000090040080005500000817000071300060900000000206400007409080403000900089000003";
  "008000000000030092700000146000145908050390000000700500001409050075000600042500000";
  "001000020062000009340000016000637200000180700000502000000350072409000500025000104";
  "007000080048000003160000059000016902000250000000400800000601090304000210081300004";
  "001000060040000009800000517000682703000530000000700890009301000602008000034900000";
  "000000010040080256000000903000723600060900000000805000034600089150000400029000500";
  "005000030021000005390000017000738602000910000000206000000500040602000800087600001";
  "009030040070000002800000653000206400700000500000401000002940070307000800086000000";
  "006000040074030090250000673000000302060000000000002950009807060427006800001400005";
  "001000060045000080980000702000208307000090000000100800002407090310000500006900000";
  "004000050016050009290000680000093407020600000000201000001900060509000200080300005";
  "001000040042070000370000086000047801020930000000500200000705030503000610004300000";
  "009000070007050980420000005000802300080060000000509000070300016130000700008000509";
  "009000010018070040650000092000982300040750000000304000000500037985000400007000500";
  "006000009000900000807006150060805301508603902301207060015700203000002000200000500";
  "008001002000400006100095870070150000004030900000024010089540001400008000300700200";
  "004000009000900600009041580070035000300010004000760010018490300005006000900000400";
  "008009002006000001000086000080530000430208095000094010000940000100000900200300700";
  "006000000000800304400051080060503020002706100050902070040230007205004000000000200";
  "007000009000200504100090360010963070000000000020417050071050006908006000200000900";
  "006000003000000900900065120000520700209603501005048000032450006004000000600000200";
  "003000002000600500100005960020510800300709006001086070045800009009002000800000600";
  "000000008009700100607035090000510006802000501500023000040950207005006300700000000";
  "003000004000000209060029810000097000809050603000130000034570080908000000500000400";
  "003080006000000240600072510000068000807000609000150000029840005084000000700020800";
  "004000001000200700300071860080600400009438100001005080017390002002007000500000300";
  "004000000007580000300072860070958601000000000408631020062840009000017200000000100";
  "050148020010050090008060700006000900240000086001000400005090100060010040070835060";
  "000050000000823000079000380008304500400080007006702400025000670000476000000090000";
  "900705002000060000086020130007106200100000005005802300061040850000010000800603004";
  "300090005001804600004000900040307050006000400080502060009000500007405800400010002";
  "000305000004908700308000901007809400010040090009106500803000209001603800000702000";
  "000000000001823500680050034009102300250000097003507600510030069004679800000000000";
  "000409000006070900900805001809000107170000046402000809700106002001080400000304000";
  "000000000006708900980602037008154300300000004007893100870301095003906700000000000";
  "000371000000000000103504608201708905004000100506103407405806701000000000000417000";
  "700000008004080500018090260000649000400708006000312000086030790003060100500000003";
  "000020000000106000014309620408050306300000002106040709079504230000207000000010000";
  "200000008008701300040080020007249600300000004006513800030090050005304100600000007";
  "090001407001700060420009008070000509002000000003000080000940070500003604040000200";
  "085000003004013020630000000800000010000900080071020000009800037040100209500009600";
  "002030007000064200500001090000700540000800071007043000309400008740000000081000700";
  "092070000007381500000000060800000050000000038061000070008600045070400001200008000";
  "085000003004013020630000000800000010000900080071020000009800037040100209500009600";
  "002030007000064200500001090000700540000800071007043000309400008740000000081000700";
  "092070000007381500000000060800000050000000038061000070008600045070400001200008000";
  "085000003004013020630000000800000010000900080071020000009800037040100209500009600";
  "002030007000064200500001090000700540000800071007043000309400008740000000081000700";
  "092070000007381500000000060800000050000000038061000070008600045070400001200008000";
  "085000003004013020630000000800000010000900080071020000009800037040100209500009600";
  "002030007000064200500001090000700540000800071007043000309400008740000000081000700";
  "092070000007381500000000060800000050000000038061000070008600045070400001200008000";
  "085000003004013020630000000800000010000900080071020000009800037040100209500009600";
  "002030007000064200500001090000700540000800071007043000309400008740000000081000700";
  "092070000007381500000000060800000050000000038061000070008600045070400001200008000";
  "085000003004013020630000000800000010000900080071020000009800037040100209500009600";
  "002030007000064200500001090000700540000800071007043000309400008740000000081000700";
  "092070000007381500000000060800000050000000038061000070008600045070400001200008000";
  "085000003004013020630000000800000010000900080071020000009800037040100209500009600";
  "002030007000064200500001090000700540000800071007043000309400008740000000081000700";
  "300000004007000500080942060800010006709204108400030002010627040006000200200000007";
  "000000000406020309051309470000403000390206087000907000027801590903070206000000000";
  "500102003000000000610397085006000800370000042008000300890523064000000000100406007";
  "600050007203000504700108009000269000080000030000837000300605001409000206800090003";
  "800010009503000701790205068000761000000000000000598000470109085308000107900070004";
  "200000003603090104010406090000954000050208010000371000080509030907040502300000001";
  "000706000601030204340000067000305000020000080000102000930000072704050901000903000";
  "050043000080500000140080000000090008000007604091300070300800000000100765007000200";
  "820000000000092000130700000018079050000008040075600800001805000000904506000000302";
  "080030000040517000750000000007050060000003092063200010800102000000900781006000200";
  "800074000046032000230900000003090072000003014004700900001805090000000480000000205";
  "309006000010830000570400000004080009000005060030900820000001004080300190000000307";
  "000670000095000100206000045800019050003000900050280001460000203001000490000034000";
  "000590000072000000000270839006050003005602100100040500853026000000000270000015000";
  "000950000004000190007000060905070002006302800200010607030000900061000500000067000";
  "000190000010000600800600509700060040908403702040020005402006007007000090000081000";
  "000710000007600080401050970100090050509000203070030009095080401020005600000072000";
  "000500000058000300607010020800026009001000200400380001010070805009000640000002000";
  "000200000050040760009610042800070091006000200970020004580064900027050010000002000";
  "000600000007020900009080120500040013004306200230070008043050800005090600000001000";
  "009400000807020560006850000100030020002000300030010008000063700021080605000002100";
  "500030000018500000700890010301000096005000400490000305030086007000003160000020009";
  "500030000018500000700890010301000096005000400490000305030086007000003160000020009";
  "500030000018500000700890010301000096005000400490000305030086007000003160000020009";
  "002000000000500640703004002080040706000300401006000000030480057020000100004120800";
  "000080400070106000006004001040000206200008050097030000800600009000090000001800703";
  "006090000080200010709004006020000704500007000001030000000800079050000360007300201";
  "003040000000600970509001004080090105100480000007000000030100840090000500005200003";
  "005080000090600520800705009024000106600008070009060000010200007070010050008500300";
  "005020300040800900906000005090050004800674090000090000520000067000010200009400500";
  "006080000070100250208000007050070803100538900000040000090320006020000090005800104";
  "004070000010200400900001085090000503200038070003090000060800700001040056002900040";
  "008010000000900050104000003020490701400720030000003000000500017050080200002300800";
  "000050000080000320002004001000060712800170400006000000010980070090400280008600004";
  "027010000140600070508032000010070608709100400002000030000450006080001000000800900";
  "001000500090000070503006002000030200000672040007010000100500024020090180005000300";
  "005080000040700000300009005070060901500901680006020000000130704000090000007800506";
  "000020800040800060005009002010040608600905000009070000200700006070000010008400209";
  "001030000000500040300004085080000501500060090007000006000600004076020000005108607";
  "300100000100590003020006195800600500090030080001005006283700050900058002000003008";
  "050200000003000050801570200230980700004000600008043029006092105010000900000007060";
  "090060000007000020516020400360500200009206300002001049005080913020000800000030060";
  "000040000001000030850900100700050600003806500006020001007009042010000900000080000";
  "010067000003000000784230100600000400001705900008000003006098247000000500000120090";
  "065200000008000000479000500500170900003804700007095008004000839000000600000003120";
  "070006000009000000605198700703020500500403007002080903006547209000000400000600050";
  "040980000002000090895060700010700400007603800008001070004020157070000200000017060";
  "096001000008000040500700900700430200003108700002075004009003006020000400000800390";
  "098027000000000090032810700300000200507000309006000004009048120060000000000260950";
  "070000000048000560100004700300090050001402900090030006003500001025000830000000070";
  "010000000028000590403200700600180000005706800000039007006004309032000670000000080";
  "090700000063000000201003900900600008008235400700004002009100706000000850000002010";
  "059000000002000050748900200900200000007395800000006001003004125070000400000000380";
  "080400000003000040246370800900030100001205400004080005005046781090000500000008030";
  "070900000008000090609208300420700008001309200800002015002504803040000100000001050";
  "015800000030000620607000300700900000004506200000004003001000802049000030000005410";
  "090600000000000080308420900900040705200935008401060009007094503040000000000002090";
  "005000000007000010800435600610540000500973008000068054009316005050000300000000400";
  "097630000006000000208000900670200000005090400000008016004000601000000700000041590";
  "002070001604002000070500000045300090000000007090104200000005076000603400200000050";
  "090530006801900000040000500070604000100000004020703089000000050000305208700090060";
  "052030000706209500090000010034600090600000001000708040000001023000006405000050060";
  "000090006849500200010200950057100000000000007000009830000002010900005340680000090";
  "000040009928600300000000280065100000100000003080007020000004030500706010630080040";
  "000080003078900640040000010012700000300000008080105030000004080000601720100090000";
  "070050001105600800060800090009400000600000004050006980000007030700300209390040050";
  "061050000200006400000300020075200030600000001000104600000007003300009005590020060";
  "003050000804100900050000780001803000600000008000705090000006019500000400240010070";
  "001040000003907240020000530005600080100000002090401070000003057300200800060010000";
  "024000000809005370000900810071500040000000000080403100000001085900208001710000060";
  "040700000006180200008000670001908000900000040007203081000305190100000003650090000";
  "000070000530000400091000270004907000200000003089305000000701300400800510020090080";
  "024090000031006080000100900006500030000000008200904700000001029100000063040200000";
  "900016000000000068020800005009700050370504016060003800600008020710000000000150003";
  "100050000080000070040603002070908320820000069093704010300802050050000030000010007";
  "100500000004060090000001074305800940000609000018002507840700000090080700000003006";
  "000300000000020319001906024405800602000239000208004103150403900746090000000005000";
  "000500400000020360000003092204300085000706000690002103480900000053010000007005000";
  "700400100000080305000003087004000701000154000605000800320800000506030000008001002";
  "010000030006030700023401960800000003000782000200000001032605180005070600080000040";
  "030502090009030700016807420900000004000703000800000007041908250002050300050304070";
  "060215070008603500073000120900040007000706000600030002015000690004109200090584030";
  "070040090009502400062000570600000005000603000200000009084000120007104600030020050";
  "000000000028564170060207030600409001805000304400802007080901050039675410000000000";
  "200070005000308000046000730805000304000050000407000906023000460000907000100040003";
  "009201600001976400070000080900010008017602540500040007090000030005328700004105800";
  "000000000002167400071209530700050002000731000400090007039405620004916700000000000";
  "070000020008309600030502080900010005020607040700080002040801090001906200090000030";
  "072601350009304800040000010700000009084000630500000007010000090007203100068509740";
  "071050840004918700080000030100020004000403000200080009050000090008294500019030270";
  "070406050008732900060509020700060002001000300200040008020305080004198200080604090";
  "300867004789000126000000000507030208000108000801070403000000000164000972900216005";
  "000000000005423800072809350590000068020060090140000035014902570009635400000000000";
  "050080010008000900030902050300070008000263000600050004090106040002000100070090080";
  "000010807501090000400800003300200000004080069000709200005020040200000000090006570";
  "900010000607090030000607100005400300000050046000801200008004070160000000070000062";
  "300060004000000730000200050705600000006000009000004800209081000130000000054003008";
  "600000001009205700500406002007103200900000006003809500300604009004308600200000007";
  "007030500008504700500000004060943050304060209050728060400000002003209600009070800";
  "087050310005204600000000000700485009003000400800361005000000000008109700019020850";
  "006821900005704200000000000509070102600000009204030507000000000001902700002613400";
  "059327180003608900000000000407030509030000060902070301000000000006504800014289670";
  "090503060008906300300000004010080030003000500080030020600000002007802900030109040";
  "069000480000802000800090005207000509600030004408000601900050008000609000053000290";
  "006000100007284500500000004109020603803501702204090805600000007008476200005000400";
  "009746300000903000300010009402030508703000104805090702900070005000204000007159200";
  "006208400007501600800000009700030006091000750600050004200000007009806300005904100";
  "008030600006528900500000001073010860800000007014090350300000006001652700009040500";
  "000000020040000809000089030308200400070950100000074000021003000039060040600005000";
  "000000041082000006000007800701290400090601000060075000070002030028740050400003000";
  "000100000258000030900085000807400900020900300000052001080003050002090070500007610";
  "400007001006403080078105000042000000000091000591040200000004098060000704100000320";
  "000032009098000001030900050006000000100053000800020543000006070005009602760008090";
  "200003006090001050000805200006000000000068000859072000003000091010000403400000520";
  "200061000050703000007402000021000000900030060684000250000005094000014802000000510";
  "500003000000609087000500030017400000000006020930050006000000018041030900090001700";
  "600000002050000040009163000005000000008047000004090781000008024070009508800005190";
  "000015007000004050009027000000300000507002090826050700000006074080040209700000180";
  "300069005002400000097305000086500000700040000401000630000004083000002506600000170";
  "700002004020008050006430090007000000001053000530040200000004085089000407400000620";
  "801000406000805000700961008106000704005679200208000905600254003000106000504000602";
  "004030700870000064200406008300187005000000000400952003600509001530000046009020800";
  "009020300000504000400908007702000901060702050305000402200801006000403000004050100";
  "008000100090020050100703008309000405700405009804000207400906003080040090003000800";
  "003040800940000012800000005400963008500207009700451003200000004380000051001090200";
  "001000300030010060000379000600721005980503041500894007000286000090030050008000100";
  "100908006060107090040206050009701200000000000004805300070409030090503060500602007";
  "500070008780000093039105270000492000000000000000617000072908460450000039300060001";
  "000030000002107060405000000001096080800005006304000010000904120000000000500670300";
  "000200700700903000408070009001050090000028400030000075000005100800400000070000380";
  "700000003000190270002050090028030000307009180604000020000375900000008000800940007";
  "000300000500708120600050030006080010003015800002000043000674000000000000100000780";
  "430500100900706000507030206005000080700000300300000061000002700000000002000170658";
  "000300000500708120600050030006080010003015800002000043000674000000000000100000780";
  "430500100900706000507030206005000080700000300300000061000002700000000002000170658";
  "000300000500708120600050030006080010003015800002000043000674000000000000100000780";
  "430500100900706000507030206005000080700000300300000061000002700000000002000170658";
  "000300000500708120600050030006080010003015800002000043000674000000000000100000780";
  "430500100900706000507030206005000080700000300300000061000002700000000002000170658";
  "000300000500708120600050030006080010003015800002000043000674000000000000100000780";
  "430500100900706000507030206005000080700000300300000061000002700000000002000170658";
  "000000070000700100007052038050003200003015000002960500020604001305000094004000780";
  "400008060000000700002560081006004008001000000200300690060005300105003046003400010";
  "009602300020000050080409070700020006100000005500090003010308060030000020007201400";
  "009701200700000006038509710206040107000000000904010802091206450800000009005803600";
  "020709080700010009000502000903020804010000020206080305000304000400050001060901040";
  "005000300030090020069803450300070004040020060800040005072104530010050040008000900";
  "002963700100070008090804020004000300030050090006000400020608050400020009005139800";
  "000978000700000005030000090406090803180000054307040102010000040800000009000169000";
  "007000100340000059000792000005906300720010096006803400000251000210000074009000200";
  "002000700700000003030794060004807900500000006009201500070635080900000005003000600";
  "070452080020090010000803000400000009390070051100000007000609000060030040010547060";
  "740000002020089000000200300106002080003000090002700600000876000000000064600005009";
  "402000003000074000030809000057000620900000050208900100000403006000006700500790008";
  "650000000070054080000000000028076030000005040009000000030107000006003059200000008";
  "100000400000050080000809502046008900000070050003400100400703000000001000602000003";
  "570000006080005040040300200814000090000010000005400700060501000009006172700009005";
  "540000000060010080090206500906001200000000010205400300000805000000000768800603004";
  "103000007060097000040200800002003080006000040401700200000578002000000150900100006";
  "920000608070090000040008005013000800005000040800900000000076000000002913000500006";
  "560000000040032080000006200310000840009000050784300000000490000000603019400801007";
  "070000608060070050080305007293001500006000020700200800000017000000003182000506000";
  "020000300070008090010209406385004160000000000402100800000807000000001624200405000";
  "100000009000045070090700200600090010001084020702000800080610000006000900500403008";
  "050000003000090010090405200035018700000007060708900300040309000003002104500700000";
  "908000600500103000000000012072030009009701400600050230760000000000907006004000705";
  "508290600000038000000000420003007004000301000200500300019000000000960000004013207";
  "058060200900004000730020040010000000009832100000000050020040071000200005004010380";
  "006309000000070802070004050100003006002090300700400008080200010205010000000507200";
  "310807200000015904000200080000002003400000009900700000070006000605120000001904068";
  "000702600200000501030690800100003009000000000700800004007025010902000007001408000";
  "000507300100000906000069580000008003600010007300600000015420000406000005008703000";
  "071908000400000000000651940000006005004090100600500000039284000000000004000705320";
  "060207000400093800050080700000006002030000010100400000001060030009750008000309040";
  "090000100600007504000904680000008005740000038800200000035806000906400007008000060";
  "090100006600034009050600420000008705000000000807500000064003010300250008700001090";
  "070208000100040203000901080000000008096000450200000000040503000605010002000807030";
  "000205000000001804070000360000002013400000006910800000097000030503700000000406000";
  "020700006000090307000805400000002089000080000680100000008901000401050000300004070";
  "500006000200015406060020390000003000050000080000600000084070060706590008000400003";
  "050401200400080709020060410000005000700000005000800000079010040504020008003604090";
  "800700500100080903020069470000006000030010080000800000094670030706040001008002006";
  "040003500700050109005901800000005004087000650400600000003708400804060002002300070";
  "900200400000050100000406080000009500680000031007800000030508000001020000009003006";
  "000600900600035004020970560900007000100000008000300007068013040700590003002004000";
  "530201000200030005001704200000003002340000016600500000003409600400080009000102043";
  "760403000400080000020596070100004002004000100500600008030849020000060007000305046";
  "030000900000063207080197300000009000910000078000200000006725040401380000008000020";
  "000007008700041502000098460000000103020000080807000000076450000309120004400700000";
  "380500000900064700010370200700005000000020000000800003003041080002950007000003059";
  "000205000000001804070000360000002013400000006910800000097000030503700000000406000";
  "020700006000090307000805400000002089000080000680100000008901000401050000300004070";
  "000000001200010470860000390609083000000109080000650000080002000706000200020008710";
  "070000803502000100090000075905360000000509000000087000000004090230000504050006020";
  "059000006208090000006000200067041000000639080000050000000007458120003007070000020";
  "010000000600040070097000500251060000000903010000250000000002900160009704720005030";
  "040000100102000000080020507958006000000080300000500000000002050270009806060004030";
  "080000704500020600040000293405009000000800060000470000000006000370000906620001040";
  "014060809200000070670000105006073000000106008000590000050004006008000902300000780";
  "062000109900000200800000654400060000000308000000450000030000005759000006020001730";
  "010000000900030270057000130004095000000401080000760000000003500300000609680000020";
  "048000700500000340000000281100274000000806000000519000080000006205000003430007050";
  "000000001200080300470000580009450000000801060000276000010007000098000200000000730";
  "006080405300070090190000602702006000000100084000830000060008007001000500800004160";
  "091000000308090100000040070703009000005200830000730000000012096800000004010004020";
  "050000003700040090041000200895000000000320050000050000000008300610002508080001040";
  "030010008700000900490000630105930000000006005000208000000001000600000407950003120";
  "054000008600000340300000250029070000005264000000190000000028009030001005800000710";
  "020070085900040063000000100409056000000408079000090000000003000700000002860002040";
  "850003000700400500024050000075340000080000070000018340000080120008004009000200054";
  "190002000400100090070050061352600010000000000040003572930010020010007009000300087";
  "340069000200700500079040080050600800000000000003001070020050640006007008000920057";
  "851049000300000050020010000185600030000000000040002987000020090010000003000580214";
  "090201070200000800010090000500706200000000000002908003000030090003000008060409050";
  "703048000000900140000020030081200960000000000097001480040030000068005000000410308";
  "690001000300700040010390050030087500000000000009240030080039070040002003000500064";
  "120008000604000270070060000230070140000000000016080095000040030048000507000500086";
  "300001007000300900010070030027100640000000000064008150070080060003009000800400001";
  "070001000500600320000030010007900250000000000046008700050020000093004001000300070";
  "360071020700000430000540000908000040000000000040000609000085000052000004030420081";
  "734002000105800240000030070610000430000000000087000052090080000073004806000900314";
  "740000000500310000002000610057104080900000001010206740095000200000069003000000098";
  "079206000500000007003070000050060070390000064040050090000020700400000008000901430";
  "314009000800000009006030001039740000060000020000082490600090200100000004000200816";
  "510706000000000009004090010038960000140000093000045780070010800800000000000608045";
  "560402000000700005007090080040019000056000140000840020030070800600003000000204013";
  "096305000200010000003090010080054000510000027000280040020040700000060008000507190";
  "020107005700060000005000007001890020240000083080042700400000900000010006800609040";
  "004507000800000001002040078045090000780000049000060830120070900400000006000903200";
  "080406000600700001000010063015000070807000104060000250250060000300004002000802010";
  "580602001600900000004010000013000040250000018060000730000020400000005007700804052";
  "267005000800620000003080002009051000600000004000970300400010500000049001000500248";
  "087003000900600005003080009050340000310000067000056080600030200100008006000400170";
  "870009000500100000001080037080620000106000203000041090250090800000008009000200065";
  "150003000000000008008010059087105000010000040000907280360020900800000000000500072";
  "040907000006100005000050087020510000090000020000083010730090000600001900000306050";
  "020050300005002000830001009000007840090040070072800000500400031000500900001060050";
  "050020100003000700810004200000002600040875030001900000005700062009000800004030010";
  "050400960000000000230059001000007609080000040301600000100540036000000000065001080";
  "050240703002900000090058002000000175000000000745000000600310050000004800201085040";
  "060500409000706000320090006000000921030050040184000000800030092000105000405002080";
  "040070601000300400750094800000000182000060000923000000007920048004008000209040010";
  "090870105004600900000040002000000213050060070821000000300050000002006500105089020";
  "060000843009000000150060007000006702090734010607800000900010078000000400571000060";
  "090730208004006000780040000000000174010000090345000000000050023000200600608019050";
  "000010802004000600360084070800001750000000000045700008070130025003000900108020000";
  "010680203000700000850020007000000108000504000705000000200060035000007000403058070";
  "000290608000005000740000105000000507070030040203000000608000014000600000305048000";
  "000380971000007300010060580600000740000000000094000006063020090009400000258096000";
  "000290608000005000740000105000000507070030040203000000608000014000600000305048000";
  "000380971000007300010060580600000740000000000094000006063020090009400000258096000";
  "000290608000005000740000105000000507070030040203000000608000014000600000305048000";
  "040302000002050000307900000005000009000040050890000106063001890009400005200700400";
  "000704000805030000092100000037000009040900020000040701700005430000027800008000010";
  "050609000706030000000000000010000006070560080080710002097000020005924007300000040";
  "080000000305000000769020000092700000000310400100042000620004590001005308008200740";
  "010400600006030000240500001100000000070100080960040103050000060002710305000209700";
  "050004000209050080004000000062400009097080060300002000905021470000098002006300090";
  "030000000401060030506070000054900000060000920900001000000005760000038005300100240";
  "040001000003040600209000010096800003031000020580403000000092380000156004000300200";
  "000809000009000000720400000058000007910730000400090108094007030002083700300910800";
  "070900000006050000325100000000000000439700050000820307200030570000090103603070900";
  "090100000005400100480600070000000000012800000700050981604030010000080502008900300";
  "080701000907000000120000000009000005310500000600020003891004030005080604004370910";
  "005076800060800000700009205010000000800020100207005408506031040000000900001004000";
  "301052800040000000607000300000009005400006700100840903702018500000000000000207001";
  "200013040010000080003009201000000000900000470806005309002074000790030000005006008";
  "509032860030000000200008000000091086900700000604500209400009150700800300000304008";
  "504062070060000000300009400000073004700916300603280907009038700200000000000401003";
  "903000572010000000500008400000000004000094800006050103609012700700000000300509000";
  "306004005040900000900007400080000047000031000109042008008000510000100900400509006";
  "500040203000900000006001509060000000700005800003098607302076400000000000807003000";
  "302005060080000000107003000000040036000709500806030907000051020600900300000306009";
  "504001090000000000309007400000080265000300900402000300006845000700100000000200008";
  "301000504000000000702005000000008109000050700007301802600217030000000400100806000";
  "000000280700450000003080605049000100300090004008000390401070500000032006035000000";
  "000000301600300500018005900027019000500020008000450190006700410002004007704000000";
  "000000054000200900204091007050010600700030009006070020500140703007008000180000000";
  "000000070600710300800035100010000200290060017005000040008970002003054009040000000";
  "000000008500200030004001209003002701805010602102600300207900800010007005600000000";
  "000000130000100500000073802078010960300020008041030250607850000009001000082000000";
  "000009000900720040406005800091000580000060000043000260004800301050073008000900000";
  "000009000900720040406005800091000580000060000043000260004800301050073008000900000";
  "000009000900720040406005800091000580000060000043000260004800301050073008000900000";
  "000009000900720040406005800091000580000060000043000260004800301050073008000900000";
  "010089000900020140000030000000000580275008000800091007060800390050600408000004050";
  "690057004500090370000300000009800000260009100400065009050020000020000091300008060";
  "900010005000050976000078004000600100371002000006030000040800200010000090295000007";
  "002043009000000536300051002000000300108005000703028004080500900010000040934002005";
  "060007000500020860000031000000300400056000700402000009070180290020000301000005070";
  "050031000800060137000080005000100400764005000200040003010400020070000908025006010";
  "040005000500020193000030042000000030084003000300098006050000600031600085078009020";
  "060059007300070500000040020000000760874006000500030009040300900007900032200004070";
  "640003000900050610000080005000700560058009000700030004090600230070800406004002080";
  "190007000500000240000030008000000476005002000300041000070300060080900700004200000";
  "830069000402300080050010000070000100604001000500078006000100240040000509000004070";
  "700089001000000890000160000008900600204005000300072009030200950060000400500001000";
  "704023008000010406800790000005000000367008000900037000020000150000000932430000080";
  "030095000100000094000010003000000620409006000300021000000200570060500901058000030";
  "476000000500060403100090000000200500017004000000089004090100200000000046030006095";
  "009000002000040013600570004001000700058003000000062008000400900090000060172008000";
  "870006001500080630000029008000100000057002000102045060060000300010003086708000010";
  "000000000003120850010058009020000100038005000009036000070600530080000420002000007";
  "000040105000001000800502600508000029000000000970000503001805004000600000204090000";
  "000001905800006031030400000207040010000010000010030704000004060120500008309200000";
  "700603008103050407000010000010205070009000500050809040000090000407030905500704002";
  "000901000208000705046000390020645080004802500080137020052000860409000103000309000";
  "000109000508407302071000960080905040000030000010806050036000490809601207000302000";
  "000908000004000700068050920030509070005020800080103050012060340009000500000801000";
  "000106000001308400039000810060000040008050700010000050087000930002405600000907000";
  "000807000708000109052030670060374080000000000070582010039020760806000403000603000";
  "000406000502108304080000070060801050008090400050702030040000090601903502000604000";
  "600803005704000806090040010060000080003415700050000030070060050106000203500701004";
  "000701000403000507027080930030809070000040000010206050041060890306000104000104000";
  "075409210010000040000271000039000720600000003084000190000352000040000060057906830";
  "031000950000070000000413000076205310040000070025907840000164000000050000017000520";
  "054000790030000040000417000295000478000020000716000253000964000070000020048000360";
  "006000400020010090000539000405301807072604310103702609000867000010020080008000900";
  "053000490040020030000804000400080009706000305200090001000406000080070060074000520";
  "054000910060000080000215000017030860000020000098060720000896000020000040081000590";
  "000201000070090080800407006059000860640000037028000140100508003090030010000904000";
  "000507000030080040800943007607000209002070800408000506500791002080020050000804000";
  "090406050000020000600090004470080026100000005920040071500060008000070000040108090";
  "068407920010000030000219000250806073007000600190302048000561000080000010021903750";
  "097604520010000080800751004001070200070000050004090600100845007040000030058307410";
  "060070800008300010100680005000013000003007601000900270800030060500000002342000500";
  "000269700000000020302400106000587009004002008080004603700040900400100000028000400";
  "020070600007320000900180007000002000000710843000050160600000010200000004815000700";
  "500040700000600050004700308000200000005080003240003970400090800800100000093400002";
  "900000800002030070003900005000500000005040020730001900000050190800400000090100002";
  "250090700000000030609800001002401000000600003960032400800006300300900002024300907";
  "300040700007320040000500803604950000102003058000002960000065070700000000030094006";
  "260098000009730000307020000000000006000470389900850040000000410400000003710900508";
  "780020900000000000609100004000203000002710003130049200200070400400900002095400807";
  "000080000003710020005900700000270000006003097200001640400020170500000000172400000";
  "302000007004000502060200080400050031825000479930070005050008090208000300100000708";
  "900060000005000604000800020800020910006409500019070002070001000503000200000090008";
  "800510000004000901300009000005700080001906300080003100000100007608000200000042006";
  "310040000007090308000700000700000053093804610540000009000009000409030100000060035";
  "260070009009000400000900050500091070700503008040620005070009000003000700800030062";
  "376010000005000301120000000000270068700408003810056000000000075403000100000020839";
  "436010000002000104000400000000069750060104080078320000000007000605000400000030618";
  "860010000004060900000300060000006029670902058940500000010003000008050100000070045";
  "002306100003951200090000070300000007600587002500000004040000030006814700007603400";
  "900702006600000009180000025009601500000050000004907300850000017700000003400105008";
  "200803004008000500010020060003705100500040008007201300080090050005000700100607009";
  "500304002000010000760020084600000007090561030200000001150080029000040000900602003";
  "004106300705030201030050060200000004851000732300000008010040070502080409003701500";
  "002705100500201006070000090207000605000102000603000208040000060100906004006804900";
  "000369000903804102060010040500000004016000250400000007020090030605102409000458000";
  "007501300005020900100060004900000007370000062600000003200070009001030200009208600";
  "000084010080700000002030900360000004008070200100000089006010400000002030070490000";
  "090020050067010000001009000920700830003040600048005027000800400000050210030070060";
  "090058040006007900000002306870040060004000700020090014407200000002300600080560020";
  "040038000009000003000005000680020740004070900075040086000900000200000400000350010";
  "800904003002678400400020006080090050027501960010060080700050008009836700100709005";
  "800602004002040100410000023050090040620000098070080050240000015001020400900401007";
  "000401000004070100120000034010050040098000760070060050760000093003040600000605000";
  "050409070001000300700010002207060904060070030504030107400090008008000500070108020";
  "010503040007000300063040510001020900070000060004030700036050470002000600090602030";
  "040802010007000200800060005008040600074506380005070100700010003003000800060307020";
  "700402001000795000408010209004050900010000040009070100902060708000327000500908002";
  "006000500000105000500623007360407058000000000940801023200378006000904000007000900";
  "089030610000704000403108705246000859000000000831000267305607401000803000028040370";
  "070060090000301000300000005810504032030000050450607089900000007000908000080050010";
  "080000050000602000400831009830109075920000041760504032100498006000703000040000090";
  "010204030028906450900000008800309004000010000400508009600000003085603740030705080";
  "050030010000401000200605008510803062000000000640107053800706001000304000030090070";
  "010030050029105730500907001800000006040000010200000004900708005074603890080020060";
  "001000400007903600600105008920000041050090080170000032400502007002604800005000300";
  "500020004000107000803050102028000430900000008067000250701060503000803000200010006";
  "380706042040802090200040007004261900000000000007483100500030001070108050910607034";
  "070060090000301000300000005810504032030000050450607089900000007000908000080050010";
  "080000050000602000400831009830109075920000041760504032100498006000703000040000090";
  "010204030028906450900000008800309004000010000400508009600000003085603740030705080";
  "050030010000401000200605008510803062000000000640107053800706001000304000030090070"
]%string.

(** * Specification *)

(** ** Board states *)

(** The position of the cell with index [i] in row-major order. *)
Definition position_of_index (i : nat) : Z * Z :=
  (Z.of_nat i / 9 + 1, Z.of_nat i mod 9 + 1).

(** The states a board can be in: 81 distinct cell objects, each carrying
    the position of its index.  Values and fixed flags are arbitrary. *)
Record board_ok (h : heap) (b : Board) : Prop := mk_board_ok {
  ok_length : length (cells b) = 81%nat;
  ok_NoDup : NoDup (cells b);
  ok_allocated : forall l, l ∈ cells b -> (l < length h)%nat;
  ok_position : forall i l, cells b !! i = Some l ->
    (row (deref h l), column (deref h l)) = position_of_index i
}.

(** The states reached from a constructed board by calls of
    [setCellValue]. *)
Inductive reachable : Board -> heap -> Prop :=
| reachable_new boardDef h0 b h :
    new_Board boardDef h0 = (Ret b, h) -> reachable b h
| reachable_setCellValue b h row col v r h' :
    reachable b h ->
    setCellValue b row col v h = (Ret r, h') ->
    reachable b h'.

(** ** Traversal orders *)

(** [from, from + 1, ...], [count] numbers. *)
Fixpoint zrange (from : Z) (count : nat) : list Z :=
  match count with
  | O => []
  | Datatypes.S n => from :: zrange (from + 1) n
  end.

(** A loop over the elements of a list. *)
Fixpoint for_each {X S} (xs : list X) (body : X -> S -> M (flow S)) (s : S)
    : M (flow S) :=
  match xs with
  | [] => ret (Next s)
  | x :: xs' =>
      let! r := body x s in
      match r with
      | Next s' => for_each xs' body s'
      | Exit s' => ret (Exit s')
      end
  end.

(** One visit of a traversal: the index of the cell, the number of its
    group, and whether the cell begins the group. *)
Abbreviation visit := (nat * Z * bool)%type (only parsing).

Definition visit_body {S} (b : Board) (cb : callback S) (v : visit) (s : S)
    : M (flow S) :=
  let! cell := array_get (cells b) (Z.of_nat (fst (fst v))) in
  let! r := cb cell (snd (fst v)) (snd v) s in
  ret (after_callback r).

(** The traversal that makes the visits [order] one after the other and
    stops when the callback returns [false]. *)
Definition walk {S} (order : list visit) (b : Board) (cb : callback S) (s : S)
    : M S :=
  let! r := for_each order (visit_body b cb) s in
  ret (flow_state r).

(** The visits of one group: its first cell begins the group. *)
Definition mark (x : Z) (g : list nat) : list visit :=
  match g with
  | [] => []
  | i :: g' => (i, x, true) :: map (fun j => (j, x, false)) g'
  end.

Definition grouped (gs : list (Z * list nat)) : list visit :=
  flat_map (fun g => mark (fst g) (snd g)) gs.

(** The index of the cell at a position. *)
Definition index_of (row col : Z) : nat := Z.to_nat ((row - 1) * 9 + (col - 1)).

(** By row: the group is the row, its cells ordered by column. *)
Definition row_groups : list (Z * list nat) :=
  map (fun r => (r, map (fun c => index_of r c) (zrange 1 9))) (zrange 1 9).

(** By column: the group is the column, its cells ordered by row. *)
Definition column_groups : list (Z * list nat) :=
  map (fun c => (c, map (fun r => index_of r c) (zrange 1 9))) (zrange 1 9).

(** By box: box [bx] has box-row [(bx - 1) / 3] and box-column
    [(bx - 1) mod 3]; its cells are the rows [3 * box-row + 1 ..
    3 * box-row + 3] times the columns [3 * box-column + 1 ..
    3 * box-column + 3], in row-major order. *)
Definition box_positions (bx : Z) : list (Z * Z) :=
  let box_row := (bx - 1) / 3 in
  let box_column := (bx - 1) mod 3 in
  flat_map (fun r => map (fun c => (r, c)) (zrange (3 * box_column + 1) 3))
           (zrange (3 * box_row + 1) 3).

Definition box_groups : list (Z * list nat) :=
  map (fun bx => (bx, map (fun p => index_of (fst p) (snd p)) (box_positions bx)))
      (zrange 1 9).

(** The index table [cellIndices] of [walkCellsByBox] for a box. *)
Definition cellIndices_of (boxIdx : Z) : list Z :=
  let firstCellIdx := boxIdx / 3 * 27 + Z.rem boxIdx 3 * 3 in
  [firstCellIdx;      firstCellIdx + 1;  firstCellIdx + 2;
   firstCellIdx + 9;  firstCellIdx + 10; firstCellIdx + 11;
   firstCellIdx + 18; firstCellIdx + 19; firstCellIdx + 20].

(** The three traversals together. *)
Definition all_groups : list (Z * list nat) :=
  row_groups ++ column_groups ++ box_groups.

(** The groups are not empty and stay within the board. *)
Definition groups_ok (gs : list (Z * list nat)) : Prop :=
  Forall (fun g : Z * list nat =>
            snd g <> [] /\ NoDup (snd g) /\ Forall (fun i => i < 81)%nat (snd g))
         gs.

(** The cell object a board holds at index [i]. *)
Definition cell_at (b : Board) (i : nat) : loc := nth i (cells b) 0%nat.

Definition visit_index (v : visit) : nat := fst (fst v).

(** The cells of a group of indices, and their values. *)
Definition group_cells (b : Board) (g : Z * list nat) : list loc :=
  map (cell_at b) (snd g).

Definition group_values (h : heap) (b : Board) (g : Z * list nat) : list Z :=
  map (fun l => value (deref h l)) (group_cells b g).

(** ** Board definitions *)

(** A decimal digit, and the number it denotes. *)
Definition is_digit (c : ascii) : Prop := (48 <= N_of_ascii c <= 57)%N.
Definition digit_value (c : ascii) : Z := Z.of_N (N_of_ascii c) - 48.

(** A board definition: 81 characters, each a decimal digit. *)
Definition valid_definition (s : string) : Prop :=
  String.length s = 81%nat /\
  forall i c, String.get i s = Some c -> is_digit c.

(** A decidable form of the second part of [valid_definition]. *)
Fixpoint all_digits (s : string) : bool :=
  match s with
  | EmptyString => true
  | String c s' =>
      let n := N_of_ascii c in
      (48 <=? n)%N && (n <=? 57)%N && all_digits s'
  end.

(** The number at position [i] of a definition, and the cell it defines. *)
Definition digit_at (s : string) (i : nat) : Z :=
  match String.get i s with
  | Some c => digit_value c
  | None => 0
  end.

Definition initial_cell (s : string) (i : nat) : Cell :=
  mkCell (fst (position_of_index i)) (snd (position_of_index i))
         (digit_at s i) (negb (digit_at s i =? 0)).

(** ** Restart *)

(** What the callback of [restart] does to one cell, and to the store. *)
Definition reset (c : Cell) : Cell := if isFixed c then c else with_value c 0.

Definition reset_cell (h : heap) (l : loc) : heap :=
  if isFixed (deref h l) then h else store_value h l 0.

(** ** Solved boards *)

(** Every cell has a value other than 0 and the values of each row, each
    column and each box are pairwise distinct. *)
Definition solved (h : heap) (b : Board) : Prop :=
  (forall l, l ∈ cells b -> value (deref h l) <> 0) /\
  (forall g, g ∈ all_groups -> NoDup (group_values h b g)).

(** The rows are complete: no 0 and no value twice in a row. *)
Definition rows_solved (h : heap) (b : Board) : Prop :=
  forall g, g ∈ row_groups ->
    (forall l, l ∈ group_cells b g -> value (deref h l) <> 0) /\
    NoDup (group_values h b g).

(** What the callback of [hasWon] finds on the cells [ls] of a group
    after the values [used]: [false] at the first 0 or repeated value. *)
Fixpoint scan (h : heap) (ls : list loc) (used : obj bool) : bool :=
  match ls with
  | [] => true
  | l :: ls' =>
      let v := value (deref h l) in
      if v =? 0 then false
      else match obj_get used v with
           | Some true => false
           | _ => scan h ls' (obj_set used v true)
           end
  end.

(** ** Conflicts *)

(** The box of a position. *)
Definition box_of (p : Z * Z) : Z * Z := ((fst p - 1) / 3, (snd p - 1) / 3).

(** The cells with indices [i] and [j] share a row, a column or a box. *)
Definition same_group (i j : nat) : Prop :=
  fst (position_of_index i) = fst (position_of_index j) \/
  snd (position_of_index i) = snd (position_of_index j) \/
  box_of (position_of_index i) = box_of (position_of_index j).

(** Cell [l] of the board has a value other than 0 that another cell of
    one of its groups has too. *)
Definition conflicting (h : heap) (b : Board) (l : loc) : Prop :=
  exists i, cells b !! i = Some l /\ value (deref h l) <> 0 /\
    exists j l', cells b !! j = Some l' /\ j <> i /\ same_group i j /\
                 value (deref h l') = value (deref h l).

(** Strictly ascending by row, then by column. *)
Definition position_lt (h : heap) (a b : loc) : Prop :=
  row (deref h a) < row (deref h b) \/
  (row (deref h a) = row (deref h b) /\ column (deref h a) < column (deref h b)).

(** Cell [l] of the group [ls] has a value that another cell of the group
    has too. *)
Definition conflict_in (h : heap) (ls : list loc) (l : loc) : Prop :=
  l ∈ ls /\ value (deref h l) <> 0 /\
  exists l', l' ∈ ls /\ l' <> l /\ value (deref h l') = value (deref h l).

(** What the callback of [getConflicts] does to [cellsWithValue] on one
    cell, and on the cells of a group. *)
Definition bucket_add (h : heap) (o : obj (list loc)) (cell : loc)
    : obj (list loc) :=
  let v := value (deref h cell) in
  if negb (v =? 0) then
    match obj_get o v with
    | None => obj_set o v [cell]
    | Some cs => obj_set o v (cs ++ [cell])
    end
  else o.

Definition fill_buckets (h : heap) (ls : list loc) (o : obj (list loc))
    : obj (list loc) :=
  fold_left (bucket_add h) ls o.

(** The cells of [ls] with value [k], as the bucket of [k] holds them. *)
Definition bucket (h : heap) (ls : list loc) (k : Z) : option (list loc) :=
  if decide (k = 0) then None
  else match filter (fun l => value (deref h l) = k) ls with
       | [] => None
       | cs => Some cs
       end.

(** The pending buckets are added to the conflicts when the next group
    begins, and at the end. *)
Definition flush_pending (cellsWithValue : option (obj (list loc)))
    (conflicts : list loc) : list loc :=
  match cellsWithValue with
  | Some o => add_conflicts o conflicts
  | None => conflicts
  end.

(** The conflicts after [check] has gone through the groups [gs]. *)
Definition check_result (h : heap) (b : Board) (gs : list (Z * list nat))
    (conflicts : list loc) : list loc :=
  fold_left (fun c g => add_conflicts (fill_buckets h (group_cells b g) []) c)
            gs conflicts.

(** The two sides of the comparison of the groups with the positions, as
    boolean functions. *)
Definition same_groupb (i j : nat) : bool :=
  let p := position_of_index i in
  let q := position_of_index j in
  (fst p =? fst q) || (snd p =? snd q) ||
  ((fst (box_of p) =? fst (box_of q)) && (snd (box_of p) =? snd (box_of q))).

Definition common_groupb (i j : nat) : bool :=
  existsb (fun g : Z * list nat =>
             existsb (Nat.eqb i) (snd g) && existsb (Nat.eqb j) (snd g))
          all_groups.

(** ** Concrete boards *)

(** The board object every construction in an empty store returns. *)
Definition example_board : Board := mkBoard (seq 0 81).

(** The first board of the corpus. *)
Definition example_definition : string :=
  "000091000000700600001003040002050406090006007078400010080309100406810000030000000".

Definition example_heap : heap := map (initial_cell example_definition) (seq 0 81).

(** Every row is 1 2 3 4 5 6 7 8 9: the rows are complete, no column and
    no box is. *)
Definition rows_only_definition : string :=
  "123456789123456789123456789123456789123456789123456789123456789123456789123456789".

Definition rows_only_heap : heap :=
  map (initial_cell rows_only_definition) (seq 0 81).

(** The givens 1 and 1 side by side in the first row. *)
Definition conflict_definition : string :=
  "110000000000000000000000000000000000000000000000000000000000000000000000000000000".

Definition conflict_heap : heap :=
  map (initial_cell conflict_definition) (seq 0 81).

(** ** Notions of the further properties *)

(** A callback that notes its arguments and returns [false] at its [n]th
    call: [function (cell, x, newX) { seen.push([cell, x, newX]);
    if (seen.length === n) { return false; } }]. *)
Definition record_until (n : nat) : callback (list (loc * Z * bool)) :=
  fun cell x newX seen =>
    let seen := seen ++ [(cell, x, newX)] in
    ret (seen, if (length seen =? n)%nat then ReturnsFalse
               else ReturnsUndefined).

(** The arguments the callback gets at the visits [order]. *)
Definition located (b : Board) (order : list visit) : list (loc * Z * bool) :=
  map (fun v : visit => (cell_at b (fst (fst v)), snd (fst v), snd v)) order.

(** The index [(row - 1) * 9 + (col - 1)] falls on a cell. *)
Definition on_board (row col : Z) : Prop :=
  0 <= calcCellIndexFromBoardPosition row col < 81.

(** Two stores show the same cells of a board. *)
Definition same_cells (b : Board) (h h' : heap) : Prop :=
  forall l, l ∈ cells b -> deref h l = deref h' l.

(** The states of a board constructed from the definition [s] in the
    course of a game: calls of [setCellValue], [restart], [getCell] and
    [getBoard] in any order, with any arguments. *)
Inductive played (s : string) : Board -> heap -> Prop :=
| played_new h0 b h :
    new_Board (JsString s) h0 = (Ret b, h) -> played s b h
| played_setCellValue b h row col v r h' :
    played s b h -> setCellValue b row col v h = (Ret r, h') -> played s b h'
| played_restart b h u h' :
    played s b h -> restart b h = (Ret u, h') -> played s b h'
| played_getCell b h row col c h' :
    played s b h -> getCell b row col h = (Ret c, h') -> played s b h'
| played_getBoard b h plain arr h' :
    played s b h -> getBoard plain b h = (Ret arr, h') -> played s b h'.

(** The position next to [p] in a direction of [getAdjacentCell]: 0 is
    left, 1 up, 2 right, 3 down. *)
Definition neighbour (direction : Z) (p : Z * Z) : option (Z * Z) :=
  if direction =? 0 then Some (fst p, snd p - 1)
  else if direction =? 1 then Some (fst p - 1, snd p)
  else if direction =? 2 then Some (fst p, snd p + 1)
  else if direction =? 3 then Some (fst p + 1, snd p)
  else None.

(** A position of the grid. *)
Definition in_grid (p : Z * Z) : Prop := 1 <= fst p <= 9 /\ 1 <= snd p <= 9.

(** The position a cell object carries. *)
Definition position (h : heap) (l : loc) : Z * Z :=
  (row (deref h l), column (deref h l)).

(** The direction back: left for right, up for down. *)
Definition opposite (direction : Z) : Z := Z.rem (direction + 2) 4.

(** ** Playable definitions *)

(** The given at index [i] of a definition is repeated at index [j]. *)
Definition givens_clash (s : string) (i j : nat) : bool :=
  negb (digit_at s i =? 0) && (digit_at s i =? digit_at s j).

(** The pairs of different indices of one row, column or box. *)
Definition group_pairs : list (nat * nat) :=
  List.filter (fun p => negb (fst p =? snd p)%nat && same_groupb (fst p) (snd p))
              (list_prod (seq 0 81) (seq 0 81)).

(** A definition of 81 digits, one of them 0, no given repeated in a row,
    a column or a box. *)
Definition playable_with (pairs : list (nat * nat)) (s : string) : bool :=
  (String.length s =? 81)%nat && all_digits s &&
  existsb (fun i => digit_at s i =? 0) (seq 0 81) &&
  forallb (fun p => negb (givens_clash s (fst p) (snd p))) pairs.

Definition playable (s : string) : bool := playable_with group_pairs s.

(** ** Exact arithmetic, visits, complete boards *)

(** An integer in the range where the index arithmetic of the source,
    which is done in doubles, is exact: with [row] and [col] in this range
    [(row - 1) * 9 + (col - 1)] is an integer of magnitude below [2 ^ 35],
    and for an integer [idx] of magnitude below [2 ^ 35] the quotient
    [idx / 9] is an integer or at least [1 / 9] away from one, while the
    rounding of the division moves it by less than [2 ^ -21]. *)
Definition small (z : Z) : Prop := - 2 ^ 31 <= z <= 2 ^ 31.

(** Calling [cb] with the arguments [vs] one after the other, until it
    returns [false]: what a traversal does, written without the board. *)
Definition visit_all {S} (vs : list (loc * Z * bool)) (cb : callback S) (s : S)
    : M S :=
  let! r := for_each vs (fun v s =>
              let! r := cb (fst (fst v)) (snd (fst v)) (snd v) s in
              ret (after_callback r)) s in
  ret (flow_state r).

(** Every row, every column and every box holds the numbers 1 to 9, each
    of them once. *)
Definition complete (h : heap) (b : Board) : Prop :=
  forall g, g ∈ all_groups -> group_values h b g ≡ₚ zrange 1 9.

(** A board with every row, column and box complete. *)
Definition solved_definition : string :=
  "534678912672195348198342567859761423426853791713924856961537284287419635345286179".

Definition solved_heap : heap := map (initial_cell solved_definition) (seq 0 81).

(** * Proofs *)

(** ** The monad and the loops *)

Lemma bind_assoc {A B C} (m : M A) (f : A -> M B) (g : B -> M C) h :
  bind (bind m f) g h = bind m (fun x => bind (f x) g) h.
Proof. unfold bind. destruct (m h) as [[a|e] h']; reflexivity. Qed.

Lemma bind_ext {A B} (m : M A) (f g : A -> M B) h :
  (forall a h', f a h' = g a h') -> bind m f h = bind m g h.
Proof. intros E. unfold bind. destruct (m h) as [[a|e] h']; auto. Qed.

Lemma for_loop_S {S} (body : Z -> S -> M (flow S)) from n s h :
  for_loop from (Datatypes.S n) body s h =
  match body from s h with
  | (Ret (Next s'), h') => for_loop (from + 1) n body s' h'
  | (Ret (Exit s'), h') => (Ret (Exit s'), h')
  | (Throw e, h') => (Throw e, h')
  end.
Proof.
  simpl. unfold bind. destruct (body from s h) as [[[s'|s']|e] h']; reflexivity.
Qed.

Lemma for_loop_for_each {S} (body : Z -> S -> M (flow S)) count :
  forall from s h,
    for_loop from count body s h = for_each (zrange from count) body s h.
Proof.
  induction count as [|n IH]; intros from s h; simpl; [reflexivity|].
  apply bind_ext. intros [s'|s'] h'; [apply IH | reflexivity].
Qed.

Lemma for_each_ext {X S} (body1 body2 : X -> S -> M (flow S)) xs :
  (forall x, x ∈ xs -> forall s h, body1 x s h = body2 x s h) ->
  forall s h, for_each xs body1 s h = for_each xs body2 s h.
Proof.
  induction xs as [|x xs IH]; intros E s h; simpl; [reflexivity|].
  unfold bind. rewrite (E x) by left.
  destruct (body2 x s h) as [[[s'|s']|e] h']; try reflexivity.
  apply IH. intros y Hy. apply E. by right.
Qed.

Lemma for_each_ext_Forall {X S} (body1 body2 : X -> S -> M (flow S)) xs :
  Forall (fun x => forall s h, body1 x s h = body2 x s h) xs ->
  forall s h, for_each xs body1 s h = for_each xs body2 s h.
Proof.
  intros E. rewrite Forall_forall in E. apply for_each_ext. exact E.
Qed.

Lemma for_each_map {X Y S} (f : X -> Y) (body : Y -> S -> M (flow S)) xs :
  forall s h,
    for_each (map f xs) body s h = for_each xs (fun x => body (f x)) s h.
Proof.
  induction xs as [|x xs IH]; intros s h; simpl; [reflexivity|].
  apply bind_ext. intros [s'|s'] h'; [apply IH | reflexivity].
Qed.

Lemma for_each_app {X S} (body : X -> S -> M (flow S)) xs ys :
  forall s h,
    for_each (xs ++ ys) body s h =
    bind (for_each xs body s)
         (fun r => match r with
                   | Next s' => for_each ys body s'
                   | Exit s' => ret (Exit s')
                   end) h.
Proof.
  induction xs as [|x xs IH]; intros s h; simpl; [reflexivity|].
  rewrite bind_assoc. apply bind_ext.
  intros [s'|s'] h'; [apply IH | reflexivity].
Qed.

(** A loop nested in a loop is one loop over the pairs. *)
Lemma for_each_nested {X Y S} (ys : X -> list Y)
    (body : X -> Y -> S -> M (flow S)) xs :
  forall s h,
    for_each xs (fun x s => for_each (ys x) (body x) s) s h =
    for_each (flat_map (fun x => map (fun y => (x, y)) (ys x)) xs)
             (fun p => body (fst p) (snd p)) s h.
Proof.
  induction xs as [|x xs IH]; intros s h; simpl; [reflexivity|].
  rewrite for_each_app. unfold bind. rewrite for_each_map. simpl.
  destruct (for_each (ys x) _ s h) as [[[s'|s']|e] h']; auto.
Qed.

(** ** The traversals make the visits of their groups, in order *)

Lemma bind_cong_l {A B} (m1 m2 : M A) (f : A -> M B) h :
  m1 h = m2 h -> bind m1 f h = bind m2 f h.
Proof. intros E. unfold bind. by rewrite E. Qed.

Lemma elem_of_zrange x count : forall from,
  x ∈ zrange from count -> from <= x < from + Z.of_nat count.
Proof.
  induction count as [|n IH]; intros from Hx; simpl in Hx.
  - by apply elem_of_nil in Hx.
  - apply elem_of_cons in Hx as [->|Hx]; [lia|]. apply IH in Hx. lia.
Qed.

Lemma elem_of_pairs (ys : list Z) xs (p : Z * Z) :
  p ∈ flat_map (fun x => map (fun y => (x, y)) ys) xs ->
  fst p ∈ xs /\ snd p ∈ ys.
Proof.
  intros Hp. apply list_elem_of_In, in_flat_map in Hp as (x & Hx & Hp).
  apply in_map_iff in Hp as (y & <- & Hy). simpl.
  split; by apply list_elem_of_In.
Qed.

Lemma getCellAtPosition_visit {S} b (cb : callback S) row col x newX s h :
  1 <= row -> 1 <= col ->
  (let! cell := getCellAtPosition b row col false in
   let! r := cb cell x newX s in
   ret (after_callback r)) h =
  visit_body b cb (index_of row col, x, newX) s h.
Proof.
  intros Hr Hc. unfold getCellAtPosition, visit_body, index_of,
    calcCellIndexFromBoardPosition. simpl.
  rewrite Z2Nat.id by lia. rewrite bind_assoc. apply bind_ext.
  reflexivity.
Qed.

Lemma walkCellsByRow_walk {S} b (cb : callback S) s h :
  walkCellsByRow b cb s h = walk (grouped row_groups) b cb s h.
Proof.
  unfold walkCellsByRow, walk. apply bind_cong_l.
  rewrite for_loop_for_each.
  rewrite (for_each_ext _ (fun row s => for_each (zrange 1 9) (fun col s =>
     let! cell := getCellAtPosition b row col false in
     let! r := cb cell row (col =? 1) s in
     ret (after_callback r)) s)) by (intros; apply for_loop_for_each).
  rewrite (for_each_nested (fun _ => zrange 1 9)).
  change (grouped row_groups) with
    (map (fun p : Z * Z => (index_of (fst p) (snd p), fst p, snd p =? 1))
         (flat_map (fun x => map (fun y => (x, y)) (zrange 1 9)) (zrange 1 9))).
  rewrite for_each_map. apply for_each_ext. intros p Hp s' h'.
  apply elem_of_pairs in Hp as [Hr%elem_of_zrange Hc%elem_of_zrange].
  apply getCellAtPosition_visit; lia.
Qed.

Lemma walkCellsByColumn_walk {S} b (cb : callback S) s h :
  walkCellsByColumn b cb s h = walk (grouped column_groups) b cb s h.
Proof.
  unfold walkCellsByColumn, walk. apply bind_cong_l.
  rewrite for_loop_for_each.
  rewrite (for_each_ext _ (fun col s => for_each (zrange 1 9) (fun row s =>
     let! cell := getCellAtPosition b row col false in
     let! r := cb cell col (row =? 1) s in
     ret (after_callback r)) s)) by (intros; apply for_loop_for_each).
  rewrite (for_each_nested (fun _ => zrange 1 9)).
  change (grouped column_groups) with
    (map (fun p : Z * Z => (index_of (snd p) (fst p), fst p, snd p =? 1))
         (flat_map (fun x => map (fun y => (x, y)) (zrange 1 9)) (zrange 1 9))).
  rewrite for_each_map. apply for_each_ext. intros p Hp s' h'.
  apply elem_of_pairs in Hp as [Hc%elem_of_zrange Hr%elem_of_zrange].
  apply getCellAtPosition_visit; lia.
Qed.

Lemma walkCellsByBox_walk {S} b (cb : callback S) s h :
  walkCellsByBox b cb s h = walk (grouped box_groups) b cb s h.
Proof.
  unfold walkCellsByBox, walk. apply bind_cong_l.
  rewrite for_loop_for_each.
  rewrite (for_each_ext _ (fun boxIdx s => for_each (zrange 0 9)
     (fun inBoxIdx s =>
        let! idx := array_get (cellIndices_of boxIdx) inBoxIdx in
        let! cell := array_get (cells b) idx in
        let! r := cb cell (boxIdx + 1) (inBoxIdx =? 0) s in
        ret (after_callback r)) s)) by (intros; apply for_loop_for_each).
  rewrite (for_each_nested (fun _ => zrange 0 9)).
  change (grouped box_groups) with
    (map (fun p : Z * Z =>
            (Z.to_nat (nth (Z.to_nat (snd p)) (cellIndices_of (fst p)) 0),
             fst p + 1, snd p =? 0))
         (flat_map (fun x => map (fun y => (x, y)) (zrange 0 9)) (zrange 0 9))).
  rewrite for_each_map. apply for_each_ext_Forall.
  cbv [flat_map zrange map app Z.add Pos.add Pos.succ].
  repeat (constructor; [intros; reflexivity|]).
  constructor.
Qed.

(** ** Reading the cells of a board *)

Lemma lookup_cell_at b i :
  (i < length (cells b))%nat -> cells b !! i = Some (cell_at b i).
Proof.
  intros Hi. unfold cell_at. rewrite nth_lookup.
  destruct (lookup_lt_is_Some_2 _ _ Hi) as [l ->]. reflexivity.
Qed.

Lemma array_get_cell b i h :
  (i < length (cells b))%nat ->
  array_get (cells b) (Z.of_nat i) h = (Ret (cell_at b i), h).
Proof.
  intros Hi. unfold array_get.
  destruct (Z.ltb_spec (Z.of_nat i) 0) as [?|_]; [lia|].
  rewrite Nat2Z.id, lookup_cell_at by done. reflexivity.
Qed.

Lemma cells_cell_at b :
  map (cell_at b) (seq 0 (length (cells b))) = cells b.
Proof.
  unfold cell_at. generalize (cells b). intros l.
  apply list_eq. intros i. rewrite list_lookup_fmap.
  destruct (decide (i < length l)%nat) as [Hi|Hi].
  - rewrite lookup_seq_lt by done. simpl. rewrite nth_lookup.
    destruct (lookup_lt_is_Some_2 _ _ Hi) as [x ->]. reflexivity.
  - rewrite lookup_seq_ge by lia. simpl.
    symmetry. apply lookup_ge_None. lia.
Qed.

(** ** Reading and writing the store *)

Lemma deref_lookup (h : heap) l c : h !! l = Some c -> deref h l = c.
Proof. unfold deref. by intros ->. Qed.

Lemma lookup_deref (h : heap) l :
  (l < length h)%nat -> h !! l = Some (deref h l).
Proof.
  intros Hl. unfold deref.
  destruct (lookup_lt_is_Some_2 _ _ Hl) as [c ->]. reflexivity.
Qed.

Lemma length_store_value (h : heap) l v : length (store_value h l v) = length h.
Proof. unfold store_value. apply length_insert. Qed.

Lemma deref_store_value_eq (h : heap) l v :
  (l < length h)%nat -> deref (store_value h l v) l = with_value (deref h l) v.
Proof.
  intros Hl. unfold store_value. apply deref_lookup.
  by apply list_lookup_insert_eq.
Qed.

Lemma lookup_store_value_ne (h : heap) l l' v :
  l <> l' -> store_value h l v !! l' = h !! l'.
Proof. intros Hne. unfold store_value. by apply list_lookup_insert_ne. Qed.

Lemma deref_store_value_ne (h : heap) l l' v :
  l <> l' -> deref (store_value h l v) l' = deref h l'.
Proof. intros Hne. unfold deref. by rewrite lookup_store_value_ne. Qed.

(** A write of [value] keeps the board a board. *)
Lemma board_ok_store_value h b l v :
  board_ok h b -> board_ok (store_value h l v) b.
Proof.
  intros [Hlen Hnd Hal Hpos]. split; try done.
  - intros l' Hl'. rewrite length_store_value. by apply Hal.
  - intros i l' Hi. rewrite <- (Hpos i l' Hi).
    destruct (decide (l = l')) as [<-|Hne].
    + rewrite deref_store_value_eq; [reflexivity|].
      apply Hal, list_elem_of_lookup. eauto.
    + by rewrite deref_store_value_ne.
Qed.

(** An allocation keeps the board a board. *)
Lemma board_ok_alloc h b c : board_ok h b -> board_ok (h ++ [c]) b.
Proof.
  intros [Hlen Hnd Hal Hpos]. split; try done.
  - intros l Hl. rewrite length_app. apply Hal in Hl. lia.
  - intros i l Hi. rewrite <- (Hpos i l Hi). unfold deref.
    rewrite lookup_app_l; [reflexivity|].
    apply Hal, list_elem_of_lookup. eauto.
Qed.

(** ** Construction *)

Lemma parseInt_digit c :
  is_digit c -> parseInt (Some c) = Some (digit_value c) /\ 0 <= digit_value c <= 9.
Proof.
  unfold is_digit, parseInt, digit_value. intros Hc.
  destruct (Z.leb_spec 48 (Z.of_N (N_of_ascii c))); [|lia].
  destruct (Z.leb_spec (Z.of_N (N_of_ascii c)) 57); [|lia].
  simpl. split; [reflexivity|lia].
Qed.

Lemma parseInt_not_digit c : ~ is_digit c -> parseInt (Some c) = None.
Proof.
  unfold is_digit, parseInt. intros Hc.
  destruct (Z.leb_spec 48 (Z.of_N (N_of_ascii c)));
    destruct (Z.leb_spec (Z.of_N (N_of_ascii c)) 57); simpl; try reflexivity.
  exfalso. apply Hc. lia.
Qed.

Lemma is_digit_dec c : is_digit c \/ ~ is_digit c.
Proof. unfold is_digit. lia. Qed.

Lemma String_get_lt s : forall i,
  (i < String.length s)%nat -> exists c, String.get i s = Some c.
Proof.
  induction s as [|a s IH]; intros i Hi; simpl in *; [lia|].
  destruct i as [|i]; [eauto|]. apply IH. lia.
Qed.

Lemma String_get_Some s : forall i c,
  String.get i s = Some c -> (i < String.length s)%nat.
Proof.
  induction s as [|a s IH]; intros i c Hi; simpl in *; [discriminate|].
  destruct i as [|i]; [lia|]. apply IH in Hi. lia.
Qed.

Lemma calcBoardPositionFromIndex_nat i :
  calcBoardPositionFromIndex (Z.of_nat i) = position_of_index i.
Proof.
  unfold calcBoardPositionFromIndex, position_of_index.
  rewrite Z.rem_mod_nonneg by lia. reflexivity.
Qed.

(** One turn of the loop of [init] on a digit. *)
Lemma init_body_digit s i c cells h :
  String.get i s = Some c -> is_digit c ->
  init_body s (Z.of_nat i) cells h =
  (Ret (Next (cells ++ [length h])), h ++ [initial_cell s i]).
Proof.
  intros Hget Hc. unfold init_body.
  rewrite calcBoardPositionFromIndex_nat, Nat2Z.id, Hget.
  destruct (parseInt_digit c Hc) as [-> Hv].
  destruct (Z.ltb_spec (digit_value c) 0); [lia|].
  destruct (Z.gtb_spec (digit_value c) 9); [lia|]. simpl.
  unfold bind, new_Cell, ret, initial_cell, digit_at. rewrite Hget.
  reflexivity.
Qed.

(** One turn of the loop of [init] on another character. *)
Lemma init_body_not_digit s i c cells h :
  String.get i s = Some c -> ~ is_digit c ->
  init_body s (Z.of_nat i) cells h = (Throw invalid_cell_value, h).
Proof.
  intros Hget Hc. unfold init_body.
  rewrite Nat2Z.id, Hget, parseInt_not_digit by done. reflexivity.
Qed.

(** The loop of [init]: it builds the cells of the digits, or stops at the
    first character that is not a digit. *)
Lemma init_loop_spec s n : forall i cells h,
  (i + n <= String.length s)%nat ->
  ((forall k c, (i <= k < i + n)%nat -> String.get k s = Some c -> is_digit c) /\
   for_loop (Z.of_nat i) n (init_body s) cells h =
   (Ret (Next (cells ++ seq (length h) n)),
    h ++ map (initial_cell s) (seq i n)))
  \/
  ((exists k c, (i <= k < i + n)%nat /\ String.get k s = Some c /\ ~ is_digit c) /\
   exists h', for_loop (Z.of_nat i) n (init_body s) cells h =
              (Throw invalid_cell_value, h') /\ h `prefix_of` h').
Proof.
  induction n as [|n IH]; intros i cells h Hlen.
  - left. split; [intros; lia|]. simpl. by rewrite !app_nil_r.
  - destruct (String_get_lt s i) as [c Hget]; [lia|].
    destruct (is_digit_dec c) as [Hc|Hc].
    + rewrite for_loop_S, (init_body_digit s i c) by done.
      replace (Z.of_nat i + 1) with (Z.of_nat (Datatypes.S i)) by lia.
      destruct (IH (Datatypes.S i) (cells ++ [length h])
                  (h ++ [initial_cell s i])) as [[Hall ->]|[Hex Hthrow]];
        [lia| |].
      * left. split.
        -- intros k c' Hk Hk'. destruct (decide (k = i)) as [->|Hne].
           ++ congruence.
           ++ apply (Hall k c'); [lia|done].
        -- rewrite length_app. simpl.
           rewrite <- !app_assoc. simpl.
           by replace (length h + 1)%nat with (Datatypes.S (length h)) by lia.
      * right. split.
        -- destruct Hex as (k & c' & Hk & Hk' & Hnd).
           exists k, c'. split; [lia|done].
        -- destruct Hthrow as (h' & -> & Hpre). exists h'. split; [done|].
           etrans; [|exact Hpre]. by apply prefix_app_r.
    + right. split; [exists i, c; split; [lia|done]|].
      exists h. rewrite for_loop_S, (init_body_not_digit s i c) by done.
      done.
Qed.

(** What [new Board] does on every argument. *)
Lemma new_Board_valid s h0 :
  valid_definition s ->
  new_Board (JsString s) h0 =
  (Ret (mkBoard (seq (length h0) 81)), h0 ++ map (initial_cell s) (seq 0 81)).
Proof.
  intros [Hlen Hdig]. unfold new_Board, init. rewrite Hlen. simpl negb.
  cbv iota. unfold bind at 1 2.
  destruct (init_loop_spec s 81 0 [] h0) as [[_ E]|[(k & c & _ & Hk & Hc) _]];
    [lia| |].
  - change (Z.of_nat 0) with 0 in E. rewrite E. reflexivity.
  - destruct Hc. by apply (Hdig k).
Qed.

Lemma new_Board_invalid_character s h0 :
  String.length s = 81%nat ->
  (exists i c, String.get i s = Some c /\ ~ is_digit c) ->
  exists h, new_Board (JsString s) h0 = (Throw invalid_cell_value, h) /\
            h0 `prefix_of` h.
Proof.
  intros Hlen (i & c & Hi & Hc). unfold new_Board, init. rewrite Hlen.
  simpl negb. cbv iota. unfold bind at 1 2.
  destruct (init_loop_spec s 81 0 [] h0)
    as [[Hall _]|[_ (h & E & Hpre)]]; [lia| |].
  - destruct Hc. apply (Hall i); [|done].
    apply String_get_Some in Hi. lia.
  - change (Z.of_nat 0) with 0 in E. rewrite E. eauto.
Qed.

Lemma new_Board_wrong_length s h0 :
  String.length s <> 81%nat ->
  new_Board (JsString s) h0 = (Throw wrong_length, h0).
Proof.
  intros Hlen. unfold new_Board, init.
  destruct (Nat.eqb_spec (String.length s) 81); [done|]. reflexivity.
Qed.

Lemma new_Board_not_a_string v h0 :
  typeof v <> "string"%string ->
  new_Board v h0 = (Throw not_a_string, h0).
Proof. destruct v; try reflexivity. intros []. reflexivity. Qed.

Lemma deref_prefix (h h' : heap) l :
  h `prefix_of` h' -> (l < length h)%nat -> deref h' l = deref h l.
Proof.
  intros Hpre Hl. unfold deref.
  destruct (lookup_lt_is_Some_2 _ _ Hl) as [c Hc].
  by rewrite Hc, (prefix_lookup_Some _ _ _ _ Hc Hpre).
Qed.

Lemma deref_initial_cell s (h0 : heap) i :
  (i < 81)%nat ->
  deref (h0 ++ map (initial_cell s) (seq 0 81)) (length h0 + i) = initial_cell s i.
Proof.
  intros Hi. apply deref_lookup.
  rewrite lookup_app_r by lia.
  replace (length h0 + i - length h0)%nat with i by lia.
  rewrite list_lookup_fmap, lookup_seq_lt by done. reflexivity.
Qed.

(** A constructed board is a board. *)
Lemma board_ok_new s h0 :
  board_ok (h0 ++ map (initial_cell s) (seq 0 81)) (mkBoard (seq (length h0) 81)).
Proof.
  split; cbn [cells].
  - apply length_seq.
  - apply NoDup_seq.
  - intros l Hl. apply elem_of_seq in Hl.
    rewrite length_app, length_map, length_seq. lia.
  - intros i l Hi. apply lookup_seq in Hi as [-> Hi].
    by rewrite deref_initial_cell.
Qed.

(** ** Copies *)

Lemma Cell_fromCell_spec l h :
  Cell_fromCell l h = (Ret (length h), h ++ [deref h l]).
Proof.
  unfold Cell_fromCell, bind, get_row, get_column, get_value, get_isFixed,
    new_Cell. by destruct (deref h l).
Qed.

Lemma extend_deep_false ls h : extend_deep false ls h = (Ret ls, h).
Proof.
  induction ls as [|l ls IH]; simpl; [reflexivity|].
  unfold bind at 1. simpl. unfold bind. by rewrite IH.
Qed.

Lemma extend_deep_true ls : forall h,
  (forall l, l ∈ ls -> (l < length h)%nat) ->
  extend_deep true ls h =
  (Ret (seq (length h) (length ls)), h ++ map (deref h) ls).
Proof.
  induction ls as [|l ls IH]; intros h Hal; simpl.
  - by rewrite app_nil_r.
  - unfold bind at 1. rewrite Cell_fromCell_spec. unfold bind.
    rewrite IH.
    + rewrite length_app. simpl. rewrite <- app_assoc. simpl.
      replace (length h + 1)%nat with (Datatypes.S (length h)) by lia.
      do 3 f_equal. apply map_ext_in. intros l' Hl'.
      apply deref_prefix; [by apply prefix_app_r|].
      apply Hal. right. by apply list_elem_of_In.
    + intros l' Hl'. rewrite length_app. simpl.
      specialize (Hal l' ltac:(by right)). lia.
Qed.

(** [getBoard] returns an array that shows the cells of the board, in
    index order, and changes no object. *)
Lemma getBoard_spec plain h b :
  board_ok h b ->
  exists arr h',
    getBoard plain b h = (Ret arr, h') /\
    length arr = 81%nat /\
    h `prefix_of` h' /\
    forall i l, cells b !! i = Some l ->
      exists l', arr !! i = Some l' /\ deref h' l' = deref h l.
Proof.
  intros [Hlen Hnd Hal Hpos]. unfold getBoard. destruct plain.
  - rewrite extend_deep_true by done. eexists _, _. split; [reflexivity|].
    split; [by rewrite length_seq|]. split; [by apply prefix_app_r|].
    intros i l Hi. exists (length h + i)%nat.
    assert (i < length (cells b))%nat as Hlt by by eapply lookup_lt_Some.
    split; [by apply lookup_seq_lt|].
    apply deref_lookup. rewrite lookup_app_r by lia.
    replace (length h + i - length h)%nat with i by lia.
    by rewrite list_lookup_fmap, Hi.
  - rewrite extend_deep_false. exists (cells b), h. repeat split; try done.
    intros i l Hi. eauto.
Qed.

(** [C3] For every string of exactly 81 decimal digits, construction
    succeeds, and [getBoard()] then returns 81 cells in row-major order: the
    cell at index [i] has row [i / 9 + 1], column [i mod 9 + 1], the digit at
    position [i] as its value, and is fixed exactly when that digit is not
    zero. *)
Theorem new_Board_getBoard plain s h0 :
  valid_definition s ->
  exists b h1 arr h2,
    new_Board (JsString s) h0 = (Ret b, h1) /\
    getBoard plain b h1 = (Ret arr, h2) /\
    length arr = 81%nat /\
    forall i, (i < 81)%nat ->
      exists l c,
        arr !! i = Some l /\
        String.get i s = Some c /\
        row (deref h2 l) = Z.of_nat i / 9 + 1 /\
        column (deref h2 l) = Z.of_nat i mod 9 + 1 /\
        value (deref h2 l) = digit_value c /\
        (isFixed (deref h2 l) = true <-> digit_value c <> 0).
Proof.
  intros Hs. rewrite (new_Board_valid s h0 Hs).
  destruct (getBoard_spec plain _ _ (board_ok_new s h0))
    as (arr & h2 & Hget & Hlen & _ & Harr).
  eexists _, _, arr, h2. split; [reflexivity|]. split; [exact Hget|].
  split; [exact Hlen|]. intros i Hi.
  destruct (Harr i (length h0 + i)%nat) as (l & Hl & Hd).
  { cbn [cells]. by apply lookup_seq_lt. }
  destruct (String_get_lt s i) as [c Hc]; [destruct Hs as [-> _]; lia|].
  exists l, c. rewrite Hd, deref_initial_cell by done.
  unfold initial_cell, digit_at, position_of_index. rewrite Hc.
  cbn [row column value isFixed fst snd]. repeat split; try done.
  - by intros ?%negb_true_iff%Z.eqb_neq.
  - by intros ?%Z.eqb_neq%negb_true_iff.
Qed.

(** [C4] Construction fails exactly when the argument is not a string, or
    its length is not 81, or one of its characters is not a decimal digit.
    The exception tells the three causes apart, no board is returned, and
    the objects that existed before are untouched. *)
Theorem new_Board_throws v h0 :
  ((exists e h, new_Board v h0 = (Throw e, h)) <->
   (typeof v <> "string"%string \/
    (exists s, v = JsString s /\ String.length s <> 81%nat) \/
    (exists s i c, v = JsString s /\ String.get i s = Some c /\ ~ is_digit c))) /\
  (forall e h, new_Board v h0 = (Throw e, h) ->
     (forall b h', new_Board v h0 <> (Ret b, h')) /\
     h0 `prefix_of` h /\
     ((e = not_a_string /\ typeof v <> "string"%string) \/
      (e = wrong_length /\
       exists s, v = JsString s /\ String.length s <> 81%nat) \/
      (e = invalid_cell_value /\
       exists s, v = JsString s /\ String.length s = 81%nat /\
                 exists i c, String.get i s = Some c /\ ~ is_digit c))) /\
  not_a_string <> wrong_length /\
  not_a_string <> invalid_cell_value /\
  wrong_length <> invalid_cell_value.
Proof.
  assert (forall e h, new_Board v h0 = (Throw e, h) ->
     h0 `prefix_of` h /\
     ((e = not_a_string /\ typeof v <> "string"%string) \/
      (e = wrong_length /\
       exists s, v = JsString s /\ String.length s <> 81%nat) \/
      (e = invalid_cell_value /\
       exists s, v = JsString s /\ String.length s = 81%nat /\
                 exists i c, String.get i s = Some c /\ ~ is_digit c)))
    as Hcause.
  { intros e h E.
    destruct (decide (typeof v = "string"%string)) as [Hty|Hty].
    - destruct v as [s| | | | |]; try discriminate Hty.
      destruct (decide (String.length s = 81%nat)) as [Hlen|Hlen].
      + assert (~ valid_definition s) as Hinv.
        { intros Hs. rewrite new_Board_valid in E by done. discriminate. }
        assert (exists i c, String.get i s = Some c /\ ~ is_digit c)
          as Hbad.
        { destruct (init_loop_spec s 81 0 [] h0) as [[Hall _]|[Hex _]];
            [lia| |].
          - destruct Hinv. split; [done|]. intros i c Hi. apply (Hall i); [|done].
            apply String_get_Some in Hi. lia.
          - destruct Hex as (k & c & _ & Hk & Hc). eauto. }
        destruct (new_Board_invalid_character s h0 Hlen Hbad) as (h1 & E1 & Hpre).
        rewrite E1 in E. injection E as <- <-.
        split; [done|]. right; right. split; [done|]. eauto.
      + rewrite new_Board_wrong_length in E by done. injection E as <- <-.
        split; [done|]. right; left. eauto.
    - rewrite new_Board_not_a_string in E by done. injection E as <- <-.
      split; [done|]. by left. }
  split; [split|split]; [| | |done].
  - intros (e & h & E). destruct (Hcause e h E) as [_ [[_ H]|[[_ H]|[_ H]]]].
    + by left.
    + right; by left.
    + right; right. destruct H as (s & -> & _ & i & c & H). eauto.
  - intros [H|[(s & -> & H)|(s & i & c & -> & Hi & Hc)]].
    + rewrite new_Board_not_a_string by done. eauto.
    + rewrite new_Board_wrong_length by done. eauto.
    + destruct (decide (String.length s = 81%nat)) as [Hlen|Hlen].
      * destruct (new_Board_invalid_character s h0 Hlen) as (h & -> & _); eauto.
      * rewrite new_Board_wrong_length by done. eauto.
  - intros e h E. split; [|by apply Hcause].
    intros b h' E'. rewrite E in E'. discriminate.
Qed.

(** ** [getCell] and [setCellValue] *)

Lemma index_of_lt row col :
  1 <= row <= 9 -> 1 <= col <= 9 -> (index_of row col < 81)%nat.
Proof. unfold index_of. lia. Qed.

Lemma getCellAtPosition_spec b row col copy h :
  length (cells b) = 81%nat -> 1 <= row <= 9 -> 1 <= col <= 9 ->
  getCellAtPosition b row col copy h =
  let cell := cell_at b (index_of row col) in
  if copy then (Ret (length h), h ++ [deref h cell]) else (Ret cell, h).
Proof.
  intros Hlen Hr Hc. unfold getCellAtPosition, bind.
  replace (calcCellIndexFromBoardPosition row col)
    with (Z.of_nat (index_of row col))
    by (unfold index_of, calcCellIndexFromBoardPosition; lia).
  rewrite array_get_cell by (rewrite Hlen; by apply index_of_lt).
  destruct copy; [apply Cell_fromCell_spec|reflexivity].
Qed.

(** [getCell] returns a new object with the fields of the cell. *)
Lemma getCell_spec b row col h :
  length (cells b) = 81%nat -> 1 <= row <= 9 -> 1 <= col <= 9 ->
  getCell b row col h =
  (Ret (length h), h ++ [deref h (cell_at b (index_of row col))]).
Proof. intros. unfold getCell. by rewrite getCellAtPosition_spec. Qed.

Lemma setCellValue_spec b row col v h :
  length (cells b) = 81%nat -> 1 <= row <= 9 -> 1 <= col <= 9 ->
  (cell_at b (index_of row col) < length h)%nat ->
  setCellValue b row col v h =
  let cell := cell_at b (index_of row col) in
  if isFixed (deref h cell) then (Ret false, h)
  else (Ret true, store_value h cell v).
Proof.
  intros Hlen Hr Hc Hal. unfold setCellValue. unfold bind at 1.
  rewrite getCellAtPosition_spec by done. cbv zeta.
  unfold bind, get_isFixed, set_value, ret.
  destruct (isFixed (deref h (cell_at b (index_of row col)))) eqn:Hfix; simpl.
  - by rewrite Hfix.
  - rewrite deref_store_value_eq by done. simpl. by rewrite Hfix.
Qed.

Lemma cell_at_allocated h b i :
  board_ok h b -> (i < 81)%nat -> (cell_at b i < length h)%nat.
Proof.
  intros Hok Hi. apply (ok_allocated h b Hok), list_elem_of_lookup.
  exists i. apply lookup_cell_at. by rewrite (ok_length h b Hok).
Qed.

(** [C5] On a fixed cell [setCellValue] returns [false] and changes
    nothing; on any other cell it returns [true] and the value of the cell
    becomes the argument, whatever it is.  In both cases [getCell] then
    shows the value the cell has. *)
Theorem setCellValue_getCell h b row col v :
  board_ok h b -> 1 <= row <= 9 -> 1 <= col <= 9 ->
  exists cell,
    cells b !! index_of row col = Some cell /\
    (isFixed (deref h cell) = true ->
       setCellValue b row col v h = (Ret false, h) /\
       exists c h', getCell b row col h = (Ret c, h') /\
                    value (deref h' c) = value (deref h cell)) /\
    (isFixed (deref h cell) = false ->
       exists h1, setCellValue b row col v h = (Ret true, h1) /\
                  value (deref h1 cell) = v /\
       exists c h2, getCell b row col h1 = (Ret c, h2) /\
                    value (deref h2 c) = v).
Proof.
  intros Hok Hr Hc.
  pose proof (index_of_lt row col Hr Hc) as Hi.
  pose proof (cell_at_allocated h b _ Hok Hi) as Hal.
  pose proof (ok_length h b Hok) as Hlen.
  exists (cell_at b (index_of row col)).
  split; [apply lookup_cell_at; by rewrite Hlen|].
  rewrite setCellValue_spec by done. cbv zeta. split; intros Hfix; rewrite Hfix.
  - split; [done|]. rewrite getCell_spec by done. eexists _, _.
    split; [reflexivity|]. f_equal. apply deref_lookup.
    rewrite lookup_app_r by lia. by rewrite Nat.sub_diag.
  - eexists. split; [reflexivity|].
    rewrite deref_store_value_eq by done. split; [done|].
    rewrite getCell_spec by done. eexists _, _. split; [reflexivity|].
    erewrite deref_lookup;
      [|rewrite lookup_app_r by lia; by rewrite Nat.sub_diag].
    by rewrite deref_store_value_eq.
Qed.

(** ** [restart] *)

Lemma reset_reset c : reset (reset c) = reset c.
Proof. unfold reset. destruct c as [r c v []]; reflexivity. Qed.

Lemma lookup_reset_cell (h : heap) l i :
  reset_cell h l !! i = if decide (i = l) then reset <$> h !! i else h !! i.
Proof.
  unfold reset_cell, reset, deref. destruct (decide (i = l)) as [->|Hne].
  - destruct (h !! l) as [c|] eqn:Hl; simpl.
    + destruct (isFixed c) eqn:Hfix; [by rewrite Hl|].
      unfold store_value, deref. rewrite Hl. simpl.
      apply list_lookup_insert_eq. by eapply lookup_lt_Some.
    + unfold store_value. rewrite list_insert_ge; [done|].
      by apply lookup_ge_None.
  - destruct (isFixed _); [done|]. by apply lookup_store_value_ne.
Qed.

Lemma lookup_reset_cells ls : forall (h : heap) i,
  fold_left reset_cell ls h !! i =
  if decide (i ∈ ls) then reset <$> h !! i else h !! i.
Proof.
  induction ls as [|l ls IH]; intros h i; simpl.
  - destruct (decide (i ∈ [])) as [Hi|_]; [by apply elem_of_nil in Hi|done].
  - rewrite IH, lookup_reset_cell.
    destruct (decide (i ∈ ls)) as [Hi|Hi];
      destruct (decide (i = l)) as [->|Hne];
      destruct (decide (_ ∈ l :: ls)) as [Hi'|Hi']; try done.
    + rewrite <- option_fmap_compose. apply option_fmap_ext. intros c.
      apply reset_reset.
    + destruct Hi'. by right.
    + destruct Hi'. by right.
    + destruct Hi'. by left.
    + apply elem_of_cons in Hi' as [?|?]; done.
Qed.

Lemma for_each_restart b vs : forall h,
  Forall (fun v => visit_index v < length (cells b))%nat vs ->
  for_each vs (visit_body b restart_callback) tt h =
  (Ret (Next tt),
   fold_left reset_cell (map (fun v => cell_at b (visit_index v)) vs) h).
Proof.
  induction vs as [|[[i x] newX] vs IH]; intros h Hvs; [reflexivity|].
  apply Forall_cons in Hvs as [Hi Hvs]. simpl.
  change (visit_index (i, x, newX)) with i in *.
  unfold bind at 1. unfold visit_body at 1. unfold bind at 1. simpl fst.
  rewrite array_get_cell by done. unfold bind at 1.
  unfold restart_callback at 1, reset_cell at 2.
  unfold bind, get_isFixed, set_value, ret.
  destruct (isFixed (deref h (cell_at b i))); simpl; by rewrite IH.
Qed.

(** [restart] resets the cells of the board one after the other. *)
Lemma restart_spec b h :
  length (cells b) = 81%nat ->
  restart b h = (Ret tt, fold_left reset_cell (cells b) h).
Proof.
  intros Hlen. unfold restart. rewrite walkCellsByRow_walk. unfold walk, bind.
  rewrite for_each_restart.
  - change (map (fun v => cell_at b (visit_index v)) (grouped row_groups))
      with (map (cell_at b) (seq 0 81)).
    by rewrite <- Hlen, cells_cell_at.
  - rewrite Hlen. vm_compute. repeat (constructor; [lia|]). constructor.
Qed.

Lemma reset_unallocated : reset Cell_unallocated = Cell_unallocated.
Proof. reflexivity. Qed.

Lemma deref_reset_cells ls (h : heap) l :
  deref (fold_left reset_cell ls h) l =
  if decide (l ∈ ls) then reset (deref h l) else deref h l.
Proof.
  unfold deref. rewrite lookup_reset_cells.
  destruct (decide (l ∈ ls)); [|done]. by destruct (h !! l).
Qed.

Lemma length_reset_cells ls : forall h : heap,
  length (fold_left reset_cell ls h) = length h.
Proof.
  induction ls as [|l ls IH]; intros h; simpl; [done|].
  rewrite IH. unfold reset_cell.
  destruct (isFixed _); [done|apply length_store_value].
Qed.

Lemma reset_cells_idempotent ls (h : heap) :
  fold_left reset_cell ls (fold_left reset_cell ls h) = fold_left reset_cell ls h.
Proof.
  apply list_eq. intros i. rewrite !lookup_reset_cells.
  destruct (decide (i ∈ ls)); [|done].
  destruct (h !! i) as [c|]; simpl; [|done]. by rewrite reset_reset.
Qed.

(** ** Reachable states *)

Lemma new_Board_Ret v h0 b h :
  new_Board v h0 = (Ret b, h) -> exists s, v = JsString s /\ valid_definition s.
Proof.
  intros E. destruct v as [s| | | | |]; try discriminate E.
  exists s. split; [done|].
  destruct (decide (String.length s = 81%nat)) as [Hlen|Hlen].
  - destruct (init_loop_spec s 81 0 [] h0) as [[Hall _]|[Hex _]]; [lia| |].
    + split; [done|]. intros i c Hi. apply (Hall i); [|done].
      apply String_get_Some in Hi. lia.
    + destruct Hex as (k & c & _ & Hk & Hc).
      destruct (new_Board_invalid_character s h0 Hlen) as (h1 & E1 & _);
        [eauto|]. rewrite E1 in E. discriminate.
  - rewrite new_Board_wrong_length in E by done. discriminate.
Qed.

Lemma setCellValue_heap b row col v h r h' :
  setCellValue b row col v h = (Ret r, h') ->
  h' = h \/ exists l, h' = store_value h l v.
Proof.
  unfold setCellValue, getCellAtPosition. unfold bind at 1 2.
  destruct (array_get _ _ h) as [[cell|e] h1] eqn:E; [|discriminate].
  assert (h1 = h) as ->.
  { unfold array_get in E. destruct (_ <? 0); [discriminate|].
    destruct (_ !! _); [|discriminate]. by injection E. }
  unfold ret, bind, get_isFixed, set_value.
  destruct (isFixed (deref h cell)); simpl; intros [= _ <-]; eauto.
Qed.

Lemma reachable_ok b h : reachable b h -> board_ok h b.
Proof.
  induction 1 as [v h0 b h E|b h row col v r h' _ IH E].
  - destruct (new_Board_Ret _ _ _ _ E) as (s & -> & Hs).
    rewrite new_Board_valid in E by done. injection E as <- <-.
    apply board_ok_new.
  - apply setCellValue_heap in E as [->|[l ->]]; [done|].
    by apply board_ok_store_value.
Qed.

(** [C8] In every state reached by calls of [setCellValue], [restart] sets
    the value of every cell that is not fixed to 0 and leaves the fixed
    cells as they are; a second [restart] changes nothing. *)
Theorem restart_reachable b h :
  reachable b h ->
  exists h',
    restart b h = (Ret tt, h') /\
    (forall i l, cells b !! i = Some l ->
       (isFixed (deref h l) = false -> value (deref h' l) = 0) /\
       (isFixed (deref h l) = true -> deref h' l = deref h l)) /\
    restart b h' = (Ret tt, h').
Proof.
  intros Hok%reachable_ok. pose proof (ok_length h b Hok) as Hlen.
  exists (fold_left reset_cell (cells b) h).
  split; [by apply restart_spec|]. split.
  - intros i l Hi. rewrite deref_reset_cells.
    destruct (decide (l ∈ cells b)) as [_|Hl].
    + unfold reset. split; intros ->; reflexivity.
    + destruct Hl. apply list_elem_of_lookup. eauto.
  - rewrite restart_spec by done. by rewrite reset_cells_idempotent.
Qed.

(** [C10] [setCellValue] changes no object but the addressed cell, and of
    that cell only the value; [restart] changes only values.  The row, the
    column and the fixed flag of every object stay as they are. *)
Theorem setCellValue_restart_frame h b r c v :
  board_ok h b -> 1 <= r <= 9 -> 1 <= c <= 9 ->
  (exists changed h',
     setCellValue b r c v h = (Ret changed, h') /\
     length h' = length h /\
     (forall i l, cells b !! i = Some l -> i <> index_of r c ->
        deref h' l = deref h l) /\
     (forall l, cells b !! index_of r c <> Some l -> h' !! l = h !! l) /\
     (forall l, row (deref h' l) = row (deref h l) /\
                column (deref h' l) = column (deref h l) /\
                isFixed (deref h' l) = isFixed (deref h l))) /\
  (exists h',
     restart b h = (Ret tt, h') /\
     length h' = length h /\
     (forall l, row (deref h' l) = row (deref h l) /\
                column (deref h' l) = column (deref h l) /\
                isFixed (deref h' l) = isFixed (deref h l))).
Proof.
  intros Hok Hr Hc.
  pose proof (index_of_lt r c Hr Hc) as Hi.
  pose proof (cell_at_allocated h b _ Hok Hi) as Hal.
  pose proof (ok_length h b Hok) as Hlen.
  assert (cells b !! index_of r c = Some (cell_at b (index_of r c)))
    as Hcell by (apply lookup_cell_at; by rewrite Hlen).
  split.
  - rewrite setCellValue_spec by done. cbv zeta.
    destruct (isFixed (deref h (cell_at b (index_of r c)))) eqn:Hfix.
    + exists false, h. repeat split; done.
    + exists true, (store_value h (cell_at b (index_of r c)) v).
      split; [done|]. split; [apply length_store_value|]. split; [|split].
      * intros i l Hl Hne. apply deref_store_value_ne. intros <-.
        apply Hne. by apply (NoDup_lookup _ _ _ _ (ok_NoDup h b Hok) Hl).
      * intros l Hl. apply lookup_store_value_ne. congruence.
      * intros l. destruct (decide (cell_at b (index_of r c) = l)) as [<-|Hne].
        -- by rewrite deref_store_value_eq.
        -- by rewrite deref_store_value_ne.
  - exists (fold_left reset_cell (cells b) h).
    split; [by apply restart_spec|]. split; [apply length_reset_cells|].
    intros l. rewrite deref_reset_cells. destruct (decide (l ∈ cells b)); [|done].
    unfold reset. by destruct (deref h l) as [? ? ? []].
Qed.

(** ** Objects used as maps *)

Section Obj.
Context {A : Type}.
Implicit Types (o : obj A) (k : Z) (a : A).

Lemma obj_get_set o k a k' :
  obj_get (obj_set o k a) k' = if decide (k' = k) then Some a else obj_get o k'.
Proof.
  induction o as [|[k0 a0] o IH]; simpl.
  - destruct (Z.eqb_spec k k'); destruct (decide (k' = k)); congruence.
  - destruct (Z.eqb_spec k0 k) as [->|Hne]; simpl.
    + destruct (Z.eqb_spec k k'); destruct (decide (k' = k)); congruence.
    + destruct (Z.eqb_spec k0 k'); [|exact IH].
      destruct (decide (k' = k)); congruence.
Qed.

Lemma obj_get_None o k : obj_get o k = None -> k ∉ map fst o.
Proof.
  induction o as [|[k0 a0] o IH]; simpl; intros E.
  - apply not_elem_of_nil.
  - destruct (Z.eqb_spec k0 k); [discriminate|].
    apply not_elem_of_cons. split; [congruence|auto].
Qed.

Lemma obj_set_keys o k a :
  map fst (obj_set o k a) =
  match obj_get o k with
  | Some _ => map fst o
  | None => map fst o ++ [k]
  end.
Proof.
  induction o as [|[k0 a0] o IH]; simpl; [done|].
  destruct (Z.eqb_spec k0 k); simpl; [done|]. rewrite IH.
  by destruct (obj_get o k).
Qed.

Lemma obj_set_NoDup o k a :
  NoDup (map fst o) -> NoDup (map fst (obj_set o k a)).
Proof.
  intros Hnd. rewrite obj_set_keys. destruct (obj_get o k) eqn:E; [done|].
  apply NoDup_app. split; [done|]. split; [|apply NoDup_singleton].
  intros k' Hk' ->%list_elem_of_singleton. by apply obj_get_None in E.
Qed.

Lemma elem_of_obj o k a :
  NoDup (map fst o) -> (k, a) ∈ o <-> obj_get o k = Some a.
Proof.
  induction o as [|[k0 a0] o IH]; simpl; intros Hnd.
  - split; [by intros ?%elem_of_nil|done].
  - apply NoDup_cons in Hnd as [Hk0 Hnd]. rewrite elem_of_cons, IH by done.
    destruct (Z.eqb_spec k0 k) as [->|Hne].
    + split; [|intros [= ->]; by left].
      intros [[= ->]|E]; [done|]. destruct Hk0.
      apply list_elem_of_In, in_map_iff. exists (k, a). split; [done|].
      apply list_elem_of_In, IH; done.
    + split; [|by right]. intros [[= ? ?]|E]; [congruence|done].
Qed.

Lemma elem_of_insert_by_key (p q : Z * A) o :
  q ∈ insert_by_key p o <-> q = p \/ q ∈ o.
Proof.
  induction o as [|r o IH]; simpl.
  - rewrite list_elem_of_singleton, elem_of_nil. tauto.
  - destruct (fst p <=? fst r).
    + by rewrite elem_of_cons.
    + rewrite !elem_of_cons, IH. tauto.
Qed.

Lemma elem_of_for_in_order (q : Z * A) o : q ∈ for_in_order o <-> q ∈ o.
Proof.
  unfold for_in_order. rewrite elem_of_app, list_elem_of_filter.
  assert (forall l : obj A, q ∈ foldr insert_by_key [] l <-> q ∈ l) as ->.
  { induction l as [|p l IH]; simpl; [done|].
    by rewrite elem_of_insert_by_key, IH, elem_of_cons. }
  rewrite list_elem_of_filter.
  destruct (is_array_index (fst q));
    (split; [intros [[_ ?]|[_ ?]]; done|intros ?]);
    [left|right]; by split.
Qed.

End Obj.

(** ** The buckets of a group *)

Lemma bucket_add_spec h ls o c :
  NoDup (map fst o) -> (forall k, obj_get o k = bucket h ls k) ->
  NoDup (map fst (bucket_add h o c)) /\
  forall k, obj_get (bucket_add h o c) k = bucket h (ls ++ [c]) k.
Proof.
  intros Hnd Hget. unfold bucket_add.
  destruct (Z.eqb_spec (value (deref h c)) 0) as [Hv|Hv]; simpl.
  - split; [done|]. intros k. rewrite Hget. unfold bucket.
    destruct (decide (k = 0)); [done|]. rewrite filter_app, filter_cons_False,
      filter_nil, app_nil_r by congruence. done.
  - split; [destruct (obj_get o _); by apply obj_set_NoDup|].
    intros k. pose proof (Hget (value (deref h c))) as Hc.
    unfold bucket in *. destruct (decide (value (deref h c) = 0)); [done|].
    rewrite filter_app.
    destruct (decide (k = value (deref h c))) as [->|Hne].
    + rewrite filter_cons_True, filter_nil by done.
      destruct (decide (value (deref h c) = 0)); [done|].
      destruct (filter _ ls) as [|c0 cs] eqn:E; rewrite Hc, obj_get_set;
        (destruct (decide (_ = _)); [done|congruence]).
    + rewrite filter_cons_False, filter_nil, app_nil_r by congruence.
      rewrite <- Hget.
      destruct (obj_get o (value (deref h c))); rewrite obj_get_set;
        (destruct (decide (k = _)); [congruence|done]).
Qed.

Lemma fill_buckets_spec h ls :
  NoDup (map fst (fill_buckets h ls [])) /\
  forall k, obj_get (fill_buckets h ls []) k = bucket h ls k.
Proof.
  unfold fill_buckets. induction ls as [|c ls IH] using rev_ind.
  - split; [apply NoDup_nil_2|]. intros k. unfold bucket. simpl.
    by destruct (decide (k = 0)).
  - rewrite fold_left_app. simpl. destruct IH. by apply bucket_add_spec.
Qed.

(** ** Collecting the conflicts *)

Lemma elem_of_add_conflicts_list (ps : obj (list loc)) : forall c l,
  l ∈ fold_left (fun conflicts '(_, cells) =>
                   if (1 <? length cells)%nat then conflicts ++ cells
                   else conflicts) ps c <->
  l ∈ c \/ exists k cs, (k, cs) ∈ ps /\ (1 < length cs)%nat /\ l ∈ cs.
Proof.
  induction ps as [|[k cs] ps IH]; intros c l; simpl.
  - split; [by left|]. intros [?|(k & cs & []%elem_of_nil & _)]. done.
  - rewrite IH. destruct (Nat.ltb_spec 1 (length cs)) as [Hcs|Hcs].
    + rewrite elem_of_app. split.
      * intros [[?|?]|(k' & cs' & ? & ? & ?)]; [by left| |].
        -- right. exists k, cs. split; [by left|done].
        -- right. exists k', cs'. split; [by right|done].
      * intros [?|(k' & cs' & [[= -> ->]|?]%elem_of_cons & ? & ?)].
        -- left. by left.
        -- left. by right.
        -- right. eauto.
    + split.
      * intros [?|(k' & cs' & ? & ? & ?)]; [by left|].
        right. exists k', cs'. split; [by right|done].
      * intros [?|(k' & cs' & [[= -> ->]|?]%elem_of_cons & ? & ?)];
          [by left|lia|]. right. eauto.
Qed.

Lemma elem_of_add_conflicts o c l :
  l ∈ add_conflicts o c <->
  l ∈ c \/ exists k cs, (k, cs) ∈ o /\ (1 < length cs)%nat /\ l ∈ cs.
Proof.
  unfold add_conflicts. rewrite elem_of_add_conflicts_list.
  by setoid_rewrite elem_of_for_in_order.
Qed.

(** A list without duplicates has two elements or more exactly when it
    has an element besides any given one. *)
Lemma two_elements (ls : list loc) l :
  NoDup ls -> l ∈ ls ->
  (1 < length ls)%nat <-> exists l', l' ∈ ls /\ l' <> l.
Proof.
  intros Hnd Hl. split.
  - destruct ls as [|a [|b ls]]; simpl; [lia|lia|]. intros _.
    apply NoDup_cons in Hnd as [Hab _].
    destruct (decide (a = l)) as [->|Hne].
    + exists b. split; [right; left|]. intros ->. apply Hab. by left.
    + exists a. split; [left|done].
  - intros (l' & Hl' & Hne). destruct ls as [|a [|b ls]]; simpl; [|exfalso|lia].
    + by apply elem_of_nil in Hl.
    + apply list_elem_of_singleton in Hl, Hl'. congruence.
Qed.

(** The conflicts of a group are the cells whose value another cell of the
    group has too. *)
Lemma elem_of_group_conflicts h ls c l :
  NoDup ls ->
  l ∈ add_conflicts (fill_buckets h ls []) c <-> l ∈ c \/ conflict_in h ls l.
Proof.
  intros Hnd. rewrite elem_of_add_conflicts.
  destruct (fill_buckets_spec h ls) as [Hkeys Hget].
  apply or_iff_compat_l. unfold conflict_in. split.
  - intros (k & cs & Hk & Hlen & Hl).
    apply elem_of_obj in Hk; [|done]. rewrite Hget in Hk. unfold bucket in Hk.
    destruct (decide (k = 0)); [done|].
    assert (cs = filter (fun l => value (deref h l) = k) ls) as ->
      by (destruct (filter _ ls); congruence).
    apply list_elem_of_filter in Hl as [Hv Hl]. split; [done|].
    split; [congruence|].
    apply (two_elements _ l) in Hlen as (l' & Hl' & Hne);
      [|by apply NoDup_filter|by apply list_elem_of_filter].
    apply list_elem_of_filter in Hl' as [Hv' Hl']. exists l'.
    split; [done|]. split; [done|congruence].
  - intros (Hl & Hv & l' & Hl' & Hne & Hv').
    exists (value (deref h l)),
           (filter (fun l0 => value (deref h l0) = value (deref h l)) ls).
    assert (l ∈ filter (fun l0 => value (deref h l0) = value (deref h l)) ls)
      as Hin by by apply list_elem_of_filter.
    split; [|split; [|done]].
    + apply elem_of_obj; [done|]. rewrite Hget. unfold bucket.
      destruct (decide (_ = 0)); [done|].
      destruct (filter _ ls); [by apply elem_of_nil in Hin|done].
    + apply (two_elements _ l); [by apply NoDup_filter|done|].
      exists l'. split; [by apply list_elem_of_filter|done].
Qed.

(** ** [check] of [getConflicts] *)

Lemma getConflicts_callback_spec cell x newX cwv c h :
  (newX = false -> cwv <> None) ->
  getConflicts_callback cell x newX (cwv, c) h =
  (Ret ((Some (bucket_add h (if newX then [] else default [] cwv) cell),
         if newX then flush_pending cwv c else c), ReturnsUndefined), h).
Proof.
  intros Hcwv. unfold getConflicts_callback, bucket_add, bind, get_value, ret.
  destruct newX; simpl.
  - by destruct (negb _).
  - destruct cwv as [o|]; [|by destruct Hcwv]. simpl.
    by destruct (negb _).
Qed.

Lemma for_each_conflicts_rest b h x g : forall o c,
  Forall (fun i => i < length (cells b))%nat g ->
  for_each (map (fun j => (j, x, false)) g)
           (visit_body b getConflicts_callback) (Some o, c) h =
  (Ret (Next (Some (fill_buckets h (map (cell_at b) g) o), c)), h).
Proof.
  induction g as [|i g IH]; intros o c Hg; [reflexivity|].
  apply Forall_cons in Hg as [Hi Hg]. simpl.
  unfold bind at 1. unfold visit_body at 1. unfold bind at 1. simpl fst.
  rewrite array_get_cell by done. unfold bind at 1.
  rewrite getConflicts_callback_spec by done. simpl. by rewrite IH.
Qed.

Lemma for_each_conflicts_group b h x g cwv c :
  g <> [] -> Forall (fun i => i < length (cells b))%nat g ->
  for_each (mark x g) (visit_body b getConflicts_callback) (cwv, c) h =
  (Ret (Next (Some (fill_buckets h (map (cell_at b) g) []),
              flush_pending cwv c)), h).
Proof.
  intros Hne Hg. destruct g as [|i g]; [done|].
  apply Forall_cons in Hg as [Hi Hg]. simpl.
  unfold bind at 1. unfold visit_body at 1. unfold bind at 1. simpl fst.
  rewrite array_get_cell by done. unfold bind at 1.
  rewrite getConflicts_callback_spec by done. simpl.
  by rewrite for_each_conflicts_rest.
Qed.

Lemma for_each_conflicts_groups b h gs : forall cwv c,
  length (cells b) = 81%nat -> groups_ok gs ->
  exists cwv' c',
    for_each (grouped gs) (visit_body b getConflicts_callback) (cwv, c) h =
    (Ret (Next (cwv', c')), h) /\
    (gs <> [] -> cwv' <> None) /\
    flush_pending cwv' c' = check_result h b gs (flush_pending cwv c).
Proof.
  induction gs as [|[x g] gs IH]; intros cwv c Hlen Hgs.
  - exists cwv, c. done.
  - apply Forall_cons in Hgs as [(Hne & _ & Hg) Hgs]. simpl in Hne, Hg.
    unfold grouped. simpl. rewrite for_each_app. unfold bind.
    rewrite for_each_conflicts_group by (by rewrite ?Hlen).
    destruct (IH (Some (fill_buckets h (map (cell_at b) g) []))
                 (flush_pending cwv c) Hlen Hgs) as (cwv' & c' & E & Hsome & Hres).
    exists cwv', c'. split; [exact E|]. split; [|exact Hres].
    intros _. destruct gs as [|g' gs]; [|by apply Hsome].
    simpl in E. by injection E as <- <-.
Qed.

Lemma getConflicts_check_spec (walkFun : walker) gs b h c :
  (forall S (cb : callback S) s h,
     walkFun S b cb s h = walk (grouped gs) b cb s h) ->
  length (cells b) = 81%nat -> groups_ok gs -> gs <> [] ->
  getConflicts_check walkFun b c h = (Ret (check_result h b gs c), h).
Proof.
  intros Hwalk Hlen Hgs Hne. unfold getConflicts_check. unfold bind.
  rewrite Hwalk. unfold walk, bind.
  destruct (for_each_conflicts_groups b h gs None c Hlen Hgs)
    as (cwv' & c' & -> & Hsome & Hres). simpl.
  destruct cwv' as [o|]; [|by destruct Hsome]. simpl in Hres.
  unfold ret. by rewrite Hres.
Qed.

Lemma groups_ok_rows : groups_ok row_groups.
Proof. unfold groups_ok. compute_done. Qed.

Lemma groups_ok_columns : groups_ok column_groups.
Proof. unfold groups_ok. compute_done. Qed.

Lemma groups_ok_boxes : groups_ok box_groups.
Proof. unfold groups_ok. compute_done. Qed.

Lemma getConflicts_check_rows b h c :
  length (cells b) = 81%nat ->
  getConflicts_check (@walkCellsByRow) b c h =
  (Ret (check_result h b row_groups c), h).
Proof.
  intros Hlen. apply getConflicts_check_spec.
  - intros. apply walkCellsByRow_walk.
  - exact Hlen.
  - exact groups_ok_rows.
  - discriminate.
Qed.

Lemma getConflicts_check_columns b h c :
  length (cells b) = 81%nat ->
  getConflicts_check (@walkCellsByColumn) b c h =
  (Ret (check_result h b column_groups c), h).
Proof.
  intros Hlen. apply getConflicts_check_spec.
  - intros. apply walkCellsByColumn_walk.
  - exact Hlen.
  - exact groups_ok_columns.
  - discriminate.
Qed.

Lemma getConflicts_check_boxes b h c :
  length (cells b) = 81%nat ->
  getConflicts_check (@walkCellsByBox) b c h =
  (Ret (check_result h b box_groups c), h).
Proof.
  intros Hlen. apply getConflicts_check_spec.
  - intros. apply walkCellsByBox_walk.
  - exact Hlen.
  - exact groups_ok_boxes.
  - discriminate.
Qed.

Lemma elem_of_check_result h b gs : forall c l,
  (forall g, g ∈ gs -> NoDup (group_cells b g)) ->
  l ∈ check_result h b gs c <->
  l ∈ c \/ exists g, g ∈ gs /\ conflict_in h (group_cells b g) l.
Proof.
  unfold check_result. induction gs as [|g gs IH]; intros c l Hnd; simpl.
  - split; [by left|]. intros [?|(g & []%elem_of_nil & _)]. done.
  - rewrite IH by (intros; apply Hnd; by right).
    rewrite elem_of_group_conflicts by (apply Hnd; by left). split.
    + intros [[?|?]|(g' & ? & ?)]; [by left| |].
      * right. exists g. split; [by left|done].
      * right. exists g'. split; [by right|done].
    + intros [?|(g' & [->|?]%elem_of_cons & ?)].
      * left. by left.
      * left. by right.
      * right. eauto.
Qed.

(** ** [unique] *)

Lemma inArray_ge elem arr : -1 <= inArray elem arr.
Proof.
  induction arr as [|e arr IH]; simpl; [lia|].
  destruct (e =? elem)%nat; [lia|].
  destruct (Z.eqb_spec (inArray elem arr) (-1)); lia.
Qed.

Lemma inArray_not_found elem arr : inArray elem arr = -1 <-> elem ∉ arr.
Proof.
  induction arr as [|e arr IH]; simpl.
  - split; [intros _; apply not_elem_of_nil|done].
  - rewrite not_elem_of_cons. pose proof (inArray_ge elem arr).
    destruct (Nat.eqb_spec e elem) as [->|Hne].
    + split; [lia|]. intros [[] _]. done.
    + destruct (Z.eqb_spec (inArray elem arr) (-1)) as [E|E].
      * split; [|done]. intros _. split; [congruence|by apply IH].
      * split; [lia|]. intros [_ ?%IH]. done.
Qed.

Lemma unique_from_spec arr : forall result,
  NoDup result ->
  let r := fold_left (fun result elem =>
                        if inArray elem result =? -1 then result ++ [elem]
                        else result) arr result in
  NoDup r /\ forall l, l ∈ r <-> l ∈ result \/ l ∈ arr.
Proof.
  induction arr as [|e arr IH]; intros result Hnd; simpl.
  - split; [done|]. intros l. rewrite elem_of_nil. tauto.
  - destruct (Z.eqb_spec (inArray e result) (-1)) as [E|E].
    + apply inArray_not_found in E.
      destruct (IH (result ++ [e])) as [Hnd' Hin].
      { apply NoDup_app. split; [done|]. split; [|apply NoDup_singleton].
        intros l Hl ->%list_elem_of_singleton. done. }
      split; [done|]. intros l.
      rewrite Hin, elem_of_app, list_elem_of_singleton, elem_of_cons. tauto.
    + destruct (IH result Hnd) as [Hnd' Hin]. split; [done|]. intros l.
      rewrite Hin, elem_of_cons.
      assert (e ∈ result) as He.
      { destruct (decide (e ∈ result)) as [?|Hn]; [done|].
        by apply inArray_not_found in Hn. }
      split; [tauto|]. intros [?|[->|?]]; tauto.
Qed.

Lemma unique_spec arr :
  NoDup (unique arr) /\ forall l, l ∈ unique arr <-> l ∈ arr.
Proof.
  destruct (unique_from_spec arr [] (NoDup_nil_2)) as [Hnd Hin].
  split; [done|]. intros l. unfold unique. rewrite Hin, elem_of_nil. tauto.
Qed.

(** ** [sort] *)

Lemma sort_insert_Permutation cmp x l : sort_insert cmp x l ≡ₚ x :: l.
Proof.
  induction l as [|y l IH]; simpl; [done|].
  destruct (cmp x y <=? 0); [done|]. rewrite IH. apply Permutation_swap.
Qed.

Lemma Array_sort_Permutation cmp arr : Array_sort cmp arr ≡ₚ arr.
Proof.
  induction arr as [|x arr IH]; simpl; [done|].
  by rewrite sort_insert_Permutation, IH.
Qed.

Section Sort.
Variable cmp : loc -> loc -> Z.
Hypothesis cmp_total : forall a b, cmp a b <= 0 \/ cmp b a <= 0.
Hypothesis cmp_trans : forall a b c, cmp a b <= 0 -> cmp b c <= 0 -> cmp a c <= 0.

Lemma sort_insert_sorted x l :
  StronglySorted (fun a b => cmp a b <= 0) l ->
  StronglySorted (fun a b => cmp a b <= 0) (sort_insert cmp x l).
Proof.
  induction 1 as [|y l Hl IH Hy]; simpl.
  - by repeat constructor.
  - destruct (Z.leb_spec (cmp x y) 0) as [Hxy|Hxy].
    + constructor; [by constructor|]. constructor; [done|].
      eapply Forall_impl; [exact Hy|]. intros z Hz. simpl in Hz. eauto.
    + constructor; [done|].
      rewrite sort_insert_Permutation. constructor; [|done].
      destruct (cmp_total x y); [lia|done].
Qed.

Lemma Array_sort_sorted arr :
  StronglySorted (fun a b => cmp a b <= 0) (Array_sort cmp arr).
Proof.
  induction arr as [|x arr IH]; simpl; [constructor|].
  by apply sort_insert_sorted.
Qed.

End Sort.

(** The comparison of [getConflicts] orders by row, then by column. *)
Lemma compare_cells_le h a b :
  compare_cells h a b <= 0 <->
  row (deref h a) < row (deref h b) \/
  (row (deref h a) = row (deref h b) /\ column (deref h a) <= column (deref h b)).
Proof.
  unfold compare_cells.
  destruct (Z.ltb_spec (row (deref h a)) (row (deref h b))); [lia|].
  destruct (Z.gtb_spec (row (deref h a)) (row (deref h b))); [lia|].
  destruct (Z.ltb_spec (column (deref h a)) (column (deref h b))); [lia|].
  destruct (Z.gtb_spec (column (deref h a)) (column (deref h b))); lia.
Qed.

Lemma StronglySorted_strict h (l : list loc) :
  NoDup l ->
  (forall a b, a ∈ l -> b ∈ l ->
     row (deref h a) = row (deref h b) ->
     column (deref h a) = column (deref h b) -> a = b) ->
  StronglySorted (fun a b => compare_cells h a b <= 0) l ->
  StronglySorted (position_lt h) l.
Proof.
  intros Hnd Hinj Hs. induction Hs as [|x l Hl IH Hx]; [constructor|].
  apply NoDup_cons in Hnd as [Hx' Hnd]. constructor.
  - apply IH; [done|]. intros a b' Ha Hb. apply Hinj; by right.
  - rewrite Forall_forall in Hx |- *. intros y Hy.
    specialize (Hx y Hy). apply compare_cells_le in Hx. unfold position_lt.
    destruct (decide (column (deref h x) = column (deref h y))) as [Hc|Hc];
      [|lia].
    destruct (decide (row (deref h x) = row (deref h y))) as [Hr|Hr]; [|lia].
    destruct Hx'. rewrite (Hinj x y); [done|by left|by right|done|done].
Qed.

(** ** Conflicts *)

Lemma groups_ok_all : groups_ok all_groups.
Proof. unfold groups_ok. compute_done. Qed.

Lemma same_groupb_spec i j : same_groupb i j = true <-> same_group i j.
Proof.
  unfold same_groupb, same_group.
  destruct (position_of_index i) as [r c], (position_of_index j) as [r' c'].
  unfold box_of. simpl.
  rewrite !orb_true_iff, andb_true_iff, !Z.eqb_eq.
  split.
  - intros [[?|?]|[? ?]]; [by left|right; by left|right; right].
    by f_equal.
  - intros [?|[?|H]]; [left; by left|left; by right|right].
    by injection H.
Qed.

Lemma existsb_eqb_elem_of i (g : list nat) :
  existsb (Nat.eqb i) g = true <-> i ∈ g.
Proof.
  rewrite existsb_exists, list_elem_of_In. split.
  - by intros (x & Hx & ->%Nat.eqb_eq).
  - intros Hi. exists i. split; [done|apply Nat.eqb_refl].
Qed.

Lemma common_groupb_spec i j :
  common_groupb i j = true <->
  Exists (fun g : Z * list nat => i ∈ snd g /\ j ∈ snd g) all_groups.
Proof.
  unfold common_groupb. rewrite existsb_exists, Exists_exists. split.
  - intros (g & Hg & H). apply andb_true_iff in H as [Hi Hj].
    exists g. rewrite <- !existsb_eqb_elem_of.
    split; [by apply list_elem_of_In|done].
  - intros (g & Hg & Hi & Hj). exists g.
    split; [by apply list_elem_of_In|].
    apply andb_true_iff. by rewrite !existsb_eqb_elem_of.
Qed.

Lemma same_group_all_groups i j :
  (i < 81)%nat -> (j < 81)%nat ->
  same_group i j <->
  Exists (fun g : Z * list nat => i ∈ snd g /\ j ∈ snd g) all_groups.
Proof.
  intros Hi Hj. rewrite <- same_groupb_spec, <- common_groupb_spec.
  assert (forallb (fun i => forallb (fun j =>
            Bool.eqb (same_groupb i j) (common_groupb i j)) (seq 0 81))
            (seq 0 81) = true) as Hall by (vm_compute; reflexivity).
  rewrite forallb_forall in Hall.
  specialize (Hall i ltac:(apply in_seq; lia)).
  rewrite forallb_forall in Hall.
  specialize (Hall j ltac:(apply in_seq; lia)).
  apply Bool.eqb_prop in Hall. by rewrite Hall.
Qed.

Lemma cell_at_inj b i j :
  NoDup (cells b) -> (i < length (cells b))%nat -> (j < length (cells b))%nat ->
  cell_at b i = cell_at b j -> i = j.
Proof.
  intros Hnd Hi Hj E. apply lookup_cell_at in Hi, Hj. rewrite <- E in Hj.
  by apply (NoDup_lookup _ _ _ _ Hnd Hi Hj).
Qed.

Lemma group_cells_NoDup h b g :
  board_ok h b -> g ∈ all_groups -> NoDup (group_cells b g).
Proof.
  intros Hok Hg. pose proof groups_ok_all as Hgs. unfold groups_ok in Hgs.
  rewrite Forall_forall in Hgs. destruct (Hgs g Hg) as (_ & Hnd & Hlt).
  unfold group_cells. apply NoDup_fmap_2_strong; [|done].
  rewrite Forall_forall in Hlt. intros i j Hi Hj.
  apply cell_at_inj; [apply (ok_NoDup h b Hok)| |];
    rewrite (ok_length h b Hok); by apply Hlt.
Qed.

Lemma conflict_in_groups h b l :
  board_ok h b ->
  (exists g, g ∈ all_groups /\ conflict_in h (group_cells b g) l) <->
  conflicting h b l.
Proof.
  intros Hok. pose proof (ok_length h b Hok) as Hlen.
  pose proof groups_ok_all as Hgs. unfold groups_ok in Hgs.
  rewrite Forall_forall in Hgs. split.
  - intros (g & Hg & Hl & Hv & l' & Hl' & Hne & Hv').
    destruct (Hgs g Hg) as (_ & _ & Hlt). rewrite Forall_forall in Hlt.
    unfold group_cells in Hl, Hl'.
    apply list_elem_of_fmap in Hl as (i & -> & Hi).
    apply list_elem_of_fmap in Hl' as (j & -> & Hj).
    exists i. split; [apply lookup_cell_at; rewrite Hlen; by apply Hlt|].
    split; [done|]. exists j, (cell_at b j).
    split; [apply lookup_cell_at; rewrite Hlen; by apply Hlt|].
    split; [congruence|]. split; [|done].
    apply same_group_all_groups; [by apply Hlt|by apply Hlt|].
    apply Exists_exists. exists g. done.
  - intros (i & Hi & Hv & j & l' & Hj & Hne & Hsame & Hv').
    assert (i < 81)%nat as Hi81 by (rewrite <- Hlen; by eapply lookup_lt_Some).
    assert (j < 81)%nat as Hj81 by (rewrite <- Hlen; by eapply lookup_lt_Some).
    apply same_group_all_groups in Hsame; [|done|done].
    apply Exists_exists in Hsame as (g & Hg & Hig & Hjg).
    exists g. split; [done|].
    assert (cell_at b i = l) as Hli
      by (rewrite lookup_cell_at in Hi by lia; congruence).
    assert (cell_at b j = l') as Hlj
      by (rewrite lookup_cell_at in Hj by lia; congruence).
    split; [|split; [done|]].
    + unfold group_cells. apply list_elem_of_fmap. eauto.
    + exists l'. split; [unfold group_cells; apply list_elem_of_fmap; eauto|].
      split; [|done]. intros ->. apply Hne.
      by apply (NoDup_lookup _ _ _ _ (ok_NoDup h b Hok) Hj Hi).
Qed.

(** Two cells of a board at the same position are the same cell. *)
Lemma board_position_inj h b l l' :
  board_ok h b -> l ∈ cells b -> l' ∈ cells b ->
  row (deref h l) = row (deref h l') ->
  column (deref h l) = column (deref h l') -> l = l'.
Proof.
  intros Hok (i & Hi)%list_elem_of_lookup (j & Hj)%list_elem_of_lookup Hr Hc.
  pose proof (ok_position h b Hok i l Hi) as Hp.
  pose proof (ok_position h b Hok j l' Hj) as Hq.
  rewrite Hr, Hc, Hq in Hp. unfold position_of_index in Hp.
  injection Hp as Hdiv Hmod.
  assert (i = j) as ->.
  { pose proof (Z.div_mod (Z.of_nat i) 9). pose proof (Z.div_mod (Z.of_nat j) 9).
    lia. }
  congruence.
Qed.

Lemma getConflicts_run h b :
  length (cells b) = 81%nat ->
  getConflicts b h =
  (Ret (Array_sort (compare_cells h)
          (unique (check_result h b box_groups
                     (check_result h b column_groups
                        (check_result h b row_groups []))))), h).
Proof.
  intros Hlen. unfold getConflicts. unfold bind at 1.
  rewrite getConflicts_check_rows by done. unfold bind at 1.
  rewrite getConflicts_check_columns by done. unfold bind at 1.
  rewrite getConflicts_check_boxes by done.
  reflexivity.
Qed.

Lemma elem_of_raw_conflicts h b l :
  board_ok h b ->
  l ∈ check_result h b box_groups
        (check_result h b column_groups (check_result h b row_groups [])) <->
  conflicting h b l.
Proof.
  intros Hok. rewrite <- conflict_in_groups by done.
  assert (forall g, g ∈ row_groups -> g ∈ all_groups) as Hr
    by (intros g Hg; unfold all_groups; rewrite !elem_of_app; tauto).
  assert (forall g, g ∈ column_groups -> g ∈ all_groups) as Hc
    by (intros g Hg; unfold all_groups; rewrite !elem_of_app; tauto).
  assert (forall g, g ∈ box_groups -> g ∈ all_groups) as Hb
    by (intros g Hg; unfold all_groups; rewrite !elem_of_app; tauto).
  rewrite !elem_of_check_result
    by (intros g Hg; apply (group_cells_NoDup h); auto).
  rewrite elem_of_nil. split.
  - intros [[[[]|(g & ? & ?)]|(g & ? & ?)]|(g & ? & ?)]; exists g; auto.
  - intros (g & Hg & Hl). unfold all_groups in Hg.
    rewrite !elem_of_app in Hg. destruct Hg as [?|[?|?]]; eauto 7.
Qed.

(** [getConflicts] sorts, without its duplicates, a list that holds the
    conflicting cells of the board and nothing else. *)
Lemma getConflicts_raw h b :
  board_ok h b ->
  exists raw,
    getConflicts b h = (Ret (Array_sort (compare_cells h) (unique raw)), h) /\
    forall l, l ∈ raw <-> conflicting h b l.
Proof.
  intros Hok. eexists. split; [apply getConflicts_run, (ok_length h b Hok)|].
  intros l. by apply elem_of_raw_conflicts.
Qed.

(** [C2] [getConflicts] returns exactly the cells whose value is not 0 and
    is the value of another cell in their row, column or box; no cell with
    value 0; each cell once, also by position; in ascending order of row
    and, within a row, of column. *)
Theorem getConflicts_spec h b :
  board_ok h b ->
  exists res,
    getConflicts b h = (Ret res, h) /\
    (forall l, l ∈ res <-> conflicting h b l) /\
    (forall l, l ∈ res -> value (deref h l) <> 0) /\
    NoDup res /\
    NoDup (map (fun l => (row (deref h l), column (deref h l))) res) /\
    StronglySorted (position_lt h) res.
Proof.
  intros Hok. destruct (getConflicts_raw h b Hok) as (raw & -> & Hraw).
  exists (Array_sort (compare_cells h) (unique raw)).
  destruct (unique_spec raw) as [Hnd Huniq].
  assert (forall l, l ∈ Array_sort (compare_cells h) (unique raw) <->
                    conflicting h b l) as Hres.
  { intros l. by rewrite Array_sort_Permutation, Huniq. }
  assert (NoDup (Array_sort (compare_cells h) (unique raw))) as Hnd'
    by by rewrite Array_sort_Permutation.
  assert (forall a c, a ∈ Array_sort (compare_cells h) (unique raw) ->
            c ∈ Array_sort (compare_cells h) (unique raw) ->
            row (deref h a) = row (deref h c) ->
            column (deref h a) = column (deref h c) -> a = c) as Hinj.
  { intros a c (i & Hi & _)%Hres (j & Hj & _)%Hres.
    apply (board_position_inj h b); [done| |];
      apply list_elem_of_lookup; eauto. }
  split; [reflexivity|]. split; [exact Hres|].
  split; [|split; [done|split]].
  - intros l (i & _ & Hv & _)%Hres. done.
  - apply NoDup_fmap_2_strong; [|done].
    intros a c Ha Hc [= Hr Hcol]. by apply Hinj.
  - apply StronglySorted_strict; [done|done|].
    apply Array_sort_sorted.
    + intros a c. rewrite !compare_cells_le. lia.
    + intros a c d. rewrite !compare_cells_le. lia.
Qed.

(** ** Concrete boards *)

Lemma example_new :
  new_Board (JsString example_definition) [] = (Ret example_board, example_heap).
Proof. reflexivity. Qed.

Lemma example_ok : board_ok example_heap example_board.
Proof. apply (board_ok_new example_definition []). Qed.

(** ** [hasWon] *)

Lemma hasWon_callback_spec cell x newX won u h :
  (newX = false -> u <> None) ->
  hasWon_callback cell x newX (won, u) h =
  let used := if newX then [] else default [] u in
  let v := value (deref h cell) in
  if v =? 0 then (Ret ((false, Some used), ReturnsFalse), h)
  else match obj_get used v with
       | Some true => (Ret ((false, Some used), ReturnsFalse), h)
       | _ => (Ret ((won, Some (obj_set used v true)),
                    if negb won then ReturnsFalse else ReturnsUndefined), h)
       end.
Proof.
  intros Hu. unfold hasWon_callback, bind, get_value, ret. cbv zeta.
  assert ((if newX then Some [] else u) =
          Some (if newX then [] else default [] u)) as ->.
  { destruct newX; [done|]. destruct u; [done|]. by destruct Hu. }
  destruct (_ =? 0); [done|]. by destruct (obj_get _ _) as [[]|].
Qed.

Lemma for_each_scan_rest b h x g : forall used,
  Forall (fun i => i < length (cells b))%nat g ->
  exists u',
    for_each (map (fun j => (j, x, false)) g)
             (visit_body b hasWon_callback) (true, Some used) h =
    (Ret (if scan h (map (cell_at b) g) used
          then Next (true, u') else Exit (false, u')), h).
Proof.
  induction g as [|i g IH]; intros used Hg; [by eexists|].
  apply Forall_cons in Hg as [Hi Hg]. simpl.
  unfold bind at 1. unfold visit_body at 1. unfold bind at 1. simpl fst.
  rewrite array_get_cell by done. unfold bind at 1.
  rewrite hasWon_callback_spec by done. cbv zeta. simpl snd.
  destruct (_ =? 0); [by eexists|].
  destruct (obj_get _ _) as [[]|]; [by eexists| |]; simpl; apply IH; done.
Qed.

Lemma for_each_scan_group b h x g u :
  g <> [] -> Forall (fun i => i < length (cells b))%nat g ->
  exists u',
    for_each (mark x g) (visit_body b hasWon_callback) (true, u) h =
    (Ret (if scan h (map (cell_at b) g) []
          then Next (true, u') else Exit (false, u')), h).
Proof.
  intros Hne Hg. destruct g as [|i g]; [done|].
  apply Forall_cons in Hg as [Hi Hg]. simpl.
  unfold bind at 1. unfold visit_body at 1. unfold bind at 1. simpl fst.
  rewrite array_get_cell by done. unfold bind at 1.
  rewrite hasWon_callback_spec by done. cbv zeta. simpl snd.
  destruct (_ =? 0); [by eexists|]. simpl.
  by apply for_each_scan_rest.
Qed.

Lemma for_each_scan_groups b h gs : forall u,
  length (cells b) = 81%nat -> groups_ok gs ->
  exists u',
    for_each (grouped gs) (visit_body b hasWon_callback) (true, u) h =
    (Ret (if forallb (fun g => scan h (group_cells b g) []) gs
          then Next (true, u') else Exit (false, u')), h).
Proof.
  induction gs as [|[x g] gs IH]; intros u Hlen Hgs; [by eexists|].
  apply Forall_cons in Hgs as [(Hne & _ & Hg) Hgs]. simpl in Hne, Hg.
  unfold grouped. simpl. rewrite for_each_app. unfold bind.
  destruct (for_each_scan_group b h x g u Hne) as [u1 ->];
    [by rewrite Hlen|].
  unfold group_cells at 1. simpl snd.
  destruct (scan h (map (cell_at b) g) []); [|by eexists].
  simpl. by apply IH.
Qed.

(** Once [won] is [false], a traversal stops at its first cell. *)
Lemma for_each_lost b h gs u :
  length (cells b) = 81%nat -> groups_ok gs -> gs <> [] ->
  exists u',
    for_each (grouped gs) (visit_body b hasWon_callback) (false, u) h =
    (Ret (Exit (false, u')), h).
Proof.
  intros Hlen Hgs Hne. destruct gs as [|[x g] gs]; [done|].
  apply Forall_cons in Hgs as [(Hg & _ & Hlt) _]. simpl in Hg, Hlt.
  destruct g as [|i g]; [done|]. apply Forall_cons in Hlt as [Hi _].
  unfold grouped. simpl.
  unfold bind at 1. unfold visit_body at 1. unfold bind at 1. simpl fst.
  rewrite array_get_cell by by rewrite Hlen. unfold bind at 1.
  rewrite hasWon_callback_spec by done. cbv zeta. simpl snd.
  destruct (_ =? 0); [by eexists|]. by eexists.
Qed.

Lemma hasWon_check_spec (walkFun : walker) gs b h won :
  (forall S (cb : callback S) s h,
     walkFun S b cb s h = walk (grouped gs) b cb s h) ->
  length (cells b) = 81%nat -> groups_ok gs -> gs <> [] ->
  hasWon_check walkFun b won h =
  (Ret (won && forallb (fun g => scan h (group_cells b g) []) gs), h).
Proof.
  intros Hwalk Hlen Hgs Hne. unfold hasWon_check. unfold bind.
  rewrite Hwalk. unfold walk, bind. destruct won; simpl.
  - destruct (for_each_scan_groups b h gs None Hlen Hgs) as [u' ->].
    by destruct (forallb _ gs).
  - by destruct (for_each_lost b h gs None Hlen Hgs Hne) as [u' ->].
Qed.

Lemma scan_spec h ls : forall used,
  scan h ls used = true <->
  (forall l, l ∈ ls ->
     value (deref h l) <> 0 /\ obj_get used (value (deref h l)) <> Some true) /\
  NoDup (map (fun l => value (deref h l)) ls).
Proof.
  induction ls as [|l ls IH]; intros used; simpl.
  - split; [|done]. intros _. split; [by intros l ?%elem_of_nil|constructor].
  - destruct (Z.eqb_spec (value (deref h l)) 0) as [Hv|Hv].
    { split; [done|]. intros [H _]. destruct (H l); [by left|done]. }
    assert (scan h ls (obj_set used (value (deref h l)) true) = true <->
            (forall l', l' ∈ ls -> value (deref h l') <> 0 /\
               obj_get used (value (deref h l')) <> Some true) /\
            (value (deref h l) ∉ map (fun l => value (deref h l)) ls) /\
            NoDup (map (fun l => value (deref h l)) ls)) as Hrest.
    { rewrite IH. split.
      - intros [Hall Hnd]. split; [|split; [|done]].
        + intros l' Hl'. destruct (Hall l' Hl') as [? Hget]. split; [done|].
          rewrite obj_get_set in Hget. by destruct (decide _).
        + intros (l' & E & Hl')%list_elem_of_fmap.
          destruct (Hall l' Hl') as [_ Hget]. rewrite obj_get_set in Hget.
          destruct (decide _); [done|congruence].
      - intros (Hall & Hnotin & Hnd). split; [|done].
        intros l' Hl'. destruct (Hall l' Hl') as [? Hget]. split; [done|].
        rewrite obj_get_set. destruct (decide _) as [E|_]; [|done].
        destruct Hnotin. apply list_elem_of_fmap. eauto. }
    rewrite NoDup_cons.
    destruct (obj_get used (value (deref h l))) as [[]|] eqn:E.
    + split; [done|]. intros [H _]. destruct (H l) as [_ H']; [by left|].
      by rewrite E in H'.
    + rewrite Hrest. split.
      * intros (Hall & ? & ?). split; [|done].
        intros l' [->|?]%elem_of_cons; [by rewrite E|auto].
      * intros (Hall & ? & ?). split; [|done].
        intros l' Hl'. apply Hall. by right.
    + rewrite Hrest. split.
      * intros (Hall & ? & ?). split; [|done].
        intros l' [->|?]%elem_of_cons; [by rewrite E|auto].
      * intros (Hall & ? & ?). split; [|done].
        intros l' Hl'. apply Hall. by right.
Qed.

(** [hasWon] returns what its check of the rows finds. *)
Lemma hasWon_rows h b :
  length (cells b) = 81%nat ->
  hasWon b h =
  (Ret (forallb (fun g => scan h (group_cells b g) []) row_groups), h).
Proof.
  intros Hlen. unfold hasWon. cbv zeta. unfold bind at 1.
  rewrite (hasWon_check_spec _ row_groups)
    by first [done|intros; apply walkCellsByRow_walk|apply groups_ok_rows].
  generalize (forallb (fun g => scan h (group_cells b g) []) row_groups).
  intros [|]; cbv beta iota delta [andb negb]; [reflexivity|].
  unfold bind at 1.
  rewrite (hasWon_check_spec _ column_groups)
    by first [done|intros; apply walkCellsByColumn_walk
             |apply groups_ok_columns].
  cbv beta iota delta [andb negb]. unfold bind at 1.
  rewrite (hasWon_check_spec _ box_groups)
    by first [done|intros; apply walkCellsByBox_walk|apply groups_ok_boxes].
  reflexivity.
Qed.

Lemma hasWon_rows_solved h b :
  board_ok h b ->
  exists won, hasWon b h = (Ret won, h) /\ (won = true <-> rows_solved h b).
Proof.
  intros Hok. rewrite hasWon_rows by apply (ok_length h b Hok).
  eexists. split; [reflexivity|]. rewrite forallb_forall. unfold rows_solved.
  split.
  - intros Hall g Hg%list_elem_of_In. apply Hall, scan_spec in Hg as [Hnz Hnd].
    split; [|done]. intros l Hl. by apply Hnz.
  - intros Hall g Hg%list_elem_of_In. apply scan_spec.
    destruct (Hall g Hg) as [Hnz Hnd]. split; [|done].
    intros l Hl. split; [by apply Hnz|done].
Qed.

(** [C1] [hasWon()] returns [true] exactly when the rows are complete.  On
    the board whose nine rows all read 1 2 3 4 5 6 7 8 9 it returns [true],
    although every column holds one value nine times: the columns and the
    boxes are checked only after a row has failed, when the answer is
    [false] already. *)
Theorem hasWon_rows_only :
  (forall h b, board_ok h b ->
     exists won, hasWon b h = (Ret won, h) /\ (won = true <-> rows_solved h b)) /\
  new_Board (JsString rows_only_definition) [] =
    (Ret example_board, rows_only_heap) /\
  hasWon example_board rows_only_heap = (Ret true, rows_only_heap) /\
  ~ solved rows_only_heap example_board.
Proof.
  split; [exact hasWon_rows_solved|].
  split; [reflexivity|]. split; [vm_compute; reflexivity|].
  intros [_ Hgroups].
  specialize (Hgroups (1, map (fun r => index_of r 1) (zrange 1 9))).
  assert ((1, map (fun r => index_of r 1) (zrange 1 9)) ∈ all_groups) as Hin.
  { unfold all_groups. rewrite !elem_of_app. right; left. by left. }
  apply Hgroups in Hin. vm_compute in Hin.
  apply NoDup_cons in Hin as [Hin _]. apply Hin. by left.
Qed.

(** ** Values out of range and shared cells *)

(** [C6] [setCellValue(1, 1, 10)] on the first board of the corpus returns
    [true] and leaves the value 10, outside the interval from 0 to 9, in
    the cell. *)
Theorem setCellValue_out_of_range :
  exists h1 c h2,
    setCellValue example_board 1 1 10 example_heap = (Ret true, h1) /\
    getCell example_board 1 1 h1 = (Ret c, h2) /\
    value (deref h2 c) = 10 /\
    ~ (0 <= value (deref h2 c) <= 9).
Proof.
  eexists _, _, _. split; [vm_compute; reflexivity|].
  split; [vm_compute; reflexivity|]. split; [reflexivity|].
  vm_compute. intros [_ H]. by apply H.
Qed.

(** [C7] The cells [getConflicts()] returns are the cells of the board
    themselves, and so are the elements of the array [getBoard()] returns
    when jQuery does not take a cell for a plain object.  On the board with
    the givens 1 and 1 side by side, the first cell [getConflicts()]
    returns is the cell at row 1, column 1; a write to its value by the
    caller changes what [getCell(1, 1)] shows, though the cell is fixed. *)
Theorem getConflicts_returns_board_cells :
  (forall h b res l,
     board_ok h b -> getConflicts b h = (Ret res, h) -> l ∈ res -> l ∈ cells b) /\
  (forall h b, getBoard false b h = (Ret (cells b), h)) /\
  new_Board (JsString conflict_definition) [] = (Ret example_board, conflict_heap) /\
  exists res l,
    getConflicts example_board conflict_heap = (Ret res, conflict_heap) /\
    res !! 0%nat = Some l /\
    cells example_board !! index_of 1 1 = Some l /\
    isFixed (deref conflict_heap l) = true /\
    (exists c h', getCell example_board 1 1 conflict_heap = (Ret c, h') /\
                  value (deref h' c) = 1) /\
    (exists h1 c h2, set_value l 7 conflict_heap = (Ret tt, h1) /\
                     getCell example_board 1 1 h1 = (Ret c, h2) /\
                     value (deref h2 c) = 7).
Proof.
  split; [|split; [intros; apply extend_deep_false|split; [reflexivity|]]].
  - intros h b res l Hok Hrun Hl.
    destruct (getConflicts_raw h b Hok) as (raw & Hrun' & Hraw).
    rewrite Hrun' in Hrun. injection Hrun as <-.
    rewrite Array_sort_Permutation in Hl.
    destruct (unique_spec raw) as [_ Huniq].
    apply Huniq, Hraw in Hl as (i & Hi & _).
    apply list_elem_of_lookup. eauto.
  - eexists _, _. split; [vm_compute; reflexivity|].
    split; [reflexivity|]. split; [reflexivity|]. split; [reflexivity|].
    split.
    + eexists _, _. split; [vm_compute; reflexivity|]. reflexivity.
    + eexists _, _, _. split; [reflexivity|].
      split; [vm_compute; reflexivity|]. reflexivity.
Qed.

(** ** The theorems at concrete boards *)

Lemma all_digits_valid s :
  String.length s = 81%nat -> all_digits s = true -> valid_definition s.
Proof.
  intros Hlen Hall. split; [done|]. clear Hlen. revert Hall.
  induction s as [|a s IH]; simpl; intros Hall i c Hi; [discriminate|].
  apply andb_true_iff in Hall as [Ha Hall].
  destruct i as [|i]; [|by apply (IH Hall i)].
  injection Hi as <-. apply andb_true_iff in Ha as [?%N.leb_le ?%N.leb_le].
  by split.
Qed.

Lemma getConflicts_spec_witness :
  board_ok conflict_heap example_board /\
  exists res,
    getConflicts example_board conflict_heap = (Ret res, conflict_heap) /\
    (forall l, l ∈ res <-> conflicting conflict_heap example_board l) /\
    (forall l, l ∈ res -> value (deref conflict_heap l) <> 0) /\
    NoDup res /\
    NoDup (map (fun l => (row (deref conflict_heap l),
                          column (deref conflict_heap l))) res) /\
    StronglySorted (position_lt conflict_heap) res.
Proof.
  split.
  - apply (board_ok_new conflict_definition []).
  - apply (getConflicts_spec conflict_heap example_board).
    apply (board_ok_new conflict_definition []).
Defined.

Lemma new_Board_getBoard_witness :
  valid_definition example_definition /\
  exists b h1 arr h2,
    new_Board (JsString example_definition) [] = (Ret b, h1) /\
    getBoard true b h1 = (Ret arr, h2) /\
    length arr = 81%nat /\
    forall i, (i < 81)%nat ->
      exists l c,
        arr !! i = Some l /\
        String.get i example_definition = Some c /\
        row (deref h2 l) = Z.of_nat i / 9 + 1 /\
        column (deref h2 l) = Z.of_nat i mod 9 + 1 /\
        value (deref h2 l) = digit_value c /\
        (isFixed (deref h2 l) = true <-> digit_value c <> 0).
Proof.
  split.
  - apply all_digits_valid; reflexivity.
  - apply (new_Board_getBoard true example_definition []).
    apply all_digits_valid; reflexivity.
Defined.

Lemma setCellValue_getCell_witness :
  board_ok example_heap example_board /\ 1 <= 1 <= 9 /\ 1 <= 5 <= 9 /\
  exists cell,
    cells example_board !! index_of 1 5 = Some cell /\
    (isFixed (deref example_heap cell) = true ->
       setCellValue example_board 1 5 3 example_heap = (Ret false, example_heap) /\
       exists c h', getCell example_board 1 5 example_heap = (Ret c, h') /\
                    value (deref h' c) = value (deref example_heap cell)) /\
    (isFixed (deref example_heap cell) = false ->
       exists h1, setCellValue example_board 1 5 3 example_heap = (Ret true, h1) /\
                  value (deref h1 cell) = 3 /\
       exists c h2, getCell example_board 1 5 h1 = (Ret c, h2) /\
                    value (deref h2 c) = 3).
Proof.
  split; [exact example_ok|]. split; [lia|]. split; [lia|].
  apply (setCellValue_getCell example_heap example_board 1 5 3);
    [exact example_ok|lia|lia].
Defined.

Lemma restart_reachable_witness :
  reachable example_board (store_value example_heap 0%nat 5) /\
  exists h',
    restart example_board (store_value example_heap 0%nat 5) = (Ret tt, h') /\
    (forall i l, cells example_board !! i = Some l ->
       (isFixed (deref (store_value example_heap 0%nat 5) l) = false ->
        value (deref h' l) = 0) /\
       (isFixed (deref (store_value example_heap 0%nat 5) l) = true ->
        deref h' l = deref (store_value example_heap 0%nat 5) l)) /\
    restart example_board h' = (Ret tt, h').
Proof.
  assert (reachable example_board (store_value example_heap 0%nat 5)) as Hreach.
  { apply (reachable_setCellValue example_board example_heap 1 1 5 true).
    - apply (reachable_new (JsString example_definition) []). reflexivity.
    - vm_compute. reflexivity. }
  split; [exact Hreach|].
  apply (restart_reachable example_board _ Hreach).
Defined.

Lemma setCellValue_restart_frame_witness :
  board_ok example_heap example_board /\ 1 <= 1 <= 9 /\ 1 <= 1 <= 9 /\
  (exists changed h',
     setCellValue example_board 1 1 5 example_heap = (Ret changed, h') /\
     length h' = length example_heap /\
     (forall i l, cells example_board !! i = Some l -> i <> index_of 1 1 ->
        deref h' l = deref example_heap l) /\
     (forall l, cells example_board !! index_of 1 1 <> Some l ->
        h' !! l = example_heap !! l) /\
     (forall l, row (deref h' l) = row (deref example_heap l) /\
                column (deref h' l) = column (deref example_heap l) /\
                isFixed (deref h' l) = isFixed (deref example_heap l))) /\
  (exists h',
     restart example_board example_heap = (Ret tt, h') /\
     length h' = length example_heap /\
     (forall l, row (deref h' l) = row (deref example_heap l) /\
                column (deref h' l) = column (deref example_heap l) /\
                isFixed (deref h' l) = isFixed (deref example_heap l))).
Proof.
  split; [exact example_ok|]. split; [lia|]. split; [lia|].
  apply (setCellValue_restart_frame example_heap example_board 1 1 5);
    [exact example_ok|lia|lia].
Defined.

(** * Further properties *)

(** ** Index arithmetic *)

(** [X1] For an integer index of magnitude at most [2 ^ 31], the index of
    the position of the index is that index when the index is not negative
    (or is a multiple of 9); for the other negative indices it is 9 less,
    because [%] truncates where [Math.floor] rounds down.  The position of
    an index that is not negative has a row from 1 on and a column from 1
    to 9, and the row is at most 9 below 81. *)
Theorem calcCellIndex_of_position idx :
  small idx ->
  calcCellIndexFromBoardPosition (fst (calcBoardPositionFromIndex idx))
                                 (snd (calcBoardPositionFromIndex idx)) =
    (if (0 <=? idx) || (Z.rem idx 9 =? 0) then idx else idx - 9) /\
  (0 <= idx ->
   1 <= fst (calcBoardPositionFromIndex idx) /\
   1 <= snd (calcBoardPositionFromIndex idx) <= 9 /\
   (idx < 81 -> fst (calcBoardPositionFromIndex idx) <= 9)).
Proof.
  intros _. unfold calcCellIndexFromBoardPosition, calcBoardPositionFromIndex.
  cbn [fst snd]. split.
  - destruct (Z.leb_spec 0 idx) as [Hpos|Hneg]; cbn [orb].
    + rewrite Z.rem_mod_nonneg by lia.
      pose proof (Z.div_mod idx 9). lia.
    + destruct (Z.eqb_spec (Z.rem idx 9) 0) as [Hz|Hnz];
        Z.div_mod_to_equations; Z.quot_rem_to_equations; lia.
  - intros Hpos. rewrite Z.rem_mod_nonneg by lia.
    Z.div_mod_to_equations. lia.
Qed.

Lemma calcCellIndex_of_position_witness :
  small (-1) /\
  calcCellIndexFromBoardPosition (fst (calcBoardPositionFromIndex (-1)))
                                 (snd (calcBoardPositionFromIndex (-1))) =
    -10 /\
  (0 <= -1 ->
   1 <= fst (calcBoardPositionFromIndex (-1)) /\
   1 <= snd (calcBoardPositionFromIndex (-1)) <= 9 /\
   (-1 < 81 -> fst (calcBoardPositionFromIndex (-1)) <= 9)).
Proof.
  assert (small (-1)) as Hs by (unfold small; lia).
  split; [exact Hs|]. apply (calcCellIndex_of_position (-1) Hs).
Defined.

(** [X2] For a row from 1 to [2 ^ 31] and a column from 1 to 9, the
    position of the index of the position is the position; rows up to 9
    give the indices below 81. *)
Theorem position_of_calcCellIndex r c :
  1 <= r <= 2 ^ 31 -> 1 <= c <= 9 ->
  calcBoardPositionFromIndex (calcCellIndexFromBoardPosition r c) = (r, c) /\
  0 <= calcCellIndexFromBoardPosition r c /\
  (r <= 9 -> calcCellIndexFromBoardPosition r c < 81).
Proof.
  intros Hr Hc. unfold calcCellIndexFromBoardPosition, calcBoardPositionFromIndex.
  rewrite Z.rem_mod_nonneg by lia. split; [|lia].
  f_equal; Z.div_mod_to_equations; lia.
Qed.

Lemma position_of_calcCellIndex_witness :
  1 <= 4 <= 2 ^ 31 /\ 1 <= 7 <= 9 /\
  calcBoardPositionFromIndex (calcCellIndexFromBoardPosition 4 7) = (4, 7) /\
  0 <= calcCellIndexFromBoardPosition 4 7 /\
  (4 <= 9 -> calcCellIndexFromBoardPosition 4 7 < 81).
Proof.
  split; [lia|]. split; [lia|].
  apply (position_of_calcCellIndex 4 7); lia.
Defined.

(** ** Stopping a traversal *)

Lemma for_each_record b h n vs : forall seen,
  Forall (fun v : visit => fst (fst v) < length (cells b))%nat vs ->
  (length seen < n)%nat ->
  exists r,
    for_each vs (visit_body b (record_until n)) seen h = (Ret r, h) /\
    flow_state r = seen ++ take (n - length seen) (located b vs).
Proof.
  induction vs as [|[[i x] newX] vs IH]; intros seen Hvs Hn.
  - eexists. split; [reflexivity|]. simpl. by rewrite take_nil, app_nil_r.
  - apply Forall_cons in Hvs as [Hi Hvs]. simpl in Hi. simpl for_each.
    unfold bind at 1. unfold visit_body at 1. unfold bind at 1. simpl fst.
    rewrite array_get_cell by done. unfold bind at 1.
    unfold record_until at 1. unfold ret at 1. cbn [snd fst after_callback].
    unfold ret at 1.
    destruct (Nat.eqb_spec (length (seen ++ [(cell_at b i, x, newX)])) n)
      as [E|E]; cbn [after_callback].
    + eexists. split; [reflexivity|]. cbn [flow_state].
      rewrite length_app in E. simpl in E.
      replace (n - length seen)%nat with 1%nat by lia.
      simpl. by rewrite take_0.
    + rewrite length_app in E. simpl in E.
      destruct (IH (seen ++ [(cell_at b i, x, newX)])) as (r & -> & Hr);
        [done|rewrite length_app; simpl; lia|].
      eexists. split; [reflexivity|]. rewrite Hr, length_app. simpl.
      replace (n - length seen)%nat
        with (Datatypes.S (n - (length seen + 1)))%nat by lia.
      simpl. by rewrite <- app_assoc.
Qed.

Lemma walk_record b h n gs :
  length (cells b) = 81%nat -> groups_ok gs -> (1 <= n)%nat ->
  walk (grouped gs) b (record_until n) [] h =
  (Ret (take n (located b (grouped gs))), h).
Proof.
  intros Hlen Hgs Hn. unfold walk, bind.
  destruct (for_each_record b h n (grouped gs) []) as (r & -> & Hr).
  - rewrite Hlen. unfold grouped. apply Forall_forall. intros v Hv.
    apply list_elem_of_In, in_flat_map in Hv as ([x g] & Hg & Hv).
    unfold groups_ok in Hgs. rewrite Forall_forall in Hgs.
    destruct (Hgs (x, g)) as (_ & _ & Hlt); [by apply list_elem_of_In|].
    rewrite Forall_forall in Hlt. simpl in Hv, Hlt.
    destruct g as [|i g]; [done|]. simpl in Hv.
    destruct Hv as [<-|Hv]; [apply Hlt; by left|].
    apply in_map_iff in Hv as (j & <- & Hj). apply Hlt. right.
    by apply list_elem_of_In.
  - simpl. lia.
  - unfold ret. rewrite Hr. simpl. by rewrite Nat.sub_0_r.
Qed.

(** [X5] A callback that returns [false] at its [n]th call ends the whole
    traversal there: each of the three traversals has then made its first
    [n] visits and no other (all 81 when [n] is larger). *)
Theorem walk_stops_at_false h b n :
  board_ok h b -> (1 <= n)%nat ->
  walkCellsByRow b (record_until n) [] h =
    (Ret (take n (located b (grouped row_groups))), h) /\
  walkCellsByColumn b (record_until n) [] h =
    (Ret (take n (located b (grouped column_groups))), h) /\
  walkCellsByBox b (record_until n) [] h =
    (Ret (take n (located b (grouped box_groups))), h).
Proof.
  intros Hok Hn. pose proof (ok_length h b Hok) as Hlen.
  rewrite walkCellsByRow_walk, walkCellsByColumn_walk, walkCellsByBox_walk.
  rewrite !walk_record
    by first [done|apply groups_ok_rows|apply groups_ok_columns
             |apply groups_ok_boxes].
  done.
Qed.

Lemma walk_stops_at_false_witness :
  board_ok example_heap example_board /\ (1 <= 11)%nat /\
  walkCellsByRow example_board (record_until 11) [] example_heap =
    (Ret (take 11 (located example_board (grouped row_groups))), example_heap) /\
  walkCellsByColumn example_board (record_until 11) [] example_heap =
    (Ret (take 11 (located example_board (grouped column_groups))),
     example_heap) /\
  walkCellsByBox example_board (record_until 11) [] example_heap =
    (Ret (take 11 (located example_board (grouped box_groups))), example_heap).
Proof.
  split; [exact example_ok|]. split; [lia|].
  apply (walk_stops_at_false example_heap example_board 11);
    [exact example_ok|lia].
Defined.

(** ** Positions off the board *)

Lemma getCellAtPosition_index b r c copy h :
  length (cells b) = 81%nat ->
  getCellAtPosition b r c copy h =
  let idx := calcCellIndexFromBoardPosition r c in
  if (0 <=? idx) && (idx <? 81) then
    let cell := cell_at b (Z.to_nat idx) in
    if copy then (Ret (length h), h ++ [deref h cell]) else (Ret cell, h)
  else (Throw TypeError, h).
Proof.
  intros Hlen. unfold getCellAtPosition, bind. cbv zeta.
  destruct (Z.leb_spec 0 (calcCellIndexFromBoardPosition r c)) as [Hlo|Hlo];
    cbn [andb].
  - destruct (Z.ltb_spec (calcCellIndexFromBoardPosition r c) 81) as [Hhi|Hhi].
    + rewrite <- (Z2Nat.id (calcCellIndexFromBoardPosition r c)) at 1 by done.
      rewrite array_get_cell by lia.
      destruct copy; [apply Cell_fromCell_spec|reflexivity].
    + unfold array_get.
      destruct (Z.ltb_spec (calcCellIndexFromBoardPosition r c) 0); [lia|].
      rewrite (proj2 (lookup_ge_None _ _)) by lia. reflexivity.
  - unfold array_get.
    destruct (Z.ltb_spec (calcCellIndexFromBoardPosition r c) 0); [|lia].
    reflexivity.
Qed.

(** [X6] For integer arguments of magnitude at most [2 ^ 31],
    [getCell(row, col)] goes by the index [(row - 1) * 9 + (col - 1)]
    alone.  Off the board it throws a [TypeError] and changes nothing.  On
    the board it returns a new object with the fields of the cell at that
    index, whose row and column are the arguments only when [col] is
    between 1 and 9: [getCell(1, 10)] is the cell of row 2, column 1. *)
Theorem getCell_by_index h b r c :
  board_ok h b -> small r -> small c ->
  (~ on_board r c -> getCell b r c h = (Throw TypeError, h)) /\
  (on_board r c ->
   exists cell copy,
     cells b !! Z.to_nat (calcCellIndexFromBoardPosition r c) = Some cell /\
     getCell b r c h = (Ret copy, h ++ [deref h cell]) /\
     (copy ∉ cells b) /\
     deref (h ++ [deref h cell]) copy = deref h cell /\
     (row (deref h cell), column (deref h cell)) =
       calcBoardPositionFromIndex (calcCellIndexFromBoardPosition r c) /\
     ((row (deref h cell), column (deref h cell)) = (r, c) <-> 1 <= c <= 9)).
Proof.
  intros Hok _ _. pose proof (ok_length h b Hok) as Hlen.
  unfold getCell, on_board. rewrite getCellAtPosition_index by done. cbv zeta.
  set (idx := calcCellIndexFromBoardPosition r c). split.
  - intros Hoff.
    destruct (Z.leb_spec 0 idx); destruct (Z.ltb_spec idx 81);
      cbn [andb]; try reflexivity. lia.
  - intros Hon.
    destruct (Z.leb_spec 0 idx); [|lia]. destruct (Z.ltb_spec idx 81); [|lia].
    cbn [andb].
    assert (cells b !! Z.to_nat idx = Some (cell_at b (Z.to_nat idx))) as Hcell
      by (apply lookup_cell_at; lia).
    pose proof (ok_position h b Hok _ _ Hcell) as Hpos.
    exists (cell_at b (Z.to_nat idx)), (length h).
    split; [done|]. split; [done|]. split; [|split; [|split]].
    + intros Hin. apply (ok_allocated h b Hok) in Hin. lia.
    + apply deref_lookup. rewrite lookup_app_r by lia.
      by rewrite Nat.sub_diag.
    + rewrite Hpos, <- calcBoardPositionFromIndex_nat. f_equal. lia.
    + rewrite Hpos. unfold position_of_index. rewrite Z2Nat.id by lia.
      subst idx. unfold calcCellIndexFromBoardPosition in *. split.
      * intros [= Hr Hc]. Z.div_mod_to_equations. lia.
      * intros Hc. f_equal; Z.div_mod_to_equations; lia.
Qed.

Lemma getCell_by_index_witness :
  board_ok example_heap example_board /\ small 1 /\ small 10 /\
  (~ on_board 1 10 -> getCell example_board 1 10 example_heap =
                      (Throw TypeError, example_heap)) /\
  (on_board 1 10 ->
   exists cell copy,
     cells example_board !! Z.to_nat (calcCellIndexFromBoardPosition 1 10) =
       Some cell /\
     getCell example_board 1 10 example_heap =
       (Ret copy, example_heap ++ [deref example_heap cell]) /\
     (copy ∉ cells example_board) /\
     deref (example_heap ++ [deref example_heap cell]) copy =
       deref example_heap cell /\
     (row (deref example_heap cell), column (deref example_heap cell)) =
       calcBoardPositionFromIndex (calcCellIndexFromBoardPosition 1 10) /\
     ((row (deref example_heap cell), column (deref example_heap cell)) =
        (1, 10) <-> 1 <= 10 <= 9)).
Proof.
  assert (small 1) as H1 by (unfold small; lia).
  assert (small 10) as H10 by (unfold small; lia).
  split; [exact example_ok|]. split; [exact H1|]. split; [exact H10|].
  apply (getCell_by_index example_heap example_board 1 10 example_ok H1 H10).
Defined.

Lemma setCellValue_index b r c v h :
  length (cells b) = 81%nat ->
  (forall i, (i < 81)%nat -> (cell_at b i < length h)%nat) ->
  setCellValue b r c v h =
  let idx := calcCellIndexFromBoardPosition r c in
  if (0 <=? idx) && (idx <? 81) then
    let cell := cell_at b (Z.to_nat idx) in
    if isFixed (deref h cell) then (Ret false, h)
    else (Ret true, store_value h cell v)
  else (Throw TypeError, h).
Proof.
  intros Hlen Hal. unfold setCellValue. unfold bind at 1.
  rewrite getCellAtPosition_index by done. cbv zeta.
  destruct (Z.leb_spec 0 (calcCellIndexFromBoardPosition r c));
    destruct (Z.ltb_spec (calcCellIndexFromBoardPosition r c) 81);
    cbn [andb]; try reflexivity.
  unfold bind, get_isFixed, set_value, ret.
  destruct (isFixed (deref h (cell_at b _))) eqn:Hfix; simpl.
  - by rewrite Hfix.
  - rewrite deref_store_value_eq by (apply Hal; lia). simpl. by rewrite Hfix.
Qed.

(** [X7] For integer [row] and [col] of magnitude at most [2 ^ 31],
    [setCellValue(row, col, value)] goes by the same index.  Off the
    board it throws a [TypeError] and changes nothing; on the board it
    writes, or refuses to write, the cell at that index. *)
Theorem setCellValue_by_index h b r c v :
  board_ok h b -> small r -> small c ->
  (~ on_board r c -> setCellValue b r c v h = (Throw TypeError, h)) /\
  (on_board r c ->
   exists cell,
     cells b !! Z.to_nat (calcCellIndexFromBoardPosition r c) = Some cell /\
     setCellValue b r c v h =
       if isFixed (deref h cell) then (Ret false, h)
       else (Ret true, store_value h cell v)).
Proof.
  intros Hok _ _. pose proof (ok_length h b Hok) as Hlen.
  rewrite setCellValue_index
    by first [done|intros; by apply (cell_at_allocated h b)].
  unfold on_board. cbv zeta. split.
  - intros Hoff.
    destruct (Z.leb_spec 0 (calcCellIndexFromBoardPosition r c));
      destruct (Z.ltb_spec (calcCellIndexFromBoardPosition r c) 81);
      cbn [andb]; try reflexivity. lia.
  - intros Hon.
    destruct (Z.leb_spec 0 (calcCellIndexFromBoardPosition r c)); [|lia].
    destruct (Z.ltb_spec (calcCellIndexFromBoardPosition r c) 81); [|lia].
    cbn [andb]. eexists. split; [apply lookup_cell_at; lia|done].
Qed.

Lemma setCellValue_by_index_witness :
  board_ok example_heap example_board /\ small 0 /\
  (~ on_board 0 0 -> setCellValue example_board 0 0 5 example_heap =
                     (Throw TypeError, example_heap)) /\
  (on_board 0 0 ->
   exists cell,
     cells example_board !! Z.to_nat (calcCellIndexFromBoardPosition 0 0) =
       Some cell /\
     setCellValue example_board 0 0 5 example_heap =
       if isFixed (deref example_heap cell) then (Ret false, example_heap)
       else (Ret true, store_value example_heap cell 5)).
Proof.
  assert (small 0) as H0 by (unfold small; lia).
  split; [exact example_ok|]. split; [exact H0|].
  apply (setCellValue_by_index example_heap example_board 0 0 5 example_ok
           H0 H0).
Defined.

(** ** What the board shows depends on its cells alone *)

Lemma group_cells_on_board b g :
  length (cells b) = 81%nat -> g ∈ all_groups ->
  forall l, l ∈ group_cells b g -> l ∈ cells b.
Proof.
  intros Hlen Hg l Hl. pose proof groups_ok_all as Hgs.
  unfold groups_ok in Hgs. rewrite Forall_forall in Hgs.
  destruct (Hgs g Hg) as (_ & _ & Hlt). rewrite Forall_forall in Hlt.
  unfold group_cells in Hl. apply list_elem_of_fmap in Hl as (i & -> & Hi).
  apply list_elem_of_lookup. exists i. apply lookup_cell_at.
  rewrite Hlen. by apply Hlt.
Qed.

Lemma scan_agree h h' ls : forall used,
  (forall l, l ∈ ls -> deref h l = deref h' l) ->
  scan h ls used = scan h' ls used.
Proof.
  induction ls as [|l ls IH]; intros used E; simpl; [done|].
  rewrite (E l) by left. destruct (_ =? 0); [done|].
  destruct (obj_get _ _) as [[]|]; try done; apply IH; intros; apply E;
    by right.
Qed.

Lemma fill_buckets_agree h h' ls : forall o,
  (forall l, l ∈ ls -> deref h l = deref h' l) ->
  fill_buckets h ls o = fill_buckets h' ls o.
Proof.
  unfold fill_buckets. induction ls as [|l ls IH]; intros o E; simpl; [done|].
  unfold bucket_add at 2 4. rewrite (E l) by left.
  apply IH. intros; apply E; by right.
Qed.

Lemma check_result_agree h h' b gs : forall c,
  (forall g, g ∈ gs -> forall l, l ∈ group_cells b g -> deref h l = deref h' l) ->
  check_result h b gs c = check_result h' b gs c.
Proof.
  unfold check_result. induction gs as [|g gs IH]; intros c E; simpl; [done|].
  rewrite (fill_buckets_agree h h') by (apply E; by left).
  apply IH. intros g' Hg'. apply E. by right.
Qed.

Lemma sort_insert_agree (cmp cmp' : loc -> loc -> Z) x l :
  (forall y, y ∈ l -> cmp x y = cmp' x y) ->
  sort_insert cmp x l = sort_insert cmp' x l.
Proof.
  induction l as [|y l IH]; intros E; simpl; [done|].
  rewrite (E y) by left. destruct (_ <=? 0); [done|].
  f_equal. apply IH. intros; apply E; by right.
Qed.

Lemma Array_sort_agree (cmp cmp' : loc -> loc -> Z) arr :
  (forall x y, x ∈ arr -> y ∈ arr -> cmp x y = cmp' x y) ->
  Array_sort cmp arr = Array_sort cmp' arr.
Proof.
  induction arr as [|x arr IH]; intros E; simpl; [done|].
  rewrite IH by (intros; apply E; by right).
  apply sort_insert_agree. intros y Hy.
  rewrite Array_sort_Permutation in Hy. apply E; [by left|by right].
Qed.

Lemma raw_conflicts_on_board h b l :
  length (cells b) = 81%nat ->
  l ∈ check_result h b box_groups
        (check_result h b column_groups (check_result h b row_groups [])) ->
  l ∈ cells b.
Proof.
  intros Hlen.
  assert (forall gs c, (forall g, g ∈ gs -> g ∈ all_groups) ->
            (forall l, l ∈ c -> l ∈ cells b) ->
            forall l, l ∈ check_result h b gs c -> l ∈ cells b) as Hstep.
  { unfold check_result. induction gs as [|g gs IH]; intros c Hgs Hc l'; simpl.
    - apply Hc.
    - apply IH; [intros; apply Hgs; by right|].
      intros l0 Hl0. apply elem_of_add_conflicts in Hl0 as [?|(k & cs & Hk & _ & Hin)];
        [by apply Hc|].
      destruct (fill_buckets_spec h (group_cells b g)) as [Hkeys Hget].
      apply elem_of_obj in Hk; [|done]. rewrite Hget in Hk. unfold bucket in Hk.
      destruct (decide (k = 0)); [done|].
      assert (cs = filter (fun l => value (deref h l) = k) (group_cells b g))
        as -> by (destruct (filter _ _); congruence).
      apply list_elem_of_filter in Hin as [_ Hin].
      apply (group_cells_on_board b g); [done|apply Hgs; by left|done]. }
  apply Hstep; [unfold all_groups; intros; rewrite !elem_of_app; tauto|].
  apply Hstep; [unfold all_groups; intros; rewrite !elem_of_app; tauto|].
  apply Hstep; [unfold all_groups; intros; rewrite !elem_of_app; tauto|].
  by intros l' ?%elem_of_nil.
Qed.

Lemma forallb_agree {X} (f f' : X -> bool) l :
  (forall x, x ∈ l -> f x = f' x) -> forallb f l = forallb f' l.
Proof.
  induction l as [|x l IH]; intros E; simpl; [done|].
  rewrite (E x) by left. f_equal. apply IH. intros; apply E; by right.
Qed.

(** [hasWon] and [getConflicts] return the same on two stores that show
    the same cells of the board. *)
Lemma observations_agree h h' b :
  length (cells b) = 81%nat -> same_cells b h h' ->
  fst (hasWon b h) = fst (hasWon b h') /\
  fst (getConflicts b h) = fst (getConflicts b h').
Proof.
  intros Hlen E. split.
  - rewrite !hasWon_rows by done. cbn [fst]. f_equal.
    apply forallb_agree. intros g Hg. apply scan_agree. intros l Hl.
    apply E, (group_cells_on_board b g); [done| |done].
    unfold all_groups. rewrite elem_of_app. by left.
  - rewrite !getConflicts_run by done. cbn [fst].
    assert (forall gs c, (forall g, g ∈ gs -> g ∈ all_groups) ->
              check_result h b gs c = check_result h' b gs c) as Hcheck.
    { intros gs c Hgs. apply check_result_agree. intros g Hg l Hl.
      apply E, (group_cells_on_board b g); [done|by apply Hgs|done]. }
    rewrite !(Hcheck _ _)
      by (unfold all_groups; intros; rewrite !elem_of_app; tauto).
    f_equal. apply Array_sort_agree. intros x y Hx Hy.
    destruct (unique_spec (check_result h' b box_groups
      (check_result h' b column_groups (check_result h' b row_groups []))))
      as [_ Huniq].
    apply Huniq, raw_conflicts_on_board in Hx, Hy; try done.
    unfold compare_cells. by rewrite (E x), (E y).
Qed.

(** [X8] The object [getCell] returns (for integer arguments of magnitude
    at most [2 ^ 31] whose index is on the board) is not a cell of the
    board: whatever
    the caller writes into its fields, the board stays a board, its cells
    are as before, and [hasWon] and [getConflicts] return what they returned
    before. *)
Theorem getCell_copy_is_independent h b r c x :
  board_ok h b -> small r -> small c -> on_board r c ->
  exists copy h1,
    getCell b r c h = (Ret copy, h1) /\
    (copy ∉ cells b) /\
    board_ok (<[copy := x]> h1) b /\
    same_cells b (<[copy := x]> h1) h /\
    fst (hasWon b (<[copy := x]> h1)) = fst (hasWon b h) /\
    fst (getConflicts b (<[copy := x]> h1)) = fst (getConflicts b h).
Proof.
  intros Hok _ _ Hon. pose proof (ok_length h b Hok) as Hlen.
  unfold getCell. rewrite getCellAtPosition_index by done. cbv zeta.
  unfold on_board in Hon.
  destruct (Z.leb_spec 0 (calcCellIndexFromBoardPosition r c)); [|lia].
  destruct (Z.ltb_spec (calcCellIndexFromBoardPosition r c) 81); [|lia].
  cbn [andb]. eexists _, _. split; [reflexivity|].
  set (cell := cell_at b _).
  assert (length h ∉ cells b) as Hfresh.
  { intros Hin. apply (ok_allocated h b Hok) in Hin. lia. }
  assert (same_cells b (<[length h := x]> (h ++ [deref h cell])) h) as Hsame.
  { intros l Hl. pose proof (ok_allocated h b Hok l Hl) as Hlt.
    unfold deref. rewrite list_lookup_insert_ne by lia.
    by rewrite lookup_app_l. }
  split; [done|]. split; [|split; [done|]].
  - destruct Hok as [? Hnd Hal Hpos]. split; try done.
    + intros l Hl. rewrite length_insert, length_app. apply Hal in Hl. lia.
    + intros i l Hi. rewrite Hsame by (apply list_elem_of_lookup; eauto).
      by apply Hpos.
  - by apply observations_agree.
Qed.

Lemma getCell_copy_is_independent_witness :
  board_ok example_heap example_board /\ small 1 /\ on_board 1 1 /\
  exists copy h1,
    getCell example_board 1 1 example_heap = (Ret copy, h1) /\
    (copy ∉ cells example_board) /\
    board_ok (<[copy := mkCell 7 7 7 true]> h1) example_board /\
    same_cells example_board (<[copy := mkCell 7 7 7 true]> h1) example_heap /\
    fst (hasWon example_board (<[copy := mkCell 7 7 7 true]> h1)) =
      fst (hasWon example_board example_heap) /\
    fst (getConflicts example_board (<[copy := mkCell 7 7 7 true]> h1)) =
      fst (getConflicts example_board example_heap).
Proof.
  assert (small 1) as H1 by (unfold small; lia).
  split; [exact example_ok|]. split; [exact H1|].
  split; [unfold on_board; vm_compute; by split|].
  apply (getCell_copy_is_independent example_heap example_board 1 1
           (mkCell 7 7 7 true) example_ok H1 H1).
  unfold on_board. vm_compute. by split.
Defined.

(** ** Solved boards *)

Lemma elem_of_zrange_2 x count : forall from,
  from <= x < from + Z.of_nat count -> x ∈ zrange from count.
Proof.
  induction count as [|n IH]; intros from Hx; simpl; [lia|].
  destruct (decide (x = from)) as [->|Hne]; [by left|].
  right. apply IH. lia.
Qed.

(** Every cell of the board is in the group of its row. *)
Lemma row_group_of_cell b l :
  length (cells b) = 81%nat -> l ∈ cells b ->
  exists g, g ∈ row_groups /\ l ∈ group_cells b g.
Proof.
  intros Hlen (i & Hi)%list_elem_of_lookup.
  assert (i < 81)%nat as Hlt by (rewrite <- Hlen; by eapply lookup_lt_Some).
  exists (Z.of_nat i / 9 + 1,
          map (fun c => index_of (Z.of_nat i / 9 + 1) c) (zrange 1 9)).
  split.
  - unfold row_groups. apply list_elem_of_fmap.
    exists (Z.of_nat i / 9 + 1). split; [done|].
    apply elem_of_zrange_2. Z.div_mod_to_equations. lia.
  - unfold group_cells. cbn [snd]. apply list_elem_of_fmap. exists i.
    split; [rewrite lookup_cell_at in Hi by lia; congruence|].
    apply list_elem_of_fmap. exists (Z.of_nat i mod 9 + 1).
    split; [unfold index_of; Z.div_mod_to_equations; lia|].
    apply elem_of_zrange_2. Z.div_mod_to_equations. lia.
Qed.

Lemma rows_solved_no_empty_cell h b l :
  length (cells b) = 81%nat -> rows_solved h b -> l ∈ cells b ->
  value (deref h l) <> 0.
Proof.
  intros Hlen Hrows Hl.
  destruct (row_group_of_cell b l Hlen Hl) as (g & Hg & Hin).
  by apply (Hrows g Hg).
Qed.

Lemma solved_rows_solved h b :
  length (cells b) = 81%nat -> solved h b -> rows_solved h b.
Proof.
  intros Hlen [Hnz Hnd] g Hg.
  assert (g ∈ all_groups) as Hall
    by (unfold all_groups; rewrite elem_of_app; by left).
  split; [|by apply Hnd]. intros l Hl.
  by apply Hnz, (group_cells_on_board b g).
Qed.

Lemma getConflicts_elem h b :
  board_ok h b ->
  exists res, getConflicts b h = (Ret res, h) /\
              forall l, l ∈ res <-> conflicting h b l.
Proof.
  intros Hok. destruct (getConflicts_raw h b Hok) as (raw & -> & Hraw).
  eexists. split; [reflexivity|]. intros l.
  rewrite Array_sort_Permutation. destruct (unique_spec raw) as [_ ->].
  apply Hraw.
Qed.

Lemma NoDup_fmap_eq {X Y} (f : X -> Y) (l : list X) x y :
  NoDup (map f l) -> x ∈ l -> y ∈ l -> f x = f y -> x = y.
Proof.
  induction l as [|a l IH]; simpl; intros Hnd Hx Hy E.
  - by apply elem_of_nil in Hx.
  - apply NoDup_cons in Hnd as [Ha Hnd].
    apply elem_of_cons in Hx as [->|Hx]; apply elem_of_cons in Hy as [->|Hy];
      try done.
    + destruct Ha. rewrite E. apply list_elem_of_fmap. eauto.
    + destruct Ha. rewrite <- E. apply list_elem_of_fmap. eauto.
    + by apply IH.
Qed.

(** [X9] [hasWon()] returns [true] on every solved board and [false] on
    every board with an empty cell. *)
Theorem hasWon_solved_or_empty h b :
  board_ok h b ->
  (solved h b -> hasWon b h = (Ret true, h)) /\
  (forall l, l ∈ cells b -> value (deref h l) = 0 ->
             hasWon b h = (Ret false, h)).
Proof.
  intros Hok. pose proof (ok_length h b Hok) as Hlen.
  destruct (hasWon_rows_solved h b Hok) as (won & -> & Hwon). split.
  - intros Hs. do 2 f_equal. by apply Hwon, solved_rows_solved.
  - intros l Hl Hv. do 2 f_equal. destruct won; [|done].
    destruct (rows_solved_no_empty_cell h b l Hlen) as []; [|done|done].
    by apply Hwon.
Qed.

Lemma hasWon_solved_or_empty_witness :
  board_ok example_heap example_board /\
  (solved example_heap example_board ->
   hasWon example_board example_heap = (Ret true, example_heap)) /\
  (forall l, l ∈ cells example_board -> value (deref example_heap l) = 0 ->
             hasWon example_board example_heap = (Ret false, example_heap)).
Proof.
  split; [exact example_ok|].
  apply (hasWon_solved_or_empty example_heap example_board example_ok).
Defined.

(** With no empty cell and no value twice in a group for "solved". *)
Lemma solved_won_no_conflicts h b :
  board_ok h b ->
  solved h b <->
  hasWon b h = (Ret true, h) /\ getConflicts b h = (Ret [], h).
Proof.
  intros Hok. pose proof (ok_length h b Hok) as Hlen.
  destruct (hasWon_rows_solved h b Hok) as (won & Hrun & Hwon).
  destruct (getConflicts_elem h b Hok) as (res & Hres & Hin).
  rewrite Hrun, Hres. split.
  - intros Hs. split.
    + do 2 f_equal. by apply Hwon, solved_rows_solved.
    + do 2 f_equal. destruct res as [|l res]; [done|]. exfalso.
      assert (conflicting h b l) as Hl by (apply Hin; by left).
      apply conflict_in_groups in Hl as (g & Hg & Hl & _ & l' & Hl' & Hne & Hv);
        [|done].
      apply Hne. destruct Hs as [_ Hnd].
      by apply (NoDup_fmap_eq (fun l => value (deref h l)) (group_cells b g));
        [apply Hnd| | |].
  - intros [[= ->] [= ->]].
    pose proof (proj1 Hwon eq_refl) as Hrows. split.
    + intros l Hl. by apply (rows_solved_no_empty_cell h b).
    + intros g Hg. unfold group_values. apply NoDup_fmap_2_strong.
      * intros x y Hx Hy Hv. destruct (decide (x = y)) as [|Hne]; [done|].
        exfalso. apply (elem_of_nil x), Hin, conflict_in_groups; [done|].
        exists g. split; [done|]. split; [done|]. split.
        -- apply (rows_solved_no_empty_cell h b); [done..|].
           by apply (group_cells_on_board b g).
        -- exists y. split; [done|]. split; [congruence|done].
      * by apply (group_cells_NoDup h).
Qed.

Lemma group_length g : g ∈ all_groups -> length (snd g) = 9%nat.
Proof.
  revert g. apply Forall_forall. unfold all_groups. compute_done.
Qed.

Lemma complete_solved h b :
  length (cells b) = 81%nat -> complete h b -> solved h b.
Proof.
  intros Hlen Hc.
  assert (forall g x, g ∈ all_groups -> x ∈ group_values h b g -> 1 <= x <= 9)
    as Hrange.
  { intros g x Hg Hx. rewrite (Hc g Hg) in Hx.
    apply elem_of_zrange in Hx. lia. }
  split.
  - intros l Hl. destruct (row_group_of_cell b l Hlen Hl) as (g & Hg & Hin).
    assert (1 <= value (deref h l) <= 9); [|lia].
    apply (Hrange g).
    + unfold all_groups. rewrite elem_of_app. by left.
    + unfold group_values. apply list_elem_of_fmap. eauto.
  - intros g Hg. rewrite (Hc g Hg). compute_done.
Qed.

Lemma solved_complete h b :
  length (cells b) = 81%nat ->
  (forall l, l ∈ cells b -> 0 <= value (deref h l) <= 9) ->
  solved h b -> complete h b.
Proof.
  intros Hlen Hrange [Hnz Hnd] g Hg.
  apply submseteq_length_Permutation.
  - apply NoDup_submseteq; [by apply Hnd|].
    intros x Hx. unfold group_values in Hx.
    apply list_elem_of_fmap in Hx as (l & -> & Hl).
    apply (group_cells_on_board b g Hlen Hg) in Hl.
    pose proof (Hrange l Hl). pose proof (Hnz l Hl).
    apply elem_of_zrange_2. lia.
  - unfold group_values, group_cells. rewrite !length_map.
    by rewrite group_length.
Qed.

(** [X10] A board whose rows, columns and boxes each hold the numbers 1 to
    9 once makes [hasWon()] return [true] and [getConflicts()] return no
    cell.  On a board whose values are between 0 and 9 the converse holds:
    when [hasWon()] returns [true] and [getConflicts()] returns no cell,
    every row, column and box holds the numbers 1 to 9 once. *)
Theorem solved_iff_won_without_conflicts h b :
  board_ok h b ->
  (complete h b ->
   hasWon b h = (Ret true, h) /\ getConflicts b h = (Ret [], h)) /\
  ((forall l, l ∈ cells b -> 0 <= value (deref h l) <= 9) ->
   hasWon b h = (Ret true, h) -> getConflicts b h = (Ret [], h) ->
   complete h b).
Proof.
  intros Hok. pose proof (ok_length h b Hok) as Hlen. split.
  - intros Hc. apply (solved_won_no_conflicts h b Hok).
    by apply complete_solved.
  - intros Hrange Hwon Hnone. apply solved_complete; [done..|].
    by apply (solved_won_no_conflicts h b Hok).
Qed.

Lemma solved_heap_ok : board_ok solved_heap example_board.
Proof. apply (board_ok_new solved_definition []). Qed.

Lemma solved_heap_complete : complete solved_heap example_board.
Proof.
  apply solved_complete; [reflexivity| |split].
  - apply Forall_forall. compute_done.
  - apply Forall_forall. compute_done.
  - apply Forall_forall. compute_done.
Qed.

Lemma solved_iff_won_without_conflicts_witness :
  board_ok solved_heap example_board /\
  complete solved_heap example_board /\
  hasWon example_board solved_heap = (Ret true, solved_heap) /\
  getConflicts example_board solved_heap = (Ret [], solved_heap).
Proof.
  split; [exact solved_heap_ok|]. split; [exact solved_heap_complete|].
  apply (proj1 (solved_iff_won_without_conflicts solved_heap example_board
                  solved_heap_ok)).
  exact solved_heap_complete.
Defined.

(** [X11] [getConflicts()] never returns a cell alone: every cell it
    returns comes with another returned cell of one of its groups that has
    the same value. *)
Theorem getConflicts_pairs h b :
  board_ok h b ->
  exists res,
    getConflicts b h = (Ret res, h) /\
    length res <> 1%nat /\
    forall i l, cells b !! i = Some l -> l ∈ res ->
      exists j l', cells b !! j = Some l' /\ l' ∈ res /\ j <> i /\
                   same_group i j /\ value (deref h l') = value (deref h l).
Proof.
  intros Hok. destruct (getConflicts_elem h b Hok) as (res & Hres & Hin).
  exists res. split; [done|].
  assert (forall i l, cells b !! i = Some l -> l ∈ res ->
            exists j l', cells b !! j = Some l' /\ l' ∈ res /\ j <> i /\
                         same_group i j /\
                         value (deref h l') = value (deref h l)) as Hpair.
  { intros i l Hi Hl. apply Hin in Hl as (i' & Hi' & Hv & j & l' & Hj & Hne & Hsame & Hv').
    assert (i' = i) as -> by by apply (NoDup_lookup _ _ _ _ (ok_NoDup h b Hok) Hi' Hi).
    exists j, l'. split; [done|]. split; [|done].
    apply Hin. exists j. split; [done|]. split; [congruence|].
    exists i, l. split; [done|]. split; [done|]. split; [|done].
    unfold same_group in *. intuition congruence. }
  split; [|done].
  destruct res as [|l [|l2 res]]; simpl; try done.
  assert (conflicting h b l) as (i & Hi & _) by (apply Hin; by left).
  destruct (Hpair i l Hi) as (j & l' & Hj & Hl' & Hne & _); [by left|].
  apply list_elem_of_singleton in Hl' as ->.
  destruct Hne. by apply (NoDup_lookup _ _ _ _ (ok_NoDup h b Hok) Hj Hi).
Qed.

Lemma getConflicts_pairs_witness :
  board_ok conflict_heap example_board /\
  exists res,
    getConflicts example_board conflict_heap = (Ret res, conflict_heap) /\
    length res <> 1%nat /\
    forall i l, cells example_board !! i = Some l -> l ∈ res ->
      exists j l', cells example_board !! j = Some l' /\ l' ∈ res /\ j <> i /\
                   same_group i j /\
                   value (deref conflict_heap l') = value (deref conflict_heap l).
Proof.
  split; [apply (board_ok_new conflict_definition [])|].
  apply (getConflicts_pairs conflict_heap example_board).
  apply (board_ok_new conflict_definition []).
Defined.

(** ** The givens and the original state *)

Lemma reset_initial_cell s i : reset (initial_cell s i) = initial_cell s i.
Proof.
  unfold reset, initial_cell, with_value. cbn [isFixed row column value].
  destruct (Z.eqb_spec (digit_at s i) 0) as [->|]; reflexivity.
Qed.

Lemma reset_with_value c v : isFixed c = false -> reset (with_value c v) = reset c.
Proof. unfold reset, with_value. simpl. by intros ->. Qed.

Lemma board_ok_prefix h h' b : board_ok h b -> h `prefix_of` h' -> board_ok h' b.
Proof.
  intros [Hlen Hnd Hal Hpos] Hpre. split; try done.
  - intros l Hl. apply Hal in Hl. apply prefix_length in Hpre. lia.
  - intros i l Hi. rewrite deref_prefix with (h := h); [by apply Hpos|done|].
    apply Hal, list_elem_of_lookup. eauto.
Qed.

(** In the course of a game every cell, once reset, is the cell the
    definition gave. *)
Lemma played_invariant s b h :
  played s b h ->
  board_ok h b /\
  forall i l, cells b !! i = Some l -> reset (deref h l) = initial_cell s i.
Proof.
  induction 1 as [h0 b h E|b h r c v ok h' _ [Hok IH] E|b h u h' _ [Hok IH] E
                 |b h r c copy h' _ [Hok IH] E|b h plain arr h' _ [Hok IH] E].
  - destruct (new_Board_Ret _ _ _ _ E) as (s' & [= <-] & Hs).
    rewrite new_Board_valid in E by done.
    assert (b = mkBoard (seq (length h0) 81)) as -> by congruence.
    assert (h = h0 ++ map (initial_cell s) (seq 0 81)) as -> by congruence.
    clear E. split; [apply board_ok_new|]. intros i l Hi.
    change (seq (length h0) 81 !! i = Some l) in Hi.
    apply lookup_seq in Hi as [-> Hi].
    rewrite deref_initial_cell by done. apply reset_initial_cell.
  - rewrite setCellValue_index in E
      by first [apply (ok_length h b Hok)
               |intros; by apply (cell_at_allocated h b)].
    cbv zeta in E. destruct (_ && _); [|discriminate].
    destruct (isFixed (deref h (cell_at b _))) eqn:Hfix;
      injection E as <- <-; [done|].
    split; [by apply board_ok_store_value|]. intros i l Hi.
    rewrite <- (IH i l Hi).
    destruct (decide (cell_at b (Z.to_nat (calcCellIndexFromBoardPosition r c)) = l))
      as [<-|Hne].
    + rewrite deref_store_value_eq; [by apply reset_with_value|].
      apply (ok_allocated h b Hok), list_elem_of_lookup. eauto.
    + by rewrite deref_store_value_ne.
  - rewrite restart_spec in E by apply (ok_length h b Hok).
    injection E as <- <-. split.
    + destruct Hok as [Hlen Hnd Hal Hpos]. split; try done.
      * intros l Hl. rewrite length_reset_cells. by apply Hal.
      * intros i l Hi. rewrite deref_reset_cells.
        destruct (decide (l ∈ cells b)); [|by apply Hpos].
        rewrite <- (Hpos i l Hi). unfold reset.
        by destruct (deref h l) as [? ? ? []].
    + intros i l Hi. rewrite deref_reset_cells.
      destruct (decide (l ∈ cells b)); [|by apply IH].
      rewrite reset_reset. by apply IH.
  - unfold getCell in E.
    rewrite getCellAtPosition_index in E by apply (ok_length h b Hok).
    cbv zeta in E. destruct (_ && _); [|discriminate]. injection E as <- <-.
    split; [by apply board_ok_alloc|]. intros i l Hi.
    rewrite deref_prefix with (h := h); [by apply IH|by apply prefix_app_r|].
    apply (ok_allocated h b Hok), list_elem_of_lookup. eauto.
  - destruct (getBoard_spec plain h b Hok) as (arr' & h1 & E' & _ & Hpre & _).
    rewrite E' in E. injection E as <- <-.
    split; [by apply (board_ok_prefix h)|]. intros i l Hi.
    rewrite deref_prefix with (h := h); [by apply IH|done|].
    apply (ok_allocated h b Hok), list_elem_of_lookup. eauto.
Qed.

(** [X12] In the course of a game no call changes a given: the cell at
    index [i] keeps its row and column, it is fixed exactly when the digit
    at position [i] of the definition is not 0, and then its value is that
    digit. *)
Theorem givens_never_change s b h i l :
  played s b h -> cells b !! i = Some l ->
  (row (deref h l), column (deref h l)) = position_of_index i /\
  isFixed (deref h l) = negb (digit_at s i =? 0) /\
  (digit_at s i <> 0 -> value (deref h l) = digit_at s i).
Proof.
  intros Hplayed Hi. destruct (played_invariant s b h Hplayed) as [Hok Hinv].
  specialize (Hinv i l Hi). unfold reset, initial_cell in Hinv.
  split; [by apply (ok_position h b Hok)|].
  destruct (deref h l) as [r c v fixed]. cbn [isFixed value] in *.
  destruct fixed; injection Hinv as _ _ Hv Hf; (split; [done|]).
  - done.
  - intros Hd. apply Z.eqb_neq in Hd. rewrite Hd in Hf. done.
Qed.

Lemma givens_never_change_witness :
  played example_definition example_board (store_value example_heap 0%nat 5) /\
  cells example_board !! 4%nat = Some 4%nat /\
  (row (deref (store_value example_heap 0%nat 5) 4%nat),
   column (deref (store_value example_heap 0%nat 5) 4%nat)) =
    position_of_index 4 /\
  isFixed (deref (store_value example_heap 0%nat 5) 4%nat) =
    negb (digit_at example_definition 4 =? 0) /\
  (digit_at example_definition 4 <> 0 ->
   value (deref (store_value example_heap 0%nat 5) 4%nat) =
     digit_at example_definition 4).
Proof.
  assert (played example_definition example_board
                 (store_value example_heap 0%nat 5)) as Hplayed.
  { apply (played_setCellValue example_definition example_board example_heap
             1 1 5 true).
    - apply (played_new example_definition []). reflexivity.
    - vm_compute. reflexivity. }
  split; [exact Hplayed|]. split; [reflexivity|].
  apply (givens_never_change example_definition example_board _ 4%nat 4%nat Hplayed).
  reflexivity.
Defined.

(** [X13] At any point of a game [restart()] puts the board back into its
    original state: afterwards every cell is the cell the definition gave. *)
Theorem restart_original_state s b h :
  played s b h ->
  exists h',
    restart b h = (Ret tt, h') /\
    forall i l, cells b !! i = Some l -> deref h' l = initial_cell s i.
Proof.
  intros Hplayed. destruct (played_invariant s b h Hplayed) as [Hok Hinv].
  rewrite restart_spec by apply (ok_length h b Hok).
  eexists. split; [reflexivity|]. intros i l Hi. rewrite deref_reset_cells.
  destruct (decide (l ∈ cells b)) as [_|Hl]; [by apply Hinv|].
  destruct Hl. apply list_elem_of_lookup. eauto.
Qed.

Lemma restart_original_state_witness :
  played example_definition example_board (store_value example_heap 0%nat 5) /\
  exists h',
    restart example_board (store_value example_heap 0%nat 5) = (Ret tt, h') /\
    forall i l, cells example_board !! i = Some l ->
                deref h' l = initial_cell example_definition i.
Proof.
  assert (played example_definition example_board
                 (store_value example_heap 0%nat 5)) as Hplayed.
  { apply (played_setCellValue example_definition example_board example_heap
             1 1 5 true).
    - apply (played_new example_definition []). reflexivity.
    - vm_compute. reflexivity. }
  split; [exact Hplayed|].
  apply (restart_original_state example_definition example_board _ Hplayed).
Defined.

(** ** [unique] keeps the first occurrences *)

Lemma unique_from_app arr : forall result,
  fold_left (fun result elem =>
               if inArray elem result =? -1 then result ++ [elem] else result)
            arr result =
  result ++ filter (fun y => y ∉ result) (unique arr).
Proof.
  unfold unique. induction arr as [|e arr IH]; intros result; simpl.
  - by rewrite app_nil_r.
  - rewrite (IH [e]).
    destruct (Z.eqb_spec (inArray e result) (-1)) as [E|E].
    + apply inArray_not_found in E. rewrite IH, <- app_assoc. f_equal.
      simpl. rewrite filter_cons_True by done. f_equal.
      rewrite list_filter_filter. apply list_filter_iff. intros y.
      rewrite not_elem_of_app. tauto.
    + assert (e ∈ result) as He.
      { destruct (decide (e ∈ result)) as [?|Hn]; [done|].
        by apply inArray_not_found in Hn. }
      rewrite IH. f_equal. simpl. rewrite filter_cons_False by tauto.
      rewrite list_filter_filter_l; [done|].
      intros y Hy ->%list_elem_of_singleton. done.
Qed.

Lemma filter_absent (x : loc) (l : list loc) :
  x ∉ l -> filter (fun y => y <> x) l = l.
Proof.
  induction l as [|y l IH]; intros Hx; [done|].
  apply not_elem_of_cons in Hx as [Hne Hx].
  rewrite filter_cons_True by congruence. f_equal. by apply IH.
Qed.

(** [X14] [unique] keeps the first occurrence of every element, in order:
    the result of [unique] on [x :: arr] is [x] followed by the result on
    [arr] without [x].  The result has the elements of the argument and no
    element twice; a list without duplicates comes back as it is, and so
    does a result of [unique]. *)
Theorem unique_first_occurrences :
  unique [] = [] /\
  (forall x arr,
     unique (x :: arr) = x :: filter (fun y => y <> x) (unique arr)) /\
  (forall arr,
     NoDup (unique arr) /\
     (forall x, x ∈ unique arr <-> x ∈ arr) /\
     (NoDup arr -> unique arr = arr) /\
     unique (unique arr) = unique arr).
Proof.
  assert (forall x arr,
            unique (x :: arr) = x :: filter (fun y => y <> x) (unique arr))
    as Hcons.
  { intros x arr. unfold unique at 1. simpl. rewrite unique_from_app. simpl.
    f_equal. apply list_filter_iff. intros y.
    by rewrite list_elem_of_singleton. }
  assert (forall arr, NoDup arr -> unique arr = arr) as Hid.
  { induction arr as [|x arr IH]; intros Hnd; [done|].
    apply NoDup_cons in Hnd as [Hx Hnd]. rewrite Hcons, IH by done.
    f_equal. by apply filter_absent. }
  split; [done|]. split; [exact Hcons|]. intros arr.
  destruct (unique_spec arr) as [Hnd Hin].
  split; [done|]. split; [done|]. split; [apply Hid|by apply Hid].
Qed.

(** ** Successive moves *)

Lemma setCellValue_store h b r c v :
  board_ok h b -> on_board r c ->
  let cell := cell_at b (Z.to_nat (calcCellIndexFromBoardPosition r c)) in
  snd (setCellValue b r c v h) =
  if isFixed (deref h cell) then h else store_value h cell v.
Proof.
  intros Hok Hon. unfold on_board in Hon.
  rewrite setCellValue_index
    by first [apply (ok_length h b Hok)
             |intros; by apply (cell_at_allocated h b)].
  cbv zeta.
  destruct (Z.leb_spec 0 (calcCellIndexFromBoardPosition r c)); [|lia].
  destruct (Z.ltb_spec (calcCellIndexFromBoardPosition r c) 81); [|lia].
  cbn [andb]. by destruct (isFixed _).
Qed.

Lemma isFixed_store_value (h : heap) l v l' :
  isFixed (deref (store_value h l v) l') = isFixed (deref h l').
Proof.
  destruct (decide (l = l')) as [<-|Hne]; [|by rewrite deref_store_value_ne].
  unfold store_value, deref. destruct (h !! l) as [x|] eqn:E.
  - rewrite list_lookup_insert_eq by by eapply lookup_lt_Some. done.
  - rewrite list_insert_ge by by apply lookup_ge_None. by rewrite E.
Qed.

Lemma store_value_unallocated (h : heap) l v :
  h !! l = None -> store_value h l v = h.
Proof. intros E. unfold store_value. apply list_insert_ge. by apply lookup_ge_None. Qed.

Lemma store_value_twice (h : heap) l v v' :
  store_value (store_value h l v) l v' = store_value h l v'.
Proof.
  destruct (h !! l) as [x|] eqn:E.
  - unfold store_value at 1 3. unfold deref at 1. unfold store_value.
    rewrite list_lookup_insert_eq by by eapply lookup_lt_Some.
    rewrite list_insert_insert_eq. unfold deref. by rewrite E.
  - by rewrite !store_value_unallocated by by rewrite ?store_value_unallocated.
Qed.

Lemma store_value_commute (h : heap) l v l' v' :
  l <> l' ->
  store_value (store_value h l v) l' v' = store_value (store_value h l' v') l v.
Proof.
  intros Hne. unfold store_value at 1 3.
  rewrite !deref_store_value_ne by done. unfold store_value.
  by apply list_insert_insert_ne.
Qed.

(** [X15] Of two calls of [setCellValue] for the same cell the second
    decides: the board is as after the second call alone.  Two calls for
    different cells give the same board in either order.  The rows and
    columns are integers of magnitude at most [2 ^ 31] whose indices are on
    the board. *)
Theorem setCellValue_twice h b r c v r' c' v' :
  board_ok h b -> small r -> small c -> small r' -> small c' ->
  on_board r c -> on_board r' c' ->
  (calcCellIndexFromBoardPosition r c = calcCellIndexFromBoardPosition r' c' ->
   snd (setCellValue b r' c' v' (snd (setCellValue b r c v h))) =
   snd (setCellValue b r' c' v' h)) /\
  (calcCellIndexFromBoardPosition r c <> calcCellIndexFromBoardPosition r' c' ->
   snd (setCellValue b r' c' v' (snd (setCellValue b r c v h))) =
   snd (setCellValue b r c v (snd (setCellValue b r' c' v' h)))).
Proof.
  intros Hok _ _ _ _ Hon Hon'.
  rewrite (setCellValue_store h b r c v), (setCellValue_store h b r' c' v')
    by done.
  rewrite !setCellValue_store
    by first [done|cbv zeta; destruct (isFixed _);
                   [done|by apply board_ok_store_value]].
  cbv zeta.
  set (l := cell_at b (Z.to_nat (calcCellIndexFromBoardPosition r c))).
  set (l' := cell_at b (Z.to_nat (calcCellIndexFromBoardPosition r' c'))).
  split.
  - intros E. subst l l'. rewrite <- E.
    destruct (isFixed (deref h _)) eqn:Hfix; [by rewrite Hfix|].
    by rewrite isFixed_store_value, Hfix, store_value_twice.
  - intros Hne. assert (l <> l') as Hll.
    { subst l l'. intros E. unfold on_board in *.
      apply cell_at_inj in E;
        [lia|apply (ok_NoDup h b Hok)|rewrite (ok_length h b Hok); lia..]. }
    destruct (isFixed (deref h l)) eqn:Hfix;
      destruct (isFixed (deref h l')) eqn:Hfix';
      rewrite ?isFixed_store_value, ?Hfix, ?Hfix'; try done.
    by apply store_value_commute.
Qed.

Lemma setCellValue_twice_witness :
  board_ok example_heap example_board /\ small 1 /\ small 2 /\
  on_board 1 1 /\ on_board 2 2 /\
  (calcCellIndexFromBoardPosition 1 1 = calcCellIndexFromBoardPosition 2 2 ->
   snd (setCellValue example_board 2 2 4
          (snd (setCellValue example_board 1 1 3 example_heap))) =
   snd (setCellValue example_board 2 2 4 example_heap)) /\
  (calcCellIndexFromBoardPosition 1 1 <> calcCellIndexFromBoardPosition 2 2 ->
   snd (setCellValue example_board 2 2 4
          (snd (setCellValue example_board 1 1 3 example_heap))) =
   snd (setCellValue example_board 1 1 3
          (snd (setCellValue example_board 2 2 4 example_heap)))).
Proof.
  assert (on_board 1 1) as H1 by (unfold on_board; vm_compute; by split).
  assert (on_board 2 2) as H2 by (unfold on_board; vm_compute; by split).
  assert (small 1) as S1 by (unfold small; lia).
  assert (small 2) as S2 by (unfold small; lia).
  split; [exact example_ok|]. split; [exact S1|]. split; [exact S2|].
  split; [exact H1|]. split; [exact H2|].
  apply (setCellValue_twice example_heap example_board 1 1 3 2 2 4
           example_ok S1 S1 S2 S2 H1 H2).
Defined.

(** ** The runner *)

Lemma isCellInConflict_loop h cell suf : forall pre,
  for_loop (Z.of_nat (length pre)) (length suf) (fun i (_ : bool) =>
      let! conflictCell := array_get (pre ++ suf) i in
      let! row1 := get_row conflictCell in
      let! row2 := get_row cell in
      if row1 =? row2 then
        let! column1 := get_column conflictCell in
        let! column2 := get_column cell in
        if column1 =? column2 then ret (Exit true) else ret (Next false)
      else ret (Next false)) false h =
  (Ret (if existsb (fun l => bool_decide (position h l = position h cell)) suf
        then Exit true else Next false), h).
Proof.
  induction suf as [|l suf IH]; intros pre; [reflexivity|].
  cbn [length]. rewrite for_loop_S.
  assert (array_get (pre ++ l :: suf) (Z.of_nat (length pre)) h = (Ret l, h))
    as Hget.
  { unfold array_get. destruct (Z.ltb_spec (Z.of_nat (length pre)) 0); [lia|].
    rewrite Nat2Z.id, lookup_app_r, Nat.sub_diag by lia. reflexivity. }
  unfold bind at 1. rewrite Hget. unfold bind, get_row, get_column, ret.
  cbn [existsb]. unfold position at 1 2.
  destruct (Z.eqb_spec (row (deref h l)) (row (deref h cell))) as [Er|Er].
  - destruct (Z.eqb_spec (column (deref h l)) (column (deref h cell))) as [Ec|Ec].
    + rewrite bool_decide_eq_true_2 by congruence. reflexivity.
    + rewrite bool_decide_eq_false_2 by congruence. cbn [orb].
      replace (Z.of_nat (length pre) + 1) with (Z.of_nat (length (pre ++ [l])))
        by (rewrite length_app; simpl; lia).
      specialize (IH (pre ++ [l])). rewrite <- app_assoc in IH. exact IH.
  - rewrite bool_decide_eq_false_2 by congruence. cbn [orb].
    replace (Z.of_nat (length pre) + 1) with (Z.of_nat (length (pre ++ [l])))
      by (rewrite length_app; simpl; lia).
    specialize (IH (pre ++ [l])). rewrite <- app_assoc in IH. exact IH.
Qed.

(** [isCellInConflict] tells whether a cell of the list carries the
    position of the argument. *)
Lemma isCellInConflict_spec cs cell h :
  isCellInConflict cs cell h =
  (Ret (existsb (fun l => bool_decide (position h l = position h cell)) cs), h).
Proof.
  unfold isCellInConflict. unfold bind at 1.
  pose proof (isCellInConflict_loop h cell cs []) as E.
  change (Z.of_nat (length [])) with 0 in E. change ([] ++ cs) with cs in E.
  rewrite E. by destruct (existsb _ cs).
Qed.

Lemma position_of_index_of r c :
  1 <= r <= 9 -> 1 <= c <= 9 -> position_of_index (index_of r c) = (r, c).
Proof.
  intros Hr Hc. unfold position_of_index, index_of. rewrite Z2Nat.id by lia.
  f_equal; Z.div_mod_to_equations; lia.
Qed.

Lemma position_cell_at h b r c :
  board_ok h b -> 1 <= r <= 9 -> 1 <= c <= 9 ->
  cells b !! index_of r c = Some (cell_at b (index_of r c)) /\
  position h (cell_at b (index_of r c)) = (r, c).
Proof.
  intros Hok Hr Hc.
  assert (cells b !! index_of r c = Some (cell_at b (index_of r c))) as Hcell.
  { apply lookup_cell_at. rewrite (ok_length h b Hok). by apply index_of_lt. }
  split; [done|]. unfold position.
  rewrite (ok_position h b Hok _ _ Hcell). by apply position_of_index_of.
Qed.

(** [X16] With the result of [getConflicts()] for its list,
    [isCellInConflict] answers [true] for the object [getCell(row, col)]
    returns exactly when the cell at that position is in conflict. *)
Theorem isCellInConflict_getConflicts h b r c :
  board_ok h b -> 1 <= r <= 9 -> 1 <= c <= 9 ->
  exists cs copy h1 answer target,
    getConflicts b h = (Ret cs, h) /\
    getCell b r c h = (Ret copy, h1) /\
    isCellInConflict cs copy h1 = (Ret answer, h1) /\
    cells b !! index_of r c = Some target /\
    (answer = true <-> conflicting h b target).
Proof.
  intros Hok Hr Hc. pose proof (ok_length h b Hok) as Hlen.
  destruct (getConflicts_elem h b Hok) as (cs & Hcs & Hin).
  destruct (position_cell_at h b r c Hok Hr Hc) as [Hcell Hpos].
  set (target := cell_at b (index_of r c)) in *.
  exists cs, (length h), (h ++ [deref h target]), 
    (existsb (fun l => bool_decide (position (h ++ [deref h target]) l =
                                    position (h ++ [deref h target]) (length h)))
             cs), target.
  split; [done|]. split; [by apply getCell_spec|].
  split; [apply isCellInConflict_spec|]. split; [done|].
  assert (position (h ++ [deref h target]) (length h) = (r, c)) as Hcopy.
  { unfold position. erewrite deref_lookup;
      [exact Hpos|rewrite lookup_app_r by lia; by rewrite Nat.sub_diag]. }
  assert (forall l, l ∈ cells b ->
            position (h ++ [deref h target]) l = position h l) as Hold.
  { intros l Hl. unfold position. rewrite deref_prefix with (h := h);
      [done|by apply prefix_app_r|by apply (ok_allocated h b Hok)]. }
  rewrite existsb_exists. split.
  - intros (l & Hl%list_elem_of_In & Heq%bool_decide_eq_true).
    assert (l ∈ cells b) as Hlb.
    { apply Hin in Hl as (i & Hi & _). apply list_elem_of_lookup. eauto. }
    rewrite Hcopy, Hold in Heq by done.
    assert (l = target) as <-; [|by apply Hin].
    unfold position in Heq, Hpos.
    apply (board_position_inj h b); [done|done| |congruence|congruence].
    apply list_elem_of_lookup. eauto.
  - intros Hconf. exists target. split; [by apply list_elem_of_In, Hin|].
    apply bool_decide_eq_true. rewrite Hcopy, Hold; [done|].
    apply list_elem_of_lookup. eauto.
Qed.

Lemma isCellInConflict_getConflicts_witness :
  board_ok conflict_heap example_board /\ 1 <= 1 <= 9 /\ 1 <= 2 <= 9 /\
  exists cs copy h1 answer target,
    getConflicts example_board conflict_heap = (Ret cs, conflict_heap) /\
    getCell example_board 1 2 conflict_heap = (Ret copy, h1) /\
    isCellInConflict cs copy h1 = (Ret answer, h1) /\
    cells example_board !! index_of 1 2 = Some target /\
    (answer = true <-> conflicting conflict_heap example_board target).
Proof.
  split; [apply (board_ok_new conflict_definition [])|].
  split; [lia|]. split; [lia|].
  apply (isCellInConflict_getConflicts conflict_heap example_board 1 2);
    [apply (board_ok_new conflict_definition [])|lia|lia].
Defined.

Lemma adjacent_step h b r c :
  board_ok h b -> in_grid (r, c) ->
  (let! result := getCell b r c in ret (Some result)) h =
  (Ret (Some (length h)), h ++ [deref h (cell_at b (index_of r c))]).
Proof.
  intros Hok [Hr Hc]. unfold bind.
  by rewrite getCell_spec by first [apply (ok_length h b Hok)|done].
Qed.

Lemma getAdjacentCell_run h b cell direction :
  board_ok h b -> in_grid (position h cell) ->
  getAdjacentCell b cell direction h =
    match neighbour direction (position h cell) with
    | Some p =>
        if decide (1 <= fst p <= 9 /\ 1 <= snd p <= 9)
        then (Ret (Some (length h)),
              h ++ [deref h (cell_at b (index_of (fst p) (snd p)))])
        else (Ret None, h)
    | None => (Ret None, h)
    end.
Proof.
  intros Hok [Hr Hc]. unfold position in *. cbn [fst snd] in Hr, Hc.
  unfold neighbour, getAdjacentCell. cbn [fst snd].
  destruct (direction =? 0);
    [|destruct (direction =? 1);
      [|destruct (direction =? 2); [|destruct (direction =? 3); [|done]]]].
  - unfold bind at 1 2 3. unfold get_column at 1 2, get_row at 1.
    cbn [fst snd].
    destruct (Z.gtb_spec (column (deref h cell)) 1), (decide _) as [Hg|Hg];
      cbv beta; try lia; [by apply adjacent_step|done].
  - unfold bind at 1 2 3. unfold get_column at 1, get_row at 1 2.
    cbn [fst snd].
    destruct (Z.gtb_spec (row (deref h cell)) 1), (decide _) as [Hg|Hg];
      cbv beta; try lia; [by apply adjacent_step|done].
  - unfold bind at 1 2 3. unfold get_column at 1 2, get_row at 1.
    cbn [fst snd].
    destruct (Z.ltb_spec (column (deref h cell)) 9), (decide _) as [Hg|Hg];
      cbv beta; try lia; [by apply adjacent_step|done].
  - unfold bind at 1 2 3. unfold get_column at 1, get_row at 1 2.
    cbn [fst snd].
    destruct (Z.ltb_spec (row (deref h cell)) 9), (decide _) as [Hg|Hg];
      cbv beta; try lia; [by apply adjacent_step|done].
Qed.

(** [X17] From a cell whose position is in the grid [getAdjacentCell]
    returns a new object with the fields of the neighbour of that position
    to the left, above, to the right or below according to the direction
    0, 1, 2 or 3, and [null], changing nothing, when that neighbour would be
    off the grid or the direction is another number.  It never throws. *)
Theorem getAdjacentCell_neighbour h b cell direction :
  board_ok h b -> in_grid (position h cell) ->
  (forall p, neighbour direction (position h cell) = Some p -> in_grid p ->
     exists target,
       cells b !! index_of (fst p) (snd p) = Some target /\
       position h target = p /\
       getAdjacentCell b cell direction h =
         (Ret (Some (length h)), h ++ [deref h target]) /\
       (length h ∉ cells b)) /\
  (forall p, neighbour direction (position h cell) = Some p -> ~ in_grid p ->
     getAdjacentCell b cell direction h = (Ret None, h)) /\
  (neighbour direction (position h cell) = None ->
     getAdjacentCell b cell direction h = (Ret None, h)).
Proof.
  intros Hok Hg. rewrite (getAdjacentCell_run h b cell direction Hok Hg).
  assert (length h ∉ cells b) as Hfresh.
  { intros Hin. apply (ok_allocated h b Hok) in Hin. lia. }
  destruct (neighbour direction (position h cell)) as [p|];
    [|split; [|split]; done].
  split; [|split; [|done]].
  - intros ? [= <-] Hp. destruct (decide _) as [_|[]]; [|exact Hp].
    destruct (position_cell_at h b (fst p) (snd p) Hok) as [Hcell Hpos];
      [apply Hp..|].
    eexists. split; [exact Hcell|]. split; [|done].
    rewrite Hpos. by destruct p.
  - intros ? [= <-] Hp. by destruct (decide _).
Qed.

Lemma getAdjacentCell_neighbour_witness :
  board_ok example_heap example_board /\
  in_grid (position example_heap 0%nat) /\
  (forall p, neighbour 2 (position example_heap 0%nat) = Some p -> in_grid p ->
     exists target,
       cells example_board !! index_of (fst p) (snd p) = Some target /\
       position example_heap target = p /\
       getAdjacentCell example_board 0%nat 2 example_heap =
         (Ret (Some (length example_heap)),
          example_heap ++ [deref example_heap target]) /\
       (length example_heap ∉ cells example_board)) /\
  (forall p, neighbour 2 (position example_heap 0%nat) = Some p -> ~ in_grid p ->
     getAdjacentCell example_board 0%nat 2 example_heap = (Ret None, example_heap)) /\
  (neighbour 2 (position example_heap 0%nat) = None ->
     getAdjacentCell example_board 0%nat 2 example_heap = (Ret None, example_heap)).
Proof.
  assert (in_grid (position example_heap 0%nat)) as Hg
    by (unfold in_grid; vm_compute; by repeat split).
  split; [exact example_ok|]. split; [exact Hg|].
  apply (getAdjacentCell_neighbour example_heap example_board 0%nat 2
           example_ok Hg).
Defined.

(** [X18] [handleNumberInput] does nothing without an active cell.  With
    an active cell whose position is in the grid it never throws: it writes
    the number into the cell of the board at that position unless that cell
    is fixed; if [hasWon()] then returns [true] it clears the active cell,
    sets the flag and leaves the list of conflicts as it was; otherwise it
    replaces the list by the conflicting cells of the board as it is now. *)
Theorem handleNumberInput_spec h r number :
  board_ok h (board r) ->
  (activeCell r = None -> handleNumberInput number r h = (Ret r, h)) /\
  (forall cell, activeCell r = Some cell -> in_grid (position h cell) ->
     exists target h' r',
       cells (board r) !! index_of (fst (position h cell)) (snd (position h cell))
         = Some target /\
       handleNumberInput number r h = (Ret r', h') /\
       h' = (if isFixed (deref h target) then h else store_value h target number) /\
       board_ok h' (board r) /\
       ((hasWon (board r) h' = (Ret true, h') /\
         r' = mkRunner (board r) None true (conflicts r)) \/
        (hasWon (board r) h' = (Ret false, h') /\
         r' = mkRunner (board r) (activeCell r) (Runner_hasWon r) (conflicts r') /\
         getConflicts (board r) h' = (Ret (conflicts r'), h') /\
         forall l, l ∈ conflicts r' <-> conflicting h' (board r) l))).
Proof.
  intros Hok. split.
  - intros Hnone. unfold handleNumberInput. by rewrite Hnone.
  - intros cell Hcell [Hr Hc]. unfold position in *. cbn [fst snd] in *.
    pose proof (ok_length h _ Hok) as Hlen.
    set (target := cell_at (board r)
           (index_of (row (deref h cell)) (column (deref h cell)))).
    set (h' := if isFixed (deref h target) then h
               else store_value h target number).
    assert (board_ok h' (board r)) as Hok'.
    { subst h'. destruct (isFixed _); [done|by apply board_ok_store_value]. }
    assert (setCellValue (board r) (row (deref h cell)) (column (deref h cell))
              number h = (Ret (negb (isFixed (deref h target))), h')) as Hset.
    { rewrite setCellValue_spec
        by first [done|apply (cell_at_allocated h (board r)); [done|];
                       by apply index_of_lt].
      cbv zeta. subst h' target. by destruct (isFixed _). }
    destruct (hasWon_rows_solved h' (board r) Hok') as (won & Hwon & _).
    destruct (getConflicts_elem h' (board r) Hok') as (cs & Hcs & Hin).
    exists target, h'.
    exists (if won then mkRunner (board r) None true (conflicts r)
            else mkRunner (board r) (activeCell r) (Runner_hasWon r) cs).
    split; [apply lookup_cell_at; rewrite Hlen; by apply index_of_lt|].
    split; [|split; [done|split; [done|]]].
    + unfold handleNumberInput. rewrite Hcell.
      unfold bind at 1 2. unfold get_row at 1, get_column at 1.
      unfold bind at 1. rewrite Hset. unfold bind at 1. rewrite Hwon.
      destruct won; [reflexivity|]. unfold bind. by rewrite Hcs.
    + destruct won; [left|right]; (split; [done|]); [done|].
      cbn [conflicts]. done.
Qed.

Lemma handleNumberInput_spec_witness :
  board_ok example_heap (board (mkRunner example_board (Some 0%nat) false [])) /\
  (activeCell (mkRunner example_board (Some 0%nat) false []) = None ->
   handleNumberInput 9 (mkRunner example_board (Some 0%nat) false []) example_heap =
     (Ret (mkRunner example_board (Some 0%nat) false []), example_heap)) /\
  (forall cell,
     activeCell (mkRunner example_board (Some 0%nat) false []) = Some cell ->
     in_grid (position example_heap cell) ->
     exists target h' r',
       cells (board (mkRunner example_board (Some 0%nat) false []))
         !! index_of (fst (position example_heap cell))
                     (snd (position example_heap cell))
         = Some target /\
       handleNumberInput 9 (mkRunner example_board (Some 0%nat) false [])
                         example_heap = (Ret r', h') /\
       h' = (if isFixed (deref example_heap target) then example_heap
             else store_value example_heap target 9) /\
       board_ok h' (board (mkRunner example_board (Some 0%nat) false [])) /\
       ((hasWon (board (mkRunner example_board (Some 0%nat) false [])) h' =
           (Ret true, h') /\
         r' = mkRunner (board (mkRunner example_board (Some 0%nat) false []))
                       None true
                       (conflicts (mkRunner example_board (Some 0%nat) false []))) \/
        (hasWon (board (mkRunner example_board (Some 0%nat) false [])) h' =
           (Ret false, h') /\
         r' = mkRunner (board (mkRunner example_board (Some 0%nat) false []))
                (activeCell (mkRunner example_board (Some 0%nat) false []))
                (Runner_hasWon (mkRunner example_board (Some 0%nat) false []))
                (conflicts r') /\
         getConflicts (board (mkRunner example_board (Some 0%nat) false [])) h' =
           (Ret (conflicts r'), h') /\
         forall l, l ∈ conflicts r' <->
                   conflicting h'
                     (board (mkRunner example_board (Some 0%nat) false [])) l))).
Proof.
  split; [exact example_ok|].
  apply (handleNumberInput_spec example_heap
           (mkRunner example_board (Some 0%nat) false []) 9 example_ok).
Defined.

(** [X19] A step of [getAdjacentCell] can be taken back: from the object
    returned for one of the four directions, the opposite direction leads
    to an object with the position of the cell the step started from. *)
Theorem getAdjacentCell_back h b cell direction next h1 :
  board_ok h b -> in_grid (position h cell) ->
  getAdjacentCell b cell direction h = (Ret (Some next), h1) ->
  exists back h2,
    getAdjacentCell b next (opposite direction) h1 = (Ret (Some back), h2) /\
    position h2 back = position h cell.
Proof.
  intros Hok Hg Hrun.
  rewrite (getAdjacentCell_run h b cell direction Hok Hg) in Hrun.
  destruct (neighbour direction (position h cell)) as [p|] eqn:Hp;
    [|discriminate].
  destruct (decide _) as [Hgp|]; [|discriminate]. injection Hrun as <- <-.
  destruct (position_cell_at h b (fst p) (snd p) Hok) as [_ Hpos];
    [apply Hgp..|].
  set (target := cell_at b (index_of (fst p) (snd p))) in *.
  assert (board_ok (h ++ [deref h target]) b) as Hok1 by by apply board_ok_alloc.
  assert (position (h ++ [deref h target]) (length h) = p) as Hnext.
  { unfold position in *. erewrite deref_lookup;
      [by destruct p|rewrite lookup_app_r by lia; by rewrite Nat.sub_diag]. }
  assert (neighbour (opposite direction) p = Some (position h cell)) as Hback.
  { unfold neighbour in Hp |- *. unfold opposite.
    destruct (position h cell) as [r c]. cbn [fst snd] in *.
    destruct (Z.eqb_spec direction 0) as [->|];
      [injection Hp as <-; cbn; f_equal; f_equal; lia|].
    destruct (Z.eqb_spec direction 1) as [->|];
      [injection Hp as <-; cbn; f_equal; f_equal; lia|].
    destruct (Z.eqb_spec direction 2) as [->|];
      [injection Hp as <-; cbn; f_equal; f_equal; lia|].
    destruct (Z.eqb_spec direction 3) as [->|]; [|discriminate].
    injection Hp as <-. cbn. f_equal. f_equal. lia. }
  rewrite (getAdjacentCell_run (h ++ [deref h target]) b (length h)
             (opposite direction) Hok1) by by rewrite Hnext.
  rewrite Hnext, Hback. destruct (decide _) as [_|[]]; [|exact Hg].
  eexists _, _. split; [reflexivity|].
  destruct (position_cell_at (h ++ [deref h target]) b
              (fst (position h cell)) (snd (position h cell)) Hok1)
    as [_ Hpos1]; [apply Hg..|].
  unfold position in *. erewrite deref_lookup;
    [|rewrite lookup_app_r by lia; by rewrite Nat.sub_diag].
  exact Hpos1.
Qed.

Lemma getAdjacentCell_back_witness :
  board_ok example_heap example_board /\
  in_grid (position example_heap 0%nat) /\
  getAdjacentCell example_board 0%nat 3 example_heap =
    (Ret (Some 81%nat), example_heap ++ [deref example_heap 9%nat]) /\
  exists back h2,
    getAdjacentCell example_board 81%nat (opposite 3)
                    (example_heap ++ [deref example_heap 9%nat]) =
      (Ret (Some back), h2) /\
    position h2 back = position example_heap 0%nat.
Proof.
  assert (in_grid (position example_heap 0%nat)) as Hg
    by (unfold in_grid; vm_compute; by repeat split).
  assert (getAdjacentCell example_board 0%nat 3 example_heap =
            (Ret (Some 81%nat), example_heap ++ [deref example_heap 9%nat]))
    as Hrun by (vm_compute; reflexivity).
  split; [exact example_ok|]. split; [exact Hg|]. split; [exact Hrun|].
  apply (getAdjacentCell_back example_heap example_board 0%nat 3 81%nat _
           example_ok Hg Hrun).
Defined.

(** ** Two boards *)

(** [X20] Two boards constructed one after the other share no cell: a
    [setCellValue] or a [restart] on the second leaves the cells of the
    first as they are, whatever the arguments. *)
Theorem boards_share_no_cell s1 s2 h0 b1 h1 b2 h2 :
  new_Board (JsString s1) h0 = (Ret b1, h1) ->
  new_Board (JsString s2) h1 = (Ret b2, h2) ->
  board_ok h2 b1 /\ board_ok h2 b2 /\
  (forall l, l ∈ cells b1 -> l ∉ cells b2) /\
  (forall r c v, same_cells b1 (snd (setCellValue b2 r c v h2)) h2) /\
  same_cells b1 (snd (restart b2 h2)) h2.
Proof.
  intros E1 E2.
  destruct (new_Board_Ret _ _ _ _ E1) as (s & [= <-] & Hs1).
  destruct (new_Board_Ret _ _ _ _ E2) as (s & [= <-] & Hs2).
  rewrite new_Board_valid in E1, E2 by done.
  assert (b1 = mkBoard (seq (length h0) 81)) as -> by congruence.
  assert (h1 = h0 ++ map (initial_cell s1) (seq 0 81)) as -> by congruence.
  assert (b2 = mkBoard (seq (length (h0 ++ map (initial_cell s1) (seq 0 81))) 81))
    as -> by congruence.
  assert (h2 = (h0 ++ map (initial_cell s1) (seq 0 81)) ++
               map (initial_cell s2) (seq 0 81)) as -> by congruence.
  clear E1 E2.
  set (h1 := h0 ++ map (initial_cell s1) (seq 0 81)).
  set (h2 := h1 ++ map (initial_cell s2) (seq 0 81)).
  set (b1 := mkBoard (seq (length h0) 81)).
  set (b2 := mkBoard (seq (length h1) 81)).
  assert (board_ok h1 b1) as Hok1 by apply board_ok_new.
  assert (board_ok h2 b2) as Hok2 by apply board_ok_new.
  assert (board_ok h2 b1) as Hok12
    by (apply (board_ok_prefix h1); [done|by apply prefix_app_r]).
  assert (forall l, l ∈ cells b1 -> l ∉ cells b2) as Hdisj.
  { intros l Hl Hl'. apply (ok_allocated h1 b1 Hok1) in Hl.
    change (l ∈ seq (length h1) 81) in Hl'. apply elem_of_seq in Hl'. lia. }
  split; [done|]. split; [done|]. split; [done|]. split.
  - intros r c v l Hl.
    rewrite setCellValue_index
      by first [apply (ok_length h2 b2 Hok2)
               |intros; by apply (cell_at_allocated h2 b2)].
    cbv zeta. destruct (_ && _) eqn:Hrange; [|done].
    destruct (isFixed _); [done|]. cbn [snd].
    apply deref_store_value_ne. intros <-. apply (Hdisj _ Hl).
    apply list_elem_of_lookup. eexists. apply lookup_cell_at.
    rewrite (ok_length h2 b2 Hok2).
    apply andb_true_iff in Hrange as [?%Z.leb_le ?%Z.ltb_lt]. lia.
  - intros l Hl. rewrite restart_spec by apply (ok_length h2 b2 Hok2).
    cbn [snd]. rewrite deref_reset_cells.
    destruct (decide (l ∈ cells b2)) as [Hl'|]; [|done].
    by destruct (Hdisj l Hl).
Qed.

Lemma boards_share_no_cell_witness :
  new_Board (JsString example_definition) [] = (Ret example_board, example_heap) /\
  new_Board (JsString conflict_definition) example_heap =
    (Ret (mkBoard (seq 81 81)),
     example_heap ++ map (initial_cell conflict_definition) (seq 0 81)) /\
  board_ok (example_heap ++ map (initial_cell conflict_definition) (seq 0 81))
           example_board /\
  board_ok (example_heap ++ map (initial_cell conflict_definition) (seq 0 81))
           (mkBoard (seq 81 81)) /\
  (forall l, l ∈ cells example_board -> l ∉ cells (mkBoard (seq 81 81))) /\
  (forall r c v,
     same_cells example_board
       (snd (setCellValue (mkBoard (seq 81 81)) r c v
               (example_heap ++ map (initial_cell conflict_definition) (seq 0 81))))
       (example_heap ++ map (initial_cell conflict_definition) (seq 0 81))) /\
  same_cells example_board
    (snd (restart (mkBoard (seq 81 81))
            (example_heap ++ map (initial_cell conflict_definition) (seq 0 81))))
    (example_heap ++ map (initial_cell conflict_definition) (seq 0 81)).
Proof.
  assert (new_Board (JsString conflict_definition) example_heap =
            (Ret (mkBoard (seq 81 81)),
             example_heap ++ map (initial_cell conflict_definition) (seq 0 81)))
    as E2 by reflexivity.
  split; [exact example_new|]. split; [exact E2|].
  apply (boards_share_no_cell example_definition conflict_definition []
           example_board example_heap _ _ example_new E2).
Defined.

(** ** The boards of the game *)

Lemma group_pairs_spec i j :
  (i, j) ∈ group_pairs <->
  (i < 81)%nat /\ (j < 81)%nat /\ i <> j /\ same_group i j.
Proof.
  unfold group_pairs. rewrite list_elem_of_In, filter_In, in_prod_iff, !in_seq.
  cbn [fst snd]. rewrite andb_true_iff, negb_true_iff, Nat.eqb_neq,
    same_groupb_spec. intuition lia.
Qed.

(** The board of a definition without a repeated given has no conflict. *)
Lemma fresh_board_no_conflict s h0 l :
  forallb (fun p => negb (givens_clash s (fst p) (snd p))) group_pairs = true ->
  ~ conflicting (h0 ++ map (initial_cell s) (seq 0 81))
                (mkBoard (seq (length h0) 81)) l.
Proof.
  intros Hall (i & Hi & Hv & j & l' & Hj & Hne & Hsg & Heq).
  change (seq (length h0) 81 !! i = Some l) in Hi.
  change (seq (length h0) 81 !! j = Some l') in Hj.
  apply lookup_seq in Hi as [-> Hi]. apply lookup_seq in Hj as [-> Hj].
  rewrite !deref_initial_cell in * by done.
  unfold initial_cell in Hv, Heq. cbn [value] in Hv, Heq.
  rewrite forallb_forall in Hall.
  assert (In (i, j) group_pairs) as Hin
    by (apply list_elem_of_In, group_pairs_spec; repeat split; try done; lia).
  apply Hall in Hin. cbn [fst snd] in Hin. unfold givens_clash in Hin.
  apply negb_true_iff, andb_false_iff in Hin as [Hz|Hd].
  - apply negb_false_iff, Z.eqb_eq in Hz. done.
  - apply Z.eqb_neq in Hd. congruence.
Qed.

(** What [playable] says of the board constructed from the definition. *)
Lemma playable_spec s h0 :
  playable s = true ->
  exists b h,
    new_Board (JsString s) h0 = (Ret b, h) /\ board_ok h b /\
    getConflicts b h = (Ret [], h) /\ hasWon b h = (Ret false, h).
Proof.
  unfold playable, playable_with.
  rewrite !andb_true_iff, Nat.eqb_eq, existsb_exists.
  intros [[[Hlen Hdig] (i & Hi & Hz)] Hpairs].
  apply in_seq in Hi. apply Z.eqb_eq in Hz.
  pose proof (all_digits_valid s Hlen Hdig) as Hvalid.
  pose proof (board_ok_new s h0) as Hok.
  eexists _, _. split; [by apply new_Board_valid|]. split; [done|]. split.
  - destruct (getConflicts_elem _ _ Hok) as (res & -> & Hres).
    destruct res as [|l res]; [done|].
    destruct (fresh_board_no_conflict s h0 l Hpairs). apply Hres, elem_of_cons.
    by left.
  - destruct (hasWon_rows_solved _ _ Hok) as (won & -> & Hwon).
    destruct won; [|done].
    destruct (rows_solved_no_empty_cell _ _ (length h0 + i)%nat
                (ok_length _ _ Hok) (proj1 Hwon eq_refl)).
    + change ((length h0 + i)%nat ∈ seq (length h0) 81).
      apply elem_of_seq. lia.
    + rewrite deref_initial_cell by lia. exact Hz.
Qed.

Lemma sudokuBoards_playable : forallb playable sudokuBoards = true.
Proof. vm_cast_no_check (eq_refl true). Qed.

(** [X21] Every definition of the table [sudokuBoards] constructs a board:
    [new Board] does not throw on it, and on the board it returns
    [getConflicts()] is empty and [hasWon()] is [false]. *)
Theorem sudokuBoards_start def h0 :
  def ∈ sudokuBoards ->
  exists b h,
    new_Board (JsString def) h0 = (Ret b, h) /\ board_ok h b /\
    getConflicts b h = (Ret [], h) /\ hasWon b h = (Ret false, h).
Proof.
  intros Hdef%list_elem_of_In. apply playable_spec.
  pose proof sudokuBoards_playable as Hall. rewrite forallb_forall in Hall.
  by apply Hall.
Qed.

Lemma sudokuBoards_start_witness :
  example_definition ∈ sudokuBoards /\
  exists b h,
    new_Board (JsString example_definition) [] = (Ret b, h) /\ board_ok h b /\
    getConflicts b h = (Ret [], h) /\ hasWon b h = (Ret false, h).
Proof.
  assert (example_definition ∈ sudokuBoards) as Hdef by apply list_elem_of_here.
  split; [exact Hdef|].
  apply (sudokuBoards_start example_definition [] Hdef).
Defined.

(** ** The cells the traversals hand to the callback *)

Lemma grouped_in_range gs :
  groups_ok gs ->
  Forall (fun v : visit => (fst (fst v) < 81)%nat) (grouped gs).
Proof.
  intros Hgs. unfold grouped. apply Forall_forall. intros v Hv.
  apply list_elem_of_In, in_flat_map in Hv as ([x g] & Hg & Hv).
  unfold groups_ok in Hgs. rewrite Forall_forall in Hgs.
  destruct (Hgs (x, g)) as (_ & _ & Hlt); [by apply list_elem_of_In|].
  rewrite Forall_forall in Hlt. simpl in Hv, Hlt.
  destruct g as [|i g]; [done|]. simpl in Hv.
  destruct Hv as [<-|Hv]; [apply Hlt; by left|].
  apply in_map_iff in Hv as (j & <- & Hj). apply Hlt. right.
  by apply list_elem_of_In.
Qed.

(** A traversal over indices of the board calls the callback with the
    cells at these indices, whatever the callback does to the store. *)
Lemma walk_visit_all {S} b (cb : callback S) order :
  Forall (fun v : visit => (fst (fst v) < length (cells b))%nat) order ->
  forall s h, walk order b cb s h = visit_all (located b order) cb s h.
Proof.
  intros Hin s h. unfold walk, visit_all, located.
  apply bind_cong_l. rewrite for_each_map.
  apply for_each_ext_Forall. eapply Forall_impl; [exact Hin|].
  intros [[i x] newX] Hi s' h'. cbn [fst snd] in *.
  unfold visit_body. cbn [fst snd]. unfold bind at 1.
  by rewrite array_get_cell.
Qed.

Lemma traversal_cells h b gs :
  board_ok h b -> groups_ok gs ->
  (forall S (cb : callback S) s h',
     walk (grouped gs) b cb s h' = visit_all (located b (grouped gs)) cb s h') /\
  (forall n, (1 <= n)%nat ->
     walk (grouped gs) b (record_until n) [] h =
       (Ret (take n (located b (grouped gs))), h)).
Proof.
  intros Hok Hgs. pose proof (ok_length h b Hok) as Hlen. split.
  - intros S cb s h'. apply walk_visit_all. rewrite Hlen.
    by apply grouped_in_range.
  - intros n Hn. by apply walk_record.
Qed.

(** [C9] [walkCellsByBox] calls the callback with the cells of the nine
    boxes in order, and with nothing else: with any callback it makes the
    calls [located b (grouped box_groups)] until the callback returns
    [false], and a callback that notes its arguments has noted exactly the
    first [n] of them when it stops at its [n]th call.  The cell handed
    over for the index of a position of the grid is the cell of the board
    with that row and column.  The visits of box [bx] are the nine cells of
    the rows [3 * ((bx - 1) / 3) + 1 ..] times the columns
    [3 * ((bx - 1) mod 3) + 1 ..] in row-major order, the first of them
    beginning the group and no other; the 81 visits reach every cell of the
    board exactly once. *)
Theorem walkCellsByBox_visits h b :
  board_ok h b ->
  (forall S (cb : callback S) s h',
     walkCellsByBox b cb s h' =
       visit_all (located b (grouped box_groups)) cb s h') /\
  (forall n, (1 <= n)%nat ->
     walkCellsByBox b (record_until n) [] h =
       (Ret (take n (located b (grouped box_groups))), h)) /\
  (forall r c, 1 <= r <= 9 -> 1 <= c <= 9 ->
     cells b !! index_of r c = Some (cell_at b (index_of r c)) /\
     position h (cell_at b (index_of r c)) = (r, c)) /\
  (forall bx, 1 <= bx <= 9 ->
     filter (fun v : visit => snd (fst v) = bx) (grouped box_groups) =
       mark bx (map (fun p => index_of (fst p) (snd p)) (box_positions bx)) /\
     box_positions bx =
       flat_map (fun r => map (fun c => (r, c))
                              (zrange (3 * ((bx - 1) mod 3) + 1) 3))
                (zrange (3 * ((bx - 1) / 3) + 1) 3) /\
     length (box_positions bx) = 9%nat) /\
  (forall i bx newBox, (i, bx, newBox) ∈ grouped box_groups ->
     1 <= bx <= 9 /\
     (newBox = true <->
      i = index_of (3 * ((bx - 1) / 3) + 1) (3 * ((bx - 1) mod 3) + 1))) /\
  length (grouped box_groups) = 81%nat /\
  map visit_index (grouped box_groups) ≡ₚ seq 0 81.
Proof.
  intros Hok.
  destruct (traversal_cells h b box_groups Hok groups_ok_boxes) as [Hany Hrec].
  split; [intros; rewrite walkCellsByBox_walk; apply Hany|].
  split; [intros; rewrite walkCellsByBox_walk; by apply Hrec|].
  split; [intros; by apply position_cell_at|].
  split; [|split; [|split]].
  - intros bx Hbx.
    assert (bx = 1 \/ bx = 2 \/ bx = 3 \/ bx = 4 \/ bx = 5 \/ bx = 6 \/
            bx = 7 \/ bx = 8 \/ bx = 9) as Hcases by lia.
    repeat (destruct Hcases as [->|Hcases]); try subst bx;
      (split; [|split]); vm_compute; reflexivity.
  - assert (Forall (fun v : visit =>
              1 <= snd (fst v) <= 9 /\
              (snd v = true <->
               fst (fst v) =
               index_of (3 * ((snd (fst v) - 1) / 3) + 1)
                        (3 * ((snd (fst v) - 1) mod 3) + 1)))
              (grouped box_groups)) as Hall.
    { compute_done. }
    rewrite Forall_forall in Hall. intros i bx newBox Hv.
    apply (Hall _ Hv).
  - reflexivity.
  - apply NoDup_Permutation.
    + compute_done.
    + apply NoDup_seq.
    + intros i. rewrite elem_of_seq. split.
      * intros Hi. revert i Hi. apply Forall_forall. compute_done.
      * intros [_ Hi]. revert i Hi. change (0 + 81)%nat with 81%nat.
        assert (Forall (fun i => i ∈ map visit_index (grouped box_groups))
                       (seq 0 81)) as Hall by compute_done.
        rewrite Forall_forall in Hall. intros i Hi. apply Hall.
        apply elem_of_seq. lia.
Qed.

Lemma walkCellsByBox_visits_witness :
  board_ok example_heap example_board /\
  walkCellsByBox example_board (record_until 11) [] example_heap =
    (Ret [(0%nat, 1, true); (1%nat, 1, false); (2%nat, 1, false);
          (9%nat, 1, false); (10%nat, 1, false); (11%nat, 1, false);
          (18%nat, 1, false); (19%nat, 1, false); (20%nat, 1, false);
          (3%nat, 2, true); (4%nat, 2, false)],
     example_heap).
Proof.
  split; [exact example_ok|].
  apply (proj1 (proj2 (walkCellsByBox_visits example_heap example_board
                         example_ok)) 11%nat).
  lia.
Defined.

(** [X3] [walkCellsByRow] calls the callback with the cells of the nine
    rows in order, and with nothing else: with any callback it makes the
    calls [located b (grouped row_groups)] until the callback returns
    [false], and a callback that notes its arguments has noted exactly the
    first [n] of them when it stops at its [n]th call.  The cell handed
    over for the index of a position of the grid is the cell of the board
    with that row and column.  Row [r] is group [r], its cells come by
    ascending column, the cell of column 1 begins the group and no other
    does; the 81 visits are the cells of the board in index order. *)
Theorem walkCellsByRow_visits h b :
  board_ok h b ->
  (forall S (cb : callback S) s h',
     walkCellsByRow b cb s h' =
       visit_all (located b (grouped row_groups)) cb s h') /\
  (forall n, (1 <= n)%nat ->
     walkCellsByRow b (record_until n) [] h =
       (Ret (take n (located b (grouped row_groups))), h)) /\
  (forall r c, 1 <= r <= 9 -> 1 <= c <= 9 ->
     cells b !! index_of r c = Some (cell_at b (index_of r c)) /\
     position h (cell_at b (index_of r c)) = (r, c)) /\
  (forall r, 1 <= r <= 9 ->
     filter (fun v : visit => snd (fst v) = r) (grouped row_groups) =
       mark r (map (fun c => index_of r c) (zrange 1 9))) /\
  (forall i r newRow, (i, r, newRow) ∈ grouped row_groups ->
     r = fst (position_of_index i) /\
     (newRow = true <-> snd (position_of_index i) = 1)) /\
  map visit_index (grouped row_groups) = seq 0 81.
Proof.
  intros Hok.
  destruct (traversal_cells h b row_groups Hok groups_ok_rows) as [Hany Hrec].
  split; [intros; rewrite walkCellsByRow_walk; apply Hany|].
  split; [intros; rewrite walkCellsByRow_walk; by apply Hrec|].
  split; [intros; by apply position_cell_at|].
  split; [|split].
  - intros r Hr.
    assert (r = 1 \/ r = 2 \/ r = 3 \/ r = 4 \/ r = 5 \/ r = 6 \/
            r = 7 \/ r = 8 \/ r = 9) as Hcases by lia.
    repeat (destruct Hcases as [->|Hcases]); try subst r;
      vm_compute; reflexivity.
  - assert (Forall (fun v : visit =>
              snd (fst v) = fst (position_of_index (fst (fst v))) /\
              (snd v = true <-> snd (position_of_index (fst (fst v))) = 1))
              (grouped row_groups)) as Hall by compute_done.
    rewrite Forall_forall in Hall. intros i r newRow Hv.
    apply (Hall _ Hv).
  - reflexivity.
Qed.

Lemma walkCellsByRow_visits_witness :
  board_ok example_heap example_board /\
  walkCellsByRow example_board (record_until 11) [] example_heap =
    (Ret [(0%nat, 1, true); (1%nat, 1, false); (2%nat, 1, false);
          (3%nat, 1, false); (4%nat, 1, false); (5%nat, 1, false);
          (6%nat, 1, false); (7%nat, 1, false); (8%nat, 1, false);
          (9%nat, 2, true); (10%nat, 2, false)],
     example_heap).
Proof.
  split; [exact example_ok|].
  apply (proj1 (proj2 (walkCellsByRow_visits example_heap example_board
                         example_ok)) 11%nat).
  lia.
Defined.

(** [X4] [walkCellsByColumn] calls the callback with the cells of the nine
    columns in order, and with nothing else: with any callback it makes the
    calls [located b (grouped column_groups)] until the callback returns
    [false], and a callback that notes its arguments has noted exactly the
    first [n] of them when it stops at its [n]th call.  The cell handed
    over for the index of a position of the grid is the cell of the board
    with that row and column.  Column [c] is group [c], its cells come by
    ascending row, the cell of row 1 begins the group and no other does;
    the 81 visits reach every cell of the board exactly once. *)
Theorem walkCellsByColumn_visits h b :
  board_ok h b ->
  (forall S (cb : callback S) s h',
     walkCellsByColumn b cb s h' =
       visit_all (located b (grouped column_groups)) cb s h') /\
  (forall n, (1 <= n)%nat ->
     walkCellsByColumn b (record_until n) [] h =
       (Ret (take n (located b (grouped column_groups))), h)) /\
  (forall r c, 1 <= r <= 9 -> 1 <= c <= 9 ->
     cells b !! index_of r c = Some (cell_at b (index_of r c)) /\
     position h (cell_at b (index_of r c)) = (r, c)) /\
  (forall c, 1 <= c <= 9 ->
     filter (fun v : visit => snd (fst v) = c) (grouped column_groups) =
       mark c (map (fun r => index_of r c) (zrange 1 9))) /\
  (forall i c newCol, (i, c, newCol) ∈ grouped column_groups ->
     c = snd (position_of_index i) /\
     (newCol = true <-> fst (position_of_index i) = 1)) /\
  length (grouped column_groups) = 81%nat /\
  map visit_index (grouped column_groups) ≡ₚ seq 0 81.
Proof.
  intros Hok.
  destruct (traversal_cells h b column_groups Hok groups_ok_columns)
    as [Hany Hrec].
  split; [intros; rewrite walkCellsByColumn_walk; apply Hany|].
  split; [intros; rewrite walkCellsByColumn_walk; by apply Hrec|].
  split; [intros; by apply position_cell_at|].
  split; [|split; [|split]].
  - intros c Hc.
    assert (c = 1 \/ c = 2 \/ c = 3 \/ c = 4 \/ c = 5 \/ c = 6 \/
            c = 7 \/ c = 8 \/ c = 9) as Hcases by lia.
    repeat (destruct Hcases as [->|Hcases]); try subst c;
      vm_compute; reflexivity.
  - assert (Forall (fun v : visit =>
              snd (fst v) = snd (position_of_index (fst (fst v))) /\
              (snd v = true <-> fst (position_of_index (fst (fst v))) = 1))
              (grouped column_groups)) as Hall by compute_done.
    rewrite Forall_forall in Hall. intros i c newCol Hv.
    apply (Hall _ Hv).
  - reflexivity.
  - apply NoDup_Permutation.
    + compute_done.
    + apply NoDup_seq.
    + intros i. rewrite elem_of_seq. split.
      * intros Hi. revert i Hi. apply Forall_forall. compute_done.
      * intros [_ Hi]. revert i Hi. change (0 + 81)%nat with 81%nat.
        assert (Forall (fun i => i ∈ map visit_index (grouped column_groups))
                       (seq 0 81)) as Hall by compute_done.
        rewrite Forall_forall in Hall. intros i Hi. apply Hall.
        apply elem_of_seq. lia.
Qed.

Lemma walkCellsByColumn_visits_witness :
  board_ok example_heap example_board /\
  walkCellsByColumn example_board (record_until 11) [] example_heap =
    (Ret [(0%nat, 1, true); (9%nat, 1, false); (18%nat, 1, false);
          (27%nat, 1, false); (36%nat, 1, false); (45%nat, 1, false);
          (54%nat, 1, false); (63%nat, 1, false); (72%nat, 1, false);
          (1%nat, 2, true); (10%nat, 2, false)],
     example_heap).
Proof.
  split; [exact example_ok|].
  apply (proj1 (proj2 (walkCellsByColumn_visits example_heap example_board
                         example_ok)) 11%nat).
  lia.
Defined.
